(** * siagro: the CEPALSTAT fetch-and-enrich pipeline of [utils_siagro.py]

    A shallow embedding of [load_dimension_data] and [cepal_data].  Parsed
    JSON is a value of [pyval]; a pandas frame is a list of column labels
    and a list of rows; the remote API, the disk cache and the logger are
    threaded through an explicit state.  Library functions whose code is
    not part of the repository (Python's [str], [lower], [upper], pandas'
    [to_numeric], its dtype inference, its [.str] accessor, its frame
    constructor on shapes other than a list of records and its assignment
    of a list or an object to a column) are the fields of a class. *)

From Stdlib Require Import List String Ascii ZArith QArith Bool Lia.
Import ListNotations.
Local Open Scope string_scope.
Local Open Scope list_scope.
Local Open Scope Z_scope.

(** ** Python values *)

(** What [response.json()] returns, and what a cell of a frame holds.  A
    finite float is the rational it denotes; [PyNaN] is pandas' null.  The
    association list of [PyDict] is in insertion order and is read by its
    first binding of a key. *)
#[warnings="-register-all"]
Inductive pyval : Type :=
| PyNone
| PyBool (b : bool)
| PyInt (n : Z)
| PyFloat (q : Q)
| PyNaN
| PyStr (s : string)
| PyList (l : list pyval)
| PyDict (d : list (string * pyval)).

Inductive exn : Type :=
| ConnectionError
| JSONDecodeError
| KeyError
| IndexError
| TypeError
| ValueError
| AttributeError
| OSError.

Inductive result (A : Type) : Type :=
| Ok (a : A)
| Raise (e : exn).
Arguments Ok {A} a.
Arguments Raise {A} e.

Definition rbind {A B : Type} (m : result A) (k : A -> result B) : result B :=
  match m with
  | Ok a => k a
  | Raise e => Raise e
  end.

Notation "x <-r m ;; k" := (rbind m (fun x => k))
  (at level 61, m at next level, right associativity).

(** Dictionaries with string keys: lookup, and [d[k] = v], which keeps the
    position of a key that is already there. *)
Fixpoint dict_get {V : Type} (k : string) (d : list (string * V)) : option V :=
  match d with
  | [] => None
  | (k', v) :: d' => if String.eqb k k' then Some v else dict_get k d'
  end.

Fixpoint dict_set {V : Type} (k : string) (v : V) (d : list (string * V))
  : list (string * V) :=
  match d with
  | [] => [(k, v)]
  | (k', v') :: d' =>
      if String.eqb k k' then (k', v) :: d' else (k', v') :: dict_set k v d'
  end.

Definition dict_mem {V : Type} (k : string) (d : list (string * V)) : bool :=
  match dict_get k d with Some _ => true | None => false end.

Definition mem (c : string) (l : list string) : bool :=
  existsb (String.eqb c) l.

(** [needle in hay] on strings. *)
Fixpoint is_substring (needle hay : string) : bool :=
  String.prefix needle hay
  || match hay with
     | EmptyString => false
     | String _ hay' => is_substring needle hay'
     end.

Definition Qzero (q : Q) : bool := Qeq_bool q 0%Q.

(** Truth value of an object ([if x], [not x]). *)
Definition truthy (v : pyval) : bool :=
  match v with
  | PyNone => false
  | PyBool b => b
  | PyInt n => negb (n =? 0)
  | PyFloat q => negb (Qzero q)
  | PyNaN => true
  | PyStr s => negb (String.eqb s "")
  | PyList l => match l with [] => false | _ => true end
  | PyDict d => match d with [] => false | _ => true end
  end.

(** [v[k]] for a string [k]. *)
Definition getitem (v : pyval) (k : string) : result pyval :=
  match v with
  | PyDict d => match dict_get k d with Some x => Ok x | None => Raise KeyError end
  | _ => Raise TypeError
  end.

(** [k in v] for a string [k]. *)
Definition contains (k : string) (v : pyval) : result bool :=
  match v with
  | PyDict d => Ok (dict_mem k d)
  | PyList l =>
      Ok (existsb (fun x => match x with PyStr s => String.eqb s k | _ => false end) l)
  | PyStr s => Ok (is_substring k s)
  | _ => Raise TypeError
  end.

(** [v[0]]. *)
Definition getitem0 (v : pyval) : result pyval :=
  match v with
  | PyList (x :: _) => Ok x
  | PyList [] => Raise IndexError
  | PyDict _ => Raise KeyError
  | PyStr (String a _) => Ok (PyStr (String a EmptyString))
  | PyStr EmptyString => Raise IndexError
  | _ => Raise TypeError
  end.

(** [v.get(k, default)]. *)
Definition get_default (v : pyval) (k : string) (default : pyval) : result pyval :=
  match v with
  | PyDict d => Ok (match dict_get k d with Some x => x | None => default end)
  | _ => Raise AttributeError
  end.

Fixpoint chars (s : string) : list pyval :=
  match s with
  | EmptyString => []
  | String a s' => PyStr (String a EmptyString) :: chars s'
  end.

(** The elements a [for] loop over [v] visits. *)
Definition iter (v : pyval) : result (list pyval) :=
  match v with
  | PyList l => Ok l
  | PyDict d => Ok (map (fun kv => PyStr (fst kv)) d)
  | PyStr s => Ok (chars s)
  | _ => Raise TypeError
  end.

(** Keys of the member map are the member identifiers as the API sends
    them.  Lists and dictionaries cannot be keys; numbers and booleans are
    the same key when they are equal as numbers. *)
Definition hashable (v : pyval) : bool :=
  match v with
  | PyList _ | PyDict _ => false
  | _ => true
  end.

Definition as_number (v : pyval) : option Q :=
  match v with
  | PyBool b => Some (if b then 1%Q else 0%Q)
  | PyInt n => Some (inject_Z n)
  | PyFloat q => Some q
  | _ => None
  end.

Definition py_eq (a b : pyval) : bool :=
  match a, b with
  | PyNone, PyNone => true
  | PyStr s, PyStr t => String.eqb s t
  | _, _ =>
      match as_number a, as_number b with
      | Some x, Some y => Qeq_bool x y
      | _, _ => false
      end
  end.

Fixpoint pydict_set (k v : pyval) (d : list (pyval * pyval)) : list (pyval * pyval) :=
  match d with
  | [] => [(k, v)]
  | (k', v') :: d' =>
      if py_eq k k' then (k', v) :: d' else (k', v') :: pydict_set k v d'
  end.

(** ** Frames *)

Definition row : Type := list (string * pyval).

Record DataFrame : Type := {
  columns : list string;
  rows : list row
}.

Definition cell (r : row) (c : string) : pyval :=
  match dict_get c r with
  | Some v => v
  | None => PyNaN
  end.

Definition reindex (cols : list string) (r : row) : row :=
  map (fun c => (c, cell r c)) cols.

Definition add_column (cols : list string) (c : string) : list string :=
  if mem c cols then cols else cols ++ [c].

Definition union_columns (cols new : list string) : list string :=
  fold_left add_column new cols.

Definition is_record (v : pyval) : bool :=
  match v with PyDict _ => true | _ => false end.

Definition record_fields (v : pyval) : list (string * pyval) :=
  match v with PyDict d => d | _ => [] end.

(** [df[c] = ...] with a value computed from each row. *)
Definition assign (c : string) (f : row -> pyval) (df : DataFrame) : DataFrame :=
  {| columns := add_column (columns df) c;
     rows := map (fun r => dict_set c (f r) r) (rows df) |}.

(** [df[mask]]. *)
Definition filter_rows (p : row -> bool) (df : DataFrame) : DataFrame :=
  {| columns := columns df; rows := filter p (rows df) |}.

(** [pd.concat(dfs, ignore_index=True)]. *)
Definition concat_columns (dfs : list DataFrame) : list string :=
  fold_left (fun acc df => union_columns acc (columns df)) dfs [].

Definition concat (dfs : list DataFrame) : DataFrame :=
  let cols := concat_columns dfs in
  {| columns := cols;
     rows := flat_map (fun df => map (reindex cols) (rows df)) dfs |}.

Definition column_values (c : string) (df : DataFrame) : list pyval :=
  map (fun r => cell r c) (rows df).

(** Every row of a frame has a cell for each column, in column order. *)
Definition well_formed (df : DataFrame) : Prop :=
  Forall (fun r => map fst r = columns df) (rows df).

(** ** Library functions taken as given *)

(** Python's and pandas' own functions are not code of the repository.
    They are taken as they come, with a few facts about them: a string
    formats as itself; the empty string has no letters to lower; a column
    that holds a string has dtype [object] (pandas before its dedicated
    string dtype, which is what the source tests for); a frame that
    pandas builds is rectangular with distinct column names; an assignment
    to one column that succeeds adds or replaces that column and keeps
    the number of rows. *)
Class Runtime : Type := {
  (** [str(v)], the formatting of [v] in an f-string, [astype(str)] *)
  py_str : pyval -> string;
  (** [s.lower()] and [s.upper()] *)
  str_lower : string -> string;
  str_upper : string -> string;
  (** [pd.to_numeric(_, errors='coerce')] on one cell; [None] is NaN *)
  to_numeric : pyval -> option Q;
  (** whether a column has dtype [object] *)
  is_object_dtype : list pyval -> bool;
  (** the cells of a column once [pd.DataFrame] has inferred its dtype:
      integers next to a missing value become floats, and so on *)
  infer_column : list pyval -> list pyval;
  (** [pd.DataFrame(data)] for a [data] that is not a list of records *)
  other_frame : pyval -> result DataFrame;
  (** whether the [.str] accessor accepts a column of dtype [object];
      it raises [AttributeError] on one that holds, say, only booleans *)
  str_accessor : list pyval -> bool;
  (** [df[c] = v] for a list of the length of the frame or an object [v] *)
  setitem_container : DataFrame -> string -> pyval -> result DataFrame;
  py_str_str : forall s, py_str (PyStr s) = s;
  str_lower_empty : str_lower "" = "";
  object_dtype_str : forall col s, In (PyStr s) col -> is_object_dtype col = true;
  other_frame_shape :
    forall data df,
      other_frame data = Ok df -> well_formed df /\ NoDup (columns df);
  setitem_container_shape :
    forall df c v df',
      setitem_container df c v = Ok df' ->
      columns df' = add_column (columns df) c
      /\ List.length (rows df') = List.length (rows df)
      /\ (well_formed df -> well_formed df')
}.

(** ** Building a frame and assigning a value to a column *)

(** The column [c] set row by row to the cells of [vals]; a row past the
    end of [vals] keeps the cell it has. *)
Fixpoint set_column (c : string) (vals : list pyval) (rs : list row) : list row :=
  match rs with
  | [] => []
  | r :: rs' =>
      dict_set c (match vals with v :: _ => v | [] => cell r c end) r
      :: set_column c (tl vals) rs'
  end.

(** Each column in turn is replaced by what an inference of its dtype
    makes of its cells. *)
Definition infer_columns_with (infer : list pyval -> list pyval) (df : DataFrame)
  : DataFrame :=
  {| columns := columns df;
     rows := fold_left
               (fun rs c => set_column c (infer (map (fun r => cell r c) rs)) rs)
               (columns df) (rows df) |}.

Section Construction.

Context {RT : Runtime}.

(** The records as rows: the columns are the keys in the order they
    first appear, a key missing from a record is null. *)
Definition records_frame (l : list pyval) : DataFrame :=
  let cols :=
    fold_left (fun acc v => union_columns acc (map fst (record_fields v))) l [] in
  {| columns := cols; rows := map (fun v => reindex cols (record_fields v)) l |}.

(** Each column with the dtype pandas infers for it. *)
Definition infer_columns (df : DataFrame) : DataFrame :=
  infer_columns_with infer_column df.

(** [pd.DataFrame(data)]. *)
Definition DataFrame_of (data : pyval) : result DataFrame :=
  match data with
  | PyList l =>
      if forallb is_record l then Ok (infer_columns (records_frame l))
      else other_frame data
  | _ => other_frame data
  end.

(** [df[c] = v] for a value [v] that came out of the JSON: a scalar goes
    into every row, a list must have the length of the frame. *)
Definition setitem_value (c : string) (v : pyval) (df : DataFrame) : result DataFrame :=
  match v with
  | PyList l =>
      if Nat.eqb (List.length l) (List.length (rows df)) then setitem_container df c v
      else Raise ValueError
  | PyDict _ => setitem_container df c v
  | _ => Ok (assign c (fun _ => v) df)
  end.

End Construction.

(** ** The remote source, the disk and the logger *)

Inductive level : Type := INFO | WARNING | ERROR.

(** One constructor per logging statement of the source, carrying the
    values its f-string formats. *)
Inductive message : Type :=
| FetchingData (indicator_id : Z)
| ErrorFetchingData (indicator_id : Z) (status_code : Z)
| NoDataAvailable (indicator_id : Z)
| ErrorFetchingDimensions (indicator_id : Z) (status_code : Z)
| ProcessedIndicator (indicator_id : Z) (nrows : nat)
| FilteredYears (start_year end_year : option Z) (year_column : string)
| NoYearColumn
| FilteredCountries (n : nat) (countries : list string)
| RowsBeforeAfter (original_len filtered_len : nat)
| NoDataForCountries (missing_countries : list string)
| NoIso3Column
| FinalRows (n : nat)
| SavedTo (csv_filename : string)
| NoDataRetrieved
| LoadedCachedDimensions (indicator_id : Z)
| LoadedDimensions (indicator_id : Z)
| FailedDimensions (indicator_id : Z) (e : exn).

Inductive endpoint : Type :=
| DataEndpoint
| DimensionsEndpoint
| MetadataEndpoint
| DimensionsExcel.

(** A request that went out to the network. *)
Record call : Type := {
  call_endpoint : endpoint;
  call_indicator : Z;
  call_lang : string
}.

(** What [requests.get] gives: no response at all (it raises), or a status
    code with a body that [json()] can parse or not. *)
Inductive http_result : Type :=
| RequestFailed
| Response (status_code : Z) (body : option pyval).

(** The outside world: answers of the API and the state of the disk. *)
Class World (W : Type) : Type := {
  requests_get : endpoint -> Z -> string -> W -> http_result * W;
  read_excel : Z -> string -> W -> result DataFrame * W;
  cache_exists : Z -> W -> bool;
  read_pickle : Z -> W -> result DataFrame * W;
  mkdir : W -> result unit * W;
  to_pickle : Z -> DataFrame -> W -> result unit * W;
  to_csv : string -> DataFrame -> W -> result unit * W
}.

Record state (W : Type) : Type := {
  world : W;
  calls : list call;
  logs : list (level * message)
}.
Arguments world {W} s.
Arguments calls {W} s.
Arguments logs {W} s.

(** Computations that read and change the state and may raise. *)
Definition M (W A : Type) : Type := state W -> result A * state W.

Definition ret {W A : Type} (a : A) : M W A := fun st => (Ok a, st).

Definition bind {W A B : Type} (m : M W A) (k : A -> M W B) : M W B :=
  fun st =>
    match m st with
    | (Ok a, st') => k a st'
    | (Raise e, st') => (Raise e, st')
    end.

Definition lift {W A : Type} (r : result A) : M W A := fun st => (r, st).

Definition try_except {W A : Type} (m : M W A) (handler : exn -> M W A) : M W A :=
  fun st =>
    match m st with
    | (Ok a, st') => (Ok a, st')
    | (Raise e, st') => handler e st'
    end.

Notation "x <- m ;; k" := (bind m (fun x => k))
  (at level 61, m at next level, right associativity).
Notation "m ;;; k" := (bind m (fun _ => k))
  (at level 61, right associativity).

Definition add_logs {W : Type} (st : state W) (l : list (level * message)) : state W :=
  {| world := world st; calls := calls st; logs := logs st ++ l |}.

Definition logger {W : Type} (l : level) (msg : message) : M W unit :=
  fun st => (Ok tt, add_logs st [(l, msg)]).

Definition json (body : option pyval) : result pyval :=
  match body with
  | Some v => Ok v
  | None => Raise JSONDecodeError
  end.

Section Pipeline.

Context {RT : Runtime} {W : Type} {WD : World W}.

Definition on_world {A : Type} (c : option call) (f : W -> result A * W) : M W A :=
  fun st =>
    let '(r, w) := f (world st) in
    (r, {| world := w;
           calls := match c with Some x => calls st ++ [x] | None => calls st end;
           logs := logs st |}).

(** [requests.get(url, params)]: the status code and the body. *)
Definition get (e : endpoint) (indicator_id : Z) (lang : string)
  : M W (Z * option pyval) :=
  on_world (Some {| call_endpoint := e; call_indicator := indicator_id; call_lang := lang |})
    (fun w =>
       match requests_get e indicator_id lang w with
       | (RequestFailed, w') => (Raise ConnectionError, w')
       | (Response s b, w') => (Ok (s, b), w')
       end).

(** ** [load_dimension_data] *)

Definition load_dimension_data (indicator_id : Z) (lang : string) (cache_dim : bool)
  : M W (option DataFrame) :=
  fun st =>
    if cache_dim && cache_exists indicator_id (world st) then
      (dim <- on_world None (read_pickle indicator_id) ;;
       logger INFO (LoadedCachedDimensions indicator_id) ;;;
       ret (Some dim)) st
    else
      try_except
        (dim <- on_world
                  (Some {| call_endpoint := DimensionsExcel;
                           call_indicator := indicator_id; call_lang := lang |})
                  (read_excel indicator_id lang) ;;
         (if cache_dim then
            on_world None mkdir ;;;
            on_world None (to_pickle indicator_id dim)
          else ret tt) ;;;
         logger INFO (LoadedDimensions indicator_id) ;;;
         ret (Some dim))
        (fun e =>
           logger ERROR (FailedDimensions indicator_id e) ;;;
           ret None) st.

(** ** [cepal_data], step 3: the dimension table *)

Definition name_map : Type := list (string * pyval).
Definition member_map : Type := list (pyval * pyval).
Definition member_maps : Type := list (string * member_map).

Fixpoint member_loop (members : list pyval) (mm : member_map) : result member_map :=
  match members with
  | [] => Ok mm
  | member :: rest =>
      name <-r getitem member "name" ;;
      id <-r getitem member "id" ;;
      if hashable id then member_loop rest (pydict_set id name mm)
      else Raise TypeError
  end.

Fixpoint dimension_loop (dimensions : list pyval)
    (dimension_name_map : name_map) (dimension_member_maps : member_maps)
  : result (name_map * member_maps) :=
  match dimensions with
  | [] => Ok (dimension_name_map, dimension_member_maps)
  | dimension :: rest =>
      dim_id <-r getitem dimension "id" ;;
      let dim_column := ("dim_" ++ py_str dim_id)%string in
      dim_name <-r getitem dimension "name" ;;
      let dimension_name_map := dict_set dim_column dim_name dimension_name_map in
      members <-r getitem dimension "members" ;;
      ms <-r iter members ;;
      mm <-r member_loop ms [] ;;
      dimension_loop rest dimension_name_map (dict_set dim_column mm dimension_member_maps)
  end.

Definition dimension_table (dimensions_data : pyval) : result (name_map * member_maps) :=
  b <-r getitem dimensions_data "body" ;;
  ds <-r getitem b "dimensions" ;;
  l <-r iter ds ;;
  dimension_loop l [] [].

(** ** Step 4: the indicator name *)

Definition default_name (indicator_id : Z) : pyval :=
  PyStr ("Indicator " ++ py_str (PyInt indicator_id))%string.

Definition nested_name_present (metadata : pyval) : result bool :=
  c1 <-r contains "body" metadata ;;
  if c1 : bool then
    b <-r getitem metadata "body" ;;
    c2 <-r contains "metadata" b ;;
    if c2 : bool then
      m <-r getitem b "metadata" ;;
      contains "indicator_name" m
    else Ok false
  else Ok false.

Definition indicators_nonempty (b : pyval) : result bool :=
  c <-r contains "indicators" b ;;
  if c : bool then
    i <-r getitem b "indicators" ;;
    Ok (truthy i)
  else Ok false.

Definition resolve_indicator_name (indicator_id : Z) (metadata : pyval) : result pyval :=
  let indicator_name := default_name indicator_id in
  c <-r nested_name_present metadata ;;
  if c : bool then
    b <-r getitem metadata "body" ;;
    m <-r getitem b "metadata" ;;
    getitem m "indicator_name"
  else
    c1 <-r contains "body" metadata ;;
    if c1 : bool then
      b <-r getitem metadata "body" ;;
      c2 <-r contains "indicator_name" b ;;
      if c2 : bool then getitem b "indicator_name"
      else
        c3 <-r indicators_nonempty b ;;
        if c3 : bool then
          i <-r getitem b "indicators" ;;
          e <-r getitem0 i ;;
          get_default e "name" indicator_name
        else
          c4 <-r contains "name" b ;;
          if c4 : bool then getitem b "name"
          else
            c5 <-r contains "title" b ;;
            if c5 : bool then getitem b "title"
            else Ok indicator_name
    else Ok indicator_name.

Definition fetch_indicator_name (lang : string) (indicator_id : Z) : M W pyval :=
  metadata_response <- get MetadataEndpoint indicator_id lang ;;
  if fst metadata_response =? 200 then
    metadata <- lift (json (snd metadata_response)) ;;
    lift (resolve_indicator_name indicator_id metadata)
  else ret (default_name indicator_id).

(** ** Step 5: the label columns *)

(** [{str(k): v for k, v in member_map.items()}] *)
Definition str_keys (mm : member_map) : list (string * pyval) :=
  fold_left (fun acc kv => dict_set (py_str (fst kv)) (snd kv) acc) mm [].

(** [Series.map(d)] on one value. *)
Definition series_map (d : list (string * pyval)) (s : string) : pyval :=
  match dict_get s d with
  | Some v => v
  | None => PyNaN
  end.

Definition label_of (dimension_name_map : name_map) (dim_col : string) : string :=
  match dict_get dim_col dimension_name_map with
  | Some dim_name => py_str dim_name
  | None => dim_col
  end.

Definition enrich_step (dimension_name_map : name_map) (df : DataFrame)
    (item : string * member_map) : DataFrame :=
  let '(dim_col, mm) := item in
  if mem dim_col (columns df) then
    let label_col := label_of dimension_name_map dim_col in
    let member_map_str := str_keys mm in
    assign label_col (fun r => series_map member_map_str (py_str (cell r dim_col))) df
  else df.

Definition enrich (dimension_name_map : name_map) (dimension_member_maps : member_maps)
    (df : DataFrame) : DataFrame :=
  fold_left (enrich_step dimension_name_map) dimension_member_maps df.

(** ** One turn of the loop over [indicator_ids]

    [None] is a [continue] that appended nothing; [Some df] is the frame
    appended to [dfs]. *)
Definition process_indicator (lang : string) (indicator_id : Z)
  : M W (option DataFrame) :=
  logger INFO (FetchingData indicator_id) ;;;
  response <- get DataEndpoint indicator_id lang ;;
  if negb (fst response =? 200) then
    logger ERROR (ErrorFetchingData indicator_id (fst response)) ;;;
    ret None
  else
    data <- lift (json (snd response)) ;;
    b <- lift (getitem data "body") ;;
    d <- lift (getitem b "data") ;;
    if negb (truthy d) then
      logger INFO (NoDataAvailable indicator_id) ;;;
      ret None
    else
      df <- lift (DataFrame_of d) ;;
      let df := assign "indicator_id" (fun _ => PyInt indicator_id) df in
      dimensions_response <- get DimensionsEndpoint indicator_id lang ;;
      if negb (fst dimensions_response =? 200) then
        logger ERROR (ErrorFetchingDimensions indicator_id (fst dimensions_response)) ;;;
        ret (Some df)
      else
        dimensions_data <- lift (json (snd dimensions_response)) ;;
        maps <- lift (dimension_table dimensions_data) ;;
        indicator_name <- fetch_indicator_name lang indicator_id ;;
        df <- lift (setitem_value "indicator_name" indicator_name df) ;;
        let df := enrich (fst maps) (snd maps) df in
        logger INFO (ProcessedIndicator indicator_id (List.length (rows df))) ;;;
        ret (Some df).

Fixpoint fetch_all (lang : string) (indicator_ids : list Z) (dfs : list DataFrame)
  : M W (list DataFrame) :=
  match indicator_ids with
  | [] => ret dfs
  | indicator_id :: rest =>
      o <- process_indicator lang indicator_id ;;
      fetch_all lang rest (match o with Some df => dfs ++ [df] | None => dfs end)
  end.

(** ** The year filter *)


Definition potential_year_columns : list string :=
  ["Year"; "TIME"; "Time"; "YEAR"; "year"; "Period"; "period"; "TIME_PERIOD"].

Definition looks_like_year (col : string) : bool :=
  is_substring "year" (str_lower col) || is_substring "año" (str_lower col).

Definition find_year_column (cols : list string) : option string :=
  let year_column :=
    if mem "Años__ESTANDAR" cols then Some "Años__ESTANDAR"
    else if mem "Years__ESTANDAR" cols then Some "Years__ESTANDAR"
    else None in
  match year_column with
  | Some c => Some c
  | None =>
      match find (fun col => mem col cols) potential_year_columns with
      | Some c => Some c
      | None => find looks_like_year cols
      end
  end.

Definition numeric_cell (v : pyval) : pyval :=
  match to_numeric v with
  | Some q => PyFloat q
  | None => PyNaN
  end.

(** [cell >= start_year] and [cell <= end_year] on a numeric column; a
    comparison with NaN is false. *)
Definition ge_year (v : pyval) (y : Z) : bool :=
  match v with
  | PyFloat q => Qle_bool (inject_Z y) q
  | _ => false
  end.

Definition le_year (v : pyval) (y : Z) : bool :=
  match v with
  | PyFloat q => Qle_bool q (inject_Z y)
  | _ => false
  end.

Definition apply_year_bounds (year_column : string) (start_year end_year : option Z)
    (combined_df : DataFrame) : DataFrame :=
  let combined_df :=
    assign year_column (fun r => numeric_cell (cell r year_column)) combined_df in
  let combined_df :=
    match start_year with
    | Some y => filter_rows (fun r => ge_year (cell r year_column) y) combined_df
    | None => combined_df
    end in
  match end_year with
  | Some y => filter_rows (fun r => le_year (cell r year_column) y) combined_df
  | None => combined_df
  end.

Definition year_bound_given (start_year end_year : option Z) : bool :=
  match start_year, end_year with
  | None, None => false
  | _, _ => true
  end.

Definition filter_by_year (start_year end_year : option Z) (combined_df : DataFrame)
  : M W DataFrame :=
  if year_bound_given start_year end_year then
    match find_year_column (columns combined_df) with
    | Some year_column =>
        if negb (String.eqb year_column "") then
          let combined_df := apply_year_bounds year_column start_year end_year combined_df in
          logger INFO (FilteredYears start_year end_year year_column) ;;;
          ret combined_df
        else
          logger WARNING NoYearColumn ;;;
          ret combined_df
    | None =>
        logger WARNING NoYearColumn ;;;
        ret combined_df
    end
  else ret combined_df.

(** ** The country filter *)

Definition upper_cell (v : pyval) : pyval :=
  match v with
  | PyStr s => PyStr (str_upper s)
  | _ => PyNaN
  end.

Definition isin (l : list string) (v : pyval) : bool :=
  match v with
  | PyStr s => mem s l
  | _ => false
  end.

Fixpoint strings_of (l : list pyval) : list string :=
  match l with
  | [] => []
  | PyStr s :: l' => s :: strings_of l'
  | _ :: l' => strings_of l'
  end.

(** [Series.unique()] of a column of strings. *)
Definition unique (l : list pyval) : list string :=
  nodup string_dec (strings_of l).

Definition filter_by_country (countries : option (list string)) (combined_df : DataFrame)
  : M W DataFrame :=
  match countries with
  | Some ((_ :: _) as countries) =>
      if mem "iso3" (columns combined_df) then
        let iso3 := column_values "iso3" combined_df in
        combined_df <-
          lift (if is_object_dtype iso3 then
                  if str_accessor iso3 then
                    Ok (assign "iso3" (fun r => upper_cell (cell r "iso3")) combined_df)
                  else Raise AttributeError
                else Ok (assign "iso3" (fun r => cell r "iso3") combined_df)) ;;
        let country_list_upper := map str_upper countries in
        let original_len := List.length (rows combined_df) in
        let combined_df := filter_rows (fun r => isin country_list_upper (cell r "iso3")) combined_df in
        let filtered_len := List.length (rows combined_df) in
        logger INFO (FilteredCountries (List.length countries) countries) ;;;
        logger INFO (RowsBeforeAfter original_len filtered_len) ;;;
        let found_countries := unique (column_values "iso3" combined_df) in
        let missing_countries :=
          filter (fun c => negb (mem c found_countries)) country_list_upper in
        (match missing_countries with
         | _ :: _ => logger WARNING (NoDataForCountries missing_countries)
         | [] => ret tt
         end) ;;;
        ret combined_df
      else
        logger WARNING NoIso3Column ;;;
        ret combined_df
  | _ => ret combined_df
  end.

(** ** [cepal_data]

    The loop, the concatenation, the two filters and the optional CSV
    file.  The [import requests] at the top of the function is taken to
    succeed. *)

Definition cepal_data (indicator_ids : list Z) (lang : string)
    (start_year end_year : option Z) (countries : option (list string))
    (save_csv : bool) (csv_filename : string) : M W (option DataFrame) :=
  dfs <- fetch_all lang indicator_ids [] ;;
  match dfs with
  | _ :: _ =>
      let combined_df := concat dfs in
      combined_df <- filter_by_year start_year end_year combined_df ;;
      combined_df <- filter_by_country countries combined_df ;;
      logger INFO (FinalRows (List.length (rows combined_df))) ;;;
      (if save_csv then
         on_world None (to_csv csv_filename combined_df) ;;;
         logger INFO (SavedTo csv_filename)
       else ret tt) ;;;
      ret (Some combined_df)
  | [] =>
      logger INFO NoDataRetrieved ;;;
      ret None
  end.

End Pipeline.

(** ** A runtime and a world to run the pipeline on examples *)

Fixpoint digits_of_pos (fuel : nat) (n : Z) (acc : string) : string :=
  match fuel with
  | O => acc
  | S fuel' =>
      let acc' := String (ascii_of_nat (48 + Z.to_nat (n mod 10))) acc in
      if n / 10 =? 0 then acc' else digits_of_pos fuel' (n / 10) acc'
  end.

(** [str(n)] for an integer. *)
Definition str_of_Z (n : Z) : string :=
  if n <? 0 then String "-" (digits_of_pos (S (Z.to_nat (Z.log2 (- n)))) (- n) "")
  else digits_of_pos (S (Z.to_nat (Z.log2 n))) n "".

Fixpoint digits_value (s : string) (acc : Z) : option Z :=
  match s with
  | EmptyString => Some acc
  | String a s' =>
      let n := Z.of_nat (nat_of_ascii a) in
      if (48 <=? n) && (n <=? 57) then digits_value s' (10 * acc + (n - 48)) else None
  end.

(** An integer literal, as [to_numeric] reads it out of a string. *)
Definition parse_int (s : string) : option Z :=
  match s with
  | EmptyString => None
  | String "-" EmptyString => None
  | String "-" s' => option_map Z.opp (digits_value s' 0)
  | _ => digits_value s 0
  end.

Definition ascii_lower (a : ascii) : ascii :=
  let n := nat_of_ascii a in
  if (Nat.leb 65 n && Nat.leb n 90)%bool then ascii_of_nat (n + 32) else a.

Definition ascii_upper (a : ascii) : ascii :=
  let n := nat_of_ascii a in
  if (Nat.leb 97 n && Nat.leb n 122)%bool then ascii_of_nat (n - 32) else a.

Fixpoint map_string (f : ascii -> ascii) (s : string) : string :=
  match s with
  | EmptyString => EmptyString
  | String a s' => String (f a) (map_string f s')
  end.

(** [str(x)] for a float: an integral one below [1e16] prints its digits
    and [.0]; the others are printed by a placeholder. *)
Definition str_of_Q (q : Q) : string :=
  let r := Qred q in
  if Pos.eqb (Qden r) 1 && (Z.abs (Qnum r) <? 10 ^ 16) then
    (str_of_Z (Qnum r) ++ ".0")%string
  else "<float>".

Definition simple_str (v : pyval) : string :=
  match v with
  | PyNone => "None"
  | PyBool true => "True"
  | PyBool false => "False"
  | PyInt n => str_of_Z n
  | PyFloat q => str_of_Q q
  | PyNaN => "nan"
  | PyStr s => s
  | PyList _ => "<list>"
  | PyDict _ => "<dict>"
  end.

Definition simple_to_numeric (v : pyval) : option Q :=
  match v with
  | PyStr s => option_map inject_Z (parse_int s)
  | _ => as_number v
  end.

Definition is_null (v : pyval) : bool :=
  match v with PyNone | PyNaN => true | _ => false end.

Definition is_bool (v : pyval) : bool :=
  match v with PyBool _ => true | _ => false end.

Definition is_int (v : pyval) : bool :=
  match v with PyInt _ => true | _ => false end.

Definition is_float (v : pyval) : bool :=
  match v with PyFloat _ | PyNaN => true | _ => false end.

Definition is_none (v : pyval) : bool :=
  match v with PyNone => true | _ => false end.

(** A column is kept as Python objects when it holds a string, a list, an
    object or [None], or booleans next to something else. *)
Definition simple_object_dtype (col : list pyval) : bool :=
  existsb (fun v => match v with
                    | PyStr _ | PyList _ | PyDict _ | PyNone => true
                    | _ => false
                    end) col
  || (existsb is_bool col && negb (forallb is_bool col)).

Lemma simple_object_dtype_str :
  forall col s, In (PyStr s) col -> simple_object_dtype col = true.
Proof.
  intros col s H. unfold simple_object_dtype.
  apply Bool.orb_true_iff. left.
  apply existsb_exists. exists (PyStr s). split; [exact H | reflexivity].
Qed.

(** The dtype inference of [pd.DataFrame] on one column: numbers next to
    a missing value, or integers next to floats, become floats and the
    missing values NaN; a column of integers, of booleans, of [None]
    only or with anything else in it stays as it is. *)
Definition to_float (v : pyval) : pyval :=
  match v with
  | PyInt n => PyFloat (inject_Z n)
  | PyNone => PyNaN
  | _ => v
  end.

Definition simple_infer (col : list pyval) : list pyval :=
  if forallb (fun v => is_int v || is_float v || is_none v) col
     && (existsb is_float col || (existsb is_none col && existsb is_int col))
  then map to_float col
  else col.

(** The [.str] accessor looks at the cells that are not null and refuses
    a column of booleans only or of numbers only. *)
Definition simple_str_accessor (col : list pyval) : bool :=
  match filter (fun v => negb (is_null v)) col with
  | [] => true
  | vals =>
      negb (forallb is_bool vals || forallb (fun v => is_int v || is_float v) vals)
  end.

Definition list_items (v : pyval) : option (list pyval) :=
  match v with PyList l => Some l | _ => None end.

(** [pd.DataFrame(data)] for an object of lists of one length: a column
    for each key and a row for each position.  Every other shape is
    answered here by [ValueError], which is what pandas answers to a
    scalar, to a string, to an object of scalars and to lists of
    different lengths; the examples use no other. *)
Definition simple_other_frame (data : pyval) : result DataFrame :=
  match data with
  | PyDict d =>
      match d with
      | [] => Ok {| columns := []; rows := [] |}
      | (_, v0) :: _ =>
          match list_items v0 with
          | Some l0 =>
              let n := List.length l0 in
              if forallb (fun kv => match list_items (snd kv) with
                                    | Some l => Nat.eqb (List.length l) n
                                    | None => false
                                    end) d
              then
                let cols := nodup string_dec (map fst d) in
                Ok (infer_columns_with simple_infer
                      {| columns := cols;
                         rows := map (fun i =>
                                        map (fun c =>
                                               (c, match dict_get c d with
                                                   | Some (PyList l) => nth i l PyNaN
                                                   | _ => PyNaN
                                                   end)) cols)
                                   (seq 0 n) |})
              else Raise ValueError
          | None => Raise ValueError
          end
      end
  | _ => Raise ValueError
  end.

(** [df[c] = v]: a list goes in cell by cell; an object is aligned on the
    row numbers, which none of its keys is, and leaves nulls. *)
Definition simple_setitem_container (df : DataFrame) (c : string) (v : pyval)
  : result DataFrame :=
  match v with
  | PyList l =>
      Ok {| columns := add_column (columns df) c;
            rows := set_column c (simple_infer l) (rows df) |}
  | _ => Ok (assign c (fun _ => PyNaN) df)
  end.

(** A world whose API answers by a fixed table, with a disk that keeps
    what is written to it. *)
Record disk : Type := {
  pickles : list (Z * DataFrame);
  csv_files : list (string * DataFrame)
}.

Definition find_pickle (indicator_id : Z) (d : disk) : option DataFrame :=
  match find (fun p => fst p =? indicator_id) (pickles d) with
  | Some p => Some (snd p)
  | None => None
  end.

Definition table_world (api : endpoint -> Z -> string -> http_result)
    (excel : Z -> string -> result DataFrame) : World disk :=
  {| requests_get := fun e i l d => (api e i l, d);
     read_excel := fun i l d => (excel i l, d);
     cache_exists := fun i d =>
       match find_pickle i d with Some _ => true | None => false end;
     read_pickle := fun i d =>
       match find_pickle i d with
       | Some df => (Ok df, d)
       | None => (Raise OSError, d)
       end;
     mkdir := fun d => (Ok tt, d);
     to_pickle := fun i df d =>
       (Ok tt, {| pickles := (i, df) :: pickles d; csv_files := csv_files d |});
     to_csv := fun f df d =>
       (Ok tt, {| pickles := pickles d; csv_files := (f, df) :: csv_files d |}) |}.

Definition no_excel (i : Z) (l : string) : result DataFrame := Raise ConnectionError.

Definition start_state : state disk :=
  {| world := {| pickles := []; csv_files := [] |}; calls := []; logs := [] |}.

(** ** Example answers of the API *)

Definition data_body (records : list pyval) : option pyval :=
  Some (PyDict [("body", PyDict [("data", PyList records)])]).

Definition dimensions_body (dimensions : list pyval) : option pyval :=
  Some (PyDict [("body", PyDict [("dimensions", PyList dimensions)])]).

Definition dimension (id : Z) (name : string) (members : list (Z * string)) : pyval :=
  PyDict [("id", PyInt id); ("name", PyStr name);
          ("members",
           PyList (map (fun m => PyDict [("id", PyInt (fst m)); ("name", PyStr (snd m))])
                     members))].

(** Indicator 1 has three records, one dimension and a named metadata
    body; indicator 2 has data but its dimensions request fails; indicator
    4 has an empty data list; every other request answers 404. *)
Definition maize_records : list pyval :=
  [PyDict [("dim_1", PyInt 10); ("iso3", PyStr "bra"); ("Year", PyStr "2015");
           ("value", PyInt 5)];
   PyDict [("dim_1", PyInt 11); ("iso3", PyStr "MEX"); ("Year", PyInt 2021);
           ("value", PyInt 6)];
   PyDict [("dim_1", PyInt 10); ("iso3", PyStr "CHL"); ("Year", PyStr "n/a");
           ("value", PyInt 7)]].

Definition maize_metadata : pyval :=
  PyDict [("body", PyDict [("metadata", PyDict [("indicator_name", PyStr "Maize yield")])])].

Definition maize_api (e : endpoint) (indicator_id : Z) (lang : string) : http_result :=
  if indicator_id =? 1 then
    match e with
    | DataEndpoint => Response 200 (data_body maize_records)
    | DimensionsEndpoint =>
        Response 200 (dimensions_body [dimension 1 "Area" [(10, "North")]])
    | MetadataEndpoint => Response 200 (Some maize_metadata)
    | DimensionsExcel => Response 404 None
    end
  else if indicator_id =? 2 then
    match e with
    | DataEndpoint =>
        Response 200 (data_body [PyDict [("dim_2", PyInt 20); ("value", PyInt 1)]])
    | DimensionsEndpoint => Response 500 None
    | _ => Response 404 None
    end
  else if indicator_id =? 4 then
    match e with
    | DataEndpoint => Response 200 (data_body [])
    | _ => Response 404 None
    end
  else Response 404 None.

(** Two dimensions displayed under the same name, and a third displayed
    under the name of a coded column. *)
Definition collision_records : pyval :=
  PyList [PyDict [("dim_1", PyInt 10); ("dim_2", PyInt 20); ("dim_3", PyInt 30);
                  ("value", PyInt 5)]].

Definition collision_dimensions : pyval :=
  PyDict [("body", PyDict [("dimensions", PyList
    [dimension 1 "Area" [(10, "North")];
     dimension 2 "Area" [(20, "Maize")];
     dimension 3 "dim_2" [(30, "Monthly")]])])].

Definition collision_api (e : endpoint) (indicator_id : Z) (lang : string) : http_result :=
  match e with
  | DataEndpoint => Response 200 (Some (PyDict [("body", PyDict [("data", collision_records)])]))
  | DimensionsEndpoint => Response 200 (Some collision_dimensions)
  | _ => Response 404 None
  end.

(** A data answer with status 200 and a body that is not JSON. *)
Definition garbled_api (e : endpoint) (indicator_id : Z) (lang : string) : http_result :=
  Response 200 None.

(** A metadata body whose first indicator entry has no name, next to a
    [body.name]. *)
Definition nameless_metadata : pyval :=
  PyDict [("body", PyDict [("indicators", PyList [PyDict [("id", PyInt 1)]]);
                           ("name", PyStr "GDP")])].

Definition nameless_api (e : endpoint) (indicator_id : Z) (lang : string) : http_result :=
  match e with
  | MetadataEndpoint => Response 200 (Some nameless_metadata)
  | _ => Response 404 None
  end.

(** Records that have a field called [indicator_name] themselves, with a
    dimensions request that fails. *)
Definition named_records_api (e : endpoint) (indicator_id : Z) (lang : string)
  : http_result :=
  match e with
  | DataEndpoint =>
      Response 200 (data_body [PyDict [("indicator_name", PyStr "raw"); ("value", PyInt 1)]])
  | _ => Response 500 None
  end.


(** Two records of which one has a null code. *)
Definition null_code_api (e : endpoint) (indicator_id : Z) (lang : string)
  : http_result :=
  match e with
  | DataEndpoint =>
      Response 200 (data_body [PyDict [("dim_1", PyInt 10)]; PyDict [("dim_1", PyNone)]])
  | DimensionsEndpoint =>
      Response 200 (dimensions_body [dimension 1 "Area" [(10, "North")]])
  | _ => Response 404 None
  end.

(** Two records and a metadata body whose indicator name is a list of
    one string. *)
Definition listed_name_api (e : endpoint) (indicator_id : Z) (lang : string)
  : http_result :=
  match e with
  | DataEndpoint =>
      Response 200 (data_body [PyDict [("value", PyInt 1)]; PyDict [("value", PyInt 2)]])
  | DimensionsEndpoint => Response 200 (dimensions_body [])
  | MetadataEndpoint =>
      Response 200
        (Some (PyDict [("body", PyDict [("indicator_name", PyList [PyStr "a"])])]))
  | DimensionsExcel => Response 404 None
  end.

(** A [body.data] that is an object with one empty list, with a
    dimensions request that fails. *)
Definition empty_column_api (e : endpoint) (indicator_id : Z) (lang : string)
  : http_result :=
  match e with
  | DataEndpoint =>
      Response 200 (Some (PyDict [("body", PyDict [("data", PyDict [("a", PyList [])])])]))
  | _ => Response 500 None
  end.

(** Frames for the two filters, and a disk that has the dimension table
    of indicator 5 in its cache. *)
Definition year_frame : DataFrame :=
  {| columns := ["value"; "Period"; "Year"];
     rows := [[("value", PyInt 5); ("Period", PyStr "a"); ("Year", PyStr "2015")];
              [("value", PyInt 6); ("Period", PyStr "b"); ("Year", PyInt 2021)];
              [("value", PyInt 7); ("Period", PyStr "c"); ("Year", PyStr "n/a")]] |}.



(** ** The claims in the words of the specification *)

Section Specification.

Context {RT : Runtime}.


(** A numeric year within the inclusive bounds that are given. *)
Definition within_bounds (start_year end_year : option Z) (v : option Q) : bool :=
  match v with
  | None => false
  | Some q =>
      match start_year with Some y => Qle_bool (inject_Z y) q | None => true end
      && match end_year with Some y => Qle_bool q (inject_Z y) | None => true end
  end.




(** The "iso3" column can be upper-cased: either its dtype is not
    [object] and the source leaves it alone, or the [.str] accessor
    takes it. *)
Definition iso3_accepted (df : DataFrame) : bool :=
  negb (is_object_dtype (column_values "iso3" df))
  || str_accessor (column_values "iso3" df).

(** The country filter reaches the "iso3" column: some country is asked
    for and the frame has the column. *)
Definition country_filter_applies (countries : option (list string)) (df : DataFrame)
  : bool :=
  match countries with
  | Some (_ :: _) => mem "iso3" (columns df)
  | _ => false
  end.

(** The frame after the assignment to its "iso3" column. *)
Definition iso3_assigned (df : DataFrame) : DataFrame :=
  if is_object_dtype (column_values "iso3" df)
  then assign "iso3" (fun r => upper_cell (cell r "iso3")) df
  else assign "iso3" (fun r => cell r "iso3") df.


End Specification.

Section IndicatorName.

Context {RT : Runtime}.

(** A field of an object, when the value is an object that has it. *)
Definition field (k : string) (v : pyval) : option pyval :=
  match v with
  | PyDict d => dict_get k d
  | _ => None
  end.

Definition first_entry (v : pyval) : option pyval :=
  match v with
  | PyList (x :: _) => Some x
  | _ => None
  end.

Definition and_then {A B : Type} (o : option A) (f : A -> option B) : option B :=
  match o with
  | Some a => f a
  | None => None
  end.

Fixpoint first_present (l : list (option pyval)) : option pyval :=
  match l with
  | [] => None
  | Some v :: _ => Some v
  | None :: l' => first_present l'
  end.

(** The display name as the specification words it: the first of the
    five fields that is there, in the stated order, and the synthetic
    name when none is. *)
Definition name_as_stated (indicator_id : Z) (metadata : pyval) : pyval :=
  let b := field "body" metadata in
  match first_present
          [and_then (and_then b (field "metadata")) (field "indicator_name");
           and_then b (field "indicator_name");
           and_then (and_then (and_then b (field "indicators")) first_entry) (field "name");
           and_then b (field "name");
           and_then b (field "title")] with
  | Some n => n
  | None => default_name indicator_id
  end.

Definition name_or_title (indicator_id : Z) (b : pyval) : pyval :=
  match field "name" b with
  | Some n => n
  | None =>
      match field "title" b with
      | Some n => n
      | None => default_name indicator_id
      end
  end.

(** The same chain with the third step as the code has it: a non-empty
    [body.indicators] ends the search, with the name of its first entry
    or, when that entry has no name, the synthetic name. *)
Definition name_chain (indicator_id : Z) (metadata : pyval) : pyval :=
  match field "body" metadata with
  | None => default_name indicator_id
  | Some b =>
      match and_then (field "metadata" b) (field "indicator_name") with
      | Some n => n
      | None =>
          match field "indicator_name" b with
          | Some n => n
          | None =>
              match field "indicators" b with
              | Some i =>
                  if truthy i then
                    match and_then (first_entry i) (field "name") with
                    | Some n => n
                    | None => default_name indicator_id
                    end
                  else name_or_title indicator_id b
              | None => name_or_title indicator_id b
              end
          end
      end
  end.

(** Objects where the lookups of step 4 expect objects: the response, its
    body, [body.metadata], and the first entry of a non-empty
    [body.indicators], which is a list. *)
Definition metadata_shaped (metadata : pyval) : bool :=
  match metadata with
  | PyDict d =>
      match dict_get "body" d with
      | None => true
      | Some (PyDict bd) =>
          match dict_get "metadata" bd with
          | None => true
          | Some mm => is_record mm
          end
          && match dict_get "indicators" bd with
             | None => true
             | Some i =>
                 negb (truthy i)
                 || match i with
                    | PyList (e :: _) => is_record e
                    | _ => false
                    end
             end
      | Some _ => false
      end
  | _ => false
  end.

End IndicatorName.

(** Responses of the shape the pipeline reads without raising: a data body
    whose [body.data] is empty or a list of records; a dimensions body
    whose [body.dimensions] lists objects with [id], [name] and a list
    [members] of objects with [name] and a hashable [id]; a metadata body
    as in [metadata_shaped]. *)
Definition good_member (m : pyval) : bool :=
  match field "name" m, field "id" m with
  | Some _, Some i => hashable i
  | _, _ => false
  end.

Definition good_dimension (v : pyval) : bool :=
  match field "id" v, field "name" v, field "members" v with
  | Some _, Some _, Some (PyList ms) => forallb good_member ms
  | _, _, _ => false
  end.

Definition good_data (data : pyval) : bool :=
  match and_then (field "body" data) (field "data") with
  | Some d =>
      negb (truthy d)
      || match d with
         | PyList l => forallb is_record l
         | _ => false
         end
  | None => false
  end.

Definition good_dimensions (dd : pyval) : bool :=
  match and_then (field "body" dd) (field "dimensions") with
  | Some (PyList l) => forallb good_dimension l
  | _ => false
  end.

(** The exception that reading [json()['body'][k]] out of an answer with
    status 200 raises, when it raises one: the body is not JSON, or one
    of the two subscripts fails. *)
Definition unreadable (body : option pyval) (k : string) : option exn :=
  match body with
  | None => Some JSONDecodeError
  | Some v =>
      match getitem v "body" with
      | Raise e => Some e
      | Ok b =>
          match getitem b k with
          | Raise e => Some e
          | Ok _ => None
          end
      end
  end.

(** The request is answered, and an answer with status 200 has a body
    that parses to JSON of the shape its endpoint is read with. *)
Definition good_response (e : endpoint) (r : http_result) : bool :=
  match r with
  | RequestFailed => false
  | Response s body =>
      negb (s =? 200)
      || match body with
         | None => false
         | Some v =>
             match e with
             | DataEndpoint => good_data v
             | DimensionsEndpoint => good_dimensions v
             | MetadataEndpoint => metadata_shaped v
             | DimensionsExcel => true
             end
         end
  end.

Section Labels.

Context {RT : Runtime}.

(** What the label column of one dimension holds, row by row, next to
    the coded column: the code is left as fetched, and the label is the
    member name the string-keyed map has for the code, or null. *)
Definition labelled (dimension_name_map : name_map) (dim_col : string) (mm : member_map)
    (df0 df : DataFrame) : Prop :=
  Forall2
    (fun r0 r =>
       cell r dim_col = cell r0 dim_col
       /\ cell r (label_of dimension_name_map dim_col)
          = match dict_get (py_str (cell r0 dim_col)) (str_keys mm) with
            | Some member_name => member_name
            | None => PyNaN
            end)
    (rows df0) (rows df).

(** The enrichment as the specification words it, for every dimension
    column of the fetched rows that the dimension table has. *)
Definition labels_as_stated (dimension_name_map : name_map)
    (dimension_member_maps : member_maps) (df0 df : DataFrame) : Prop :=
  forall dim_col mm,
    In dim_col (columns df0) ->
    dict_get dim_col dimension_member_maps = Some mm ->
    In dim_col (columns df)
    /\ In (label_of dimension_name_map dim_col) (columns df)
    /\ labelled dimension_name_map dim_col mm df0 df.

(** One row through the loop of step 5, [cols] being the columns of the
    frame when the loop reaches the item. *)
Fixpoint enrich_row (dimension_name_map : name_map) (items : member_maps)
    (cols : list string) (r : row) : row :=
  match items with
  | [] => r
  | (dim_col, mm) :: rest =>
      if mem dim_col cols then
        let label_col := label_of dimension_name_map dim_col in
        enrich_row dimension_name_map rest (add_column cols label_col)
          (dict_set label_col (series_map (str_keys mm) (py_str (cell r dim_col))) r)
      else enrich_row dimension_name_map rest cols r
  end.

Fixpoint enrich_columns (dimension_name_map : name_map) (items : member_maps)
    (cols : list string) : list string :=
  match items with
  | [] => cols
  | (dim_col, mm) :: rest =>
      if mem dim_col cols then
        enrich_columns dimension_name_map rest
          (add_column cols (label_of dimension_name_map dim_col))
      else enrich_columns dimension_name_map rest cols
  end.

End Labels.

Section SkippedIndicators.

Context {W : Type} {WD : World W}.

(** A data response that makes the loop skip the indicator: a status
    other than 200, or a body whose [body.data] is empty. *)
Definition skipped (r : http_result) : bool :=
  match r with
  | RequestFailed => false
  | Response s body =>
      negb (s =? 200)
      || match body with
         | Some data =>
             match getitem data "body" with
             | Ok b =>
                 match getitem b "data" with
                 | Ok d => negb (truthy d)
                 | Raise _ => false
                 end
             | Raise _ => false
             end
         | None => false
         end
  end.

(** Every indicator of the list is skipped, the requests going out one
    after the other from the world [w]. *)
Fixpoint all_skipped (lang : string) (indicator_ids : list Z) (w : W) : bool :=
  match indicator_ids with
  | [] => true
  | indicator_id :: rest =>
      let '(r, w') := requests_get DataEndpoint indicator_id lang w in
      skipped r && all_skipped lang rest w'
  end.

End SkippedIndicators.

(** The name of a coded column, [dim_<id>]. *)
Definition is_dimension_column (k : string) : Prop := String.prefix "dim_" k = true.

Definition data_call (indicator_id : Z) (lang : string) : call :=
  {| call_endpoint := DataEndpoint; call_indicator := indicator_id; call_lang := lang |}.

Definition dimensions_call (indicator_id : Z) (lang : string) : call :=
  {| call_endpoint := DimensionsEndpoint; call_indicator := indicator_id; call_lang := lang |}.

Definition excel_call (indicator_id : Z) (lang : string) : call :=
  {| call_endpoint := DimensionsExcel; call_indicator := indicator_id; call_lang := lang |}.

Definition metadata_call (indicator_id : Z) (lang : string) : call :=
  {| call_endpoint := MetadataEndpoint; call_indicator := indicator_id; call_lang := lang |}.

(** ** Vocabulary for the properties of the whole pipeline *)

(** A step that only writes to the log: the world and the list of
    requests are as before. *)
Definition only_logs {W : Type} (st st' : state W) : Prop :=
  world st' = world st
  /\ calls st' = calls st
  /\ exists l, logs st' = logs st ++ l.

(** A request of the loop: one of the three JSON endpoints, for one of
    the requested indicators, in the requested language. *)
Definition loop_call (indicator_ids : list Z) (lang : string) (c : call) : Prop :=
  In (call_indicator c) indicator_ids
  /\ call_lang c = lang
  /\ call_endpoint c <> DimensionsExcel.

(** The requests one turn of the loop can have sent when it ends, in
    whatever way it ends. *)
Definition turn_calls (indicator_id : Z) (lang : string) (l : list call) : Prop :=
  l = [data_call indicator_id lang]
  \/ l = [data_call indicator_id lang; dimensions_call indicator_id lang]
  \/ l = [data_call indicator_id lang; dimensions_call indicator_id lang;
          metadata_call indicator_id lang].

(** A JSON value that is neither a list nor an object: assigned to a
    column, it goes into every row. *)
Definition plain_name (v : pyval) : bool :=
  match v with
  | PyList _ | PyDict _ => false
  | _ => true
  end.

(** A JSON value that is neither an object, a list nor a string. *)
Definition is_scalar (v : pyval) : bool :=
  match v with
  | PyNone | PyBool _ | PyInt _ | PyFloat _ | PyNaN => true
  | _ => false
  end.

(** A disk on which nothing can be read or written, with a cache file
    that is there or not; the spreadsheet endpoint answers by [excel]. *)
Definition faulty_world (cached : bool) (excel : Z -> string -> result DataFrame)
  : World unit :=
  {| requests_get := fun _ _ _ w => (RequestFailed, w);
     read_excel := fun i l w => (excel i l, w);
     cache_exists := fun _ _ => cached;
     read_pickle := fun _ w => (Raise OSError, w);
     mkdir := fun w => (Raise OSError, w);
     to_pickle := fun _ _ w => (Raise OSError, w);
     to_csv := fun _ _ w => (Raise OSError, w) |}.

Definition excel_table (i : Z) (l : string) : result DataFrame := Ok year_frame.

Definition unit_state : state unit := {| world := tt; calls := []; logs := [] |}.

(** Keys of a member map that are pairwise different keys for Python. *)
Fixpoint distinct_keys (kvs : member_map) : bool :=
  match kvs with
  | [] => true
  | kv :: rest =>
      forallb (fun kv' => negb (py_eq (fst kv') (fst kv))) rest && distinct_keys rest
  end.

Section DimensionEntries.

Context {RT : Runtime}.

(** The coded column a dimension of the response stands for. *)
Definition dim_column_of (dimension : pyval) : option string :=
  option_map (fun i => ("dim_" ++ py_str i)%string) (field "id" dimension).

Definition names_column (col : string) (dimension : pyval) : bool :=
  match dim_column_of dimension with
  | Some c => String.eqb c col
  | None => false
  end.

(** The member map of one dimension of the response. *)
Definition member_map_of (dimension : pyval) : option member_map :=
  match field "members" dimension with
  | Some members =>
      match iter members with
      | Ok ms =>
          match member_loop ms [] with
          | Ok mm => Some mm
          | Raise _ => None
          end
      | Raise _ => None
      end
  | None => None
  end.

End DimensionEntries.

(** ** The two scripts that call the pipeline

    [analyze_data.py] and [test_data.py] fetch indicator 4470 and print
    what they find.  What a script prints about one column (its dtype, the
    number of its distinct values, some of them) is pandas' business and
    may raise: it is the parameter [describe].  The model keeps the values
    the scripts compute and the exception they end with. *)

Section Scripts.

Context {RT : Runtime} {W : Type} {WD : World W}.

Variable describe : DataFrame -> string -> result unit.

Definition is_region_name (col : string) : bool :=
  let col_lower := str_lower col in
  is_substring "division" col_lower
  || is_substring "country" col_lower
  || is_substring "area" col_lower.

Definition is_month_name (col : string) : bool :=
  is_substring "month" (str_lower col).

(** The loop over the columns of [analyze_data.py]. *)
Fixpoint column_loop (df_filtered : DataFrame) (cols : list string)
    (region_col month_col : option string) : result (option string * option string) :=
  match cols with
  | [] => Ok (region_col, month_col)
  | col :: rest =>
      _ <-r describe df_filtered col ;;
      let region_col :=
        if is_region_name col then
          match region_col with
          | None => Some col
          | Some _ => region_col
          end
        else region_col in
      let month_col := if is_month_name col then Some col else month_col in
      column_loop df_filtered rest region_col month_col
  end.

Record analysis : Type := {
  found_region : option string;
  found_month : option string;
  belize_sample : option (list row)
}.

Definition named (o : option string) : bool :=
  match o with
  | Some s => negb (String.eqb s "")
  | None => false
  end.

(** [analyze_data.py] from the frame on. *)
Definition analyze (df : DataFrame) : result analysis :=
  let df_filtered :=
    if mem "dim_85162" (columns df) then
      filter_rows (fun r => py_eq (cell r "dim_85162") (PyInt 85163)) df
    else df in
  found <-r column_loop df_filtered (columns df_filtered) None None ;;
  let '(region_col, month_col) := found in
  match region_col, month_col with
  | Some region, Some month =>
      if named region_col && named month_col then
        let belize :=
          filter_rows (fun r => py_eq (cell r region) (PyStr "Belize")) df_filtered in
        if mem "value" (columns belize) then
          Ok {| found_region := region_col; found_month := month_col;
                belize_sample :=
                  Some (firstn 15 (map (reindex [region; month; "value"]) (rows belize))) |}
        else Raise KeyError
      else Ok {| found_region := region_col; found_month := month_col;
                 belize_sample := None |}
  | _, _ =>
      Ok {| found_region := region_col; found_month := month_col; belize_sample := None |}
  end.

Definition analyze_data_script : M W analysis :=
  df <- cepal_data [4470] "en" None None None false "cepalstat_indicators.csv" ;;
  match df with
  | None => lift (Raise AttributeError)
  | Some df => lift (analyze df)
  end.

Fixpoint describe_all (df : DataFrame) (cols : list string) : result unit :=
  match cols with
  | [] => Ok tt
  | col :: rest =>
      _ <-r describe df col ;;
      describe_all df rest
  end.

(** [test_data.py]: the shape, the columns and the first rows, then every
    column, then the distinct values of two columns when they are there. *)
Definition test_data_script : M W unit :=
  df <- cepal_data [4470] "en" None None None false "cepalstat_indicators.csv" ;;
  match df with
  | None => lift (Raise AttributeError)
  | Some df =>
      lift (_ <-r describe_all df (columns df) ;;
            _ <-r (if mem "Months" (columns df) then describe df "Months" else Ok tt) ;;
            if mem "Subnational administrative division" (columns df)
            then describe df "Subnational administrative division"
            else Ok tt)
  end.

End Scripts.

Definition quiet (df : DataFrame) (col : string) : result unit := Ok tt.

(** An API on which indicator 9 answers its data request with a body
    that is not JSON, the rest being [maize_api]. *)
Definition mixed_api (e : endpoint) (indicator_id : Z) (lang : string) : http_result :=
  if indicator_id =? 9 then Response 200 None else maize_api e indicator_id lang.

(** A dimensions body in which identifier 1 comes twice. *)
Definition repeated_dimensions : pyval :=
  PyDict [("body", PyDict [("dimensions", PyList
    [dimension 1 "Area" [(10, "North")];
     dimension 2 "Crop" [(20, "Maize")];
     dimension 1 "Region" [(10, "Norte"); (11, "Sur")]])])].

(** A metadata answer whose body is null. *)
Definition null_body_api (e : endpoint) (indicator_id : Z) (lang : string) : http_result :=
  match e with
  | MetadataEndpoint => Response 200 (Some (PyDict [("body", PyNone)]))
  | _ => Response 404 None
  end.

Definition monthly_frame : DataFrame :=
  {| columns := ["Country area"; "Months"; "Subnational division"; "month_id"];
     rows := [[("Country area", PyStr "Belize"); ("Months", PyStr "Jan");
               ("Subnational division", PyStr "Cayo"); ("month_id", PyInt 1)]] |}.

(** * Properties *)

(** ** Dictionaries and frames *)

Lemma mem_In : forall c l, mem c l = true <-> In c l.
Proof.
  intros c l. unfold mem. rewrite existsb_exists. split.
  - intros [x [Hin Heq]]. apply String.eqb_eq in Heq. subst. exact Hin.
  - intros Hin. exists c. split; [exact Hin | apply String.eqb_refl].
Qed.

Lemma mem_false : forall c l, mem c l = false <-> ~ In c l.
Proof.
  intros c l. rewrite <- mem_In. destruct (mem c l); split; congruence.
Qed.

Lemma dict_get_set_same :
  forall (V : Type) k (v : V) d, dict_get k (dict_set k v d) = Some v.
Proof.
  intros V k v d. induction d as [|[k' v'] d IH]; simpl.
  - now rewrite String.eqb_refl.
  - destruct (String.eqb k k') eqn:E; simpl; rewrite E; auto.
Qed.

Lemma dict_get_set_other :
  forall (V : Type) k k' (v : V) d,
    k <> k' -> dict_get k' (dict_set k v d) = dict_get k' d.
Proof.
  intros V k k' v d Hne. induction d as [|[k0 v0] d IH]; simpl.
  - destruct (String.eqb k' k) eqn:E; auto.
    apply String.eqb_eq in E. congruence.
  - destruct (String.eqb k k0) eqn:E; simpl.
    + apply String.eqb_eq in E. subst k0.
      destruct (String.eqb k' k) eqn:E'; auto.
      apply String.eqb_eq in E'. congruence.
    + destruct (String.eqb k' k0); auto.
Qed.

Lemma keys_dict_set :
  forall (V : Type) k (v : V) d,
    map fst (dict_set k v d) = add_column (map fst d) k.
Proof.
  intros V k v d. unfold add_column, mem.
  induction d as [|[k' v'] d IH]; simpl; auto.
  destruct (String.eqb k k') eqn:E; simpl; auto.
  rewrite IH. destruct (existsb (String.eqb k) (map fst d)); auto.
Qed.

Lemma dict_get_In_keys :
  forall (V : Type) k (d : list (string * V)),
    dict_get k d <> None <-> In k (map fst d).
Proof.
  intros V k d. induction d as [|[k' v'] d IH]; simpl.
  - split; [congruence | tauto].
  - destruct (String.eqb k k') eqn:E.
    + apply String.eqb_eq in E. subst. split; [auto | congruence].
    + apply String.eqb_neq in E. rewrite IH. split; [auto | intros [H|H]; congruence].
Qed.

Lemma cell_set_same : forall c v r, cell (dict_set c v r) c = v.
Proof. intros. unfold cell. now rewrite dict_get_set_same. Qed.

Lemma cell_set_other : forall c c' v r, c <> c' -> cell (dict_set c v r) c' = cell r c'.
Proof. intros. unfold cell. now rewrite dict_get_set_other. Qed.

Lemma In_add_column : forall x cols c, In x (add_column cols c) <-> In x cols \/ x = c.
Proof.
  intros x cols c. unfold add_column. destruct (mem c cols) eqn:E.
  - apply mem_In in E. split; [auto | intros [H|H]; subst; auto].
  - rewrite in_app_iff. simpl. split; intros [H|H]; auto.
    + destruct H; auto; contradiction.
Qed.

Lemma In_union_columns :
  forall new x cols, In x (union_columns cols new) <-> In x cols \/ In x new.
Proof.
  unfold union_columns. induction new as [|c new IH]; intros x cols; simpl.
  - tauto.
  - rewrite IH, In_add_column. split; intros H; intuition (subst; auto).
Qed.

Lemma dict_get_reindex :
  forall cols r c,
    dict_get c (reindex cols r) = if mem c cols then Some (cell r c) else None.
Proof.
  intros cols r c. unfold reindex, mem. induction cols as [|c' cols IH]; simpl; auto.
  destruct (String.eqb c c') eqn:E; simpl; auto.
  apply String.eqb_eq in E. now subst.
Qed.

Lemma cell_reindex_in : forall cols r c, In c cols -> cell (reindex cols r) c = cell r c.
Proof.
  intros cols r c H. unfold cell at 1. rewrite dict_get_reindex.
  apply mem_In in H. now rewrite H.
Qed.

Lemma cell_reindex_out : forall cols r c, ~ In c cols -> cell (reindex cols r) c = PyNaN.
Proof.
  intros cols r c H. unfold cell. rewrite dict_get_reindex.
  apply mem_false in H. now rewrite H.
Qed.

Lemma keys_reindex : forall cols r, map fst (reindex cols r) = cols.
Proof.
  intros cols r. unfold reindex. rewrite map_map. simpl. apply map_id.
Qed.

Lemma filter_map_swap :
  forall (A B : Type) (f : A -> B) (p : B -> bool) (l : list A),
    filter p (map f l) = map f (filter (fun x => p (f x)) l).
Proof.
  intros A B f p l. induction l as [|x l IH]; simpl; auto.
  destruct (p (f x)); simpl; now rewrite IH.
Qed.

Lemma filter_filter :
  forall (A : Type) (p q : A -> bool) (l : list A),
    filter q (filter p l) = filter (fun x => p x && q x) l.
Proof.
  intros A p q l. induction l as [|x l IH]; simpl; auto.
  destruct (p x); simpl; [destruct (q x); simpl|]; now rewrite IH.
Qed.

Lemma add_column_present : forall cols c, In c cols -> add_column cols c = cols.
Proof.
  intros cols c H. unfold add_column. apply mem_In in H. now rewrite H.
Qed.

Lemma NoDup_add_column : forall cols c, NoDup cols -> NoDup (add_column cols c).
Proof.
  intros cols c H. unfold add_column. destruct (mem c cols) eqn:E; [exact H|].
  apply mem_false in E. induction H as [|x l Hx Hl IH]; simpl.
  - constructor; [tauto | constructor].
  - constructor.
    + rewrite in_app_iff. simpl. intros [Hin|[->|[]]]; [contradiction|].
      apply E. now left.
    + apply IH. intros Hc. apply E. now right.
Qed.

Lemma NoDup_union_columns :
  forall new cols, NoDup cols -> NoDup (union_columns cols new).
Proof.
  unfold union_columns. induction new as [|c new IH]; intros cols H; simpl; auto.
  apply IH. now apply NoDup_add_column.
Qed.

Lemma well_formed_assign :
  forall c f df, well_formed df -> well_formed (assign c f df).
Proof.
  intros c f df H. unfold well_formed in *. simpl.
  apply Forall_forall. intros r Hr. apply in_map_iff in Hr.
  destruct Hr as [r0 [<- Hr0]]. rewrite keys_dict_set.
  rewrite Forall_forall in H. now rewrite (H r0 Hr0).
Qed.

Lemma set_column_length :
  forall c vals rs, List.length (set_column c vals rs) = List.length rs.
Proof.
  intros c vals rs. revert vals.
  induction rs as [|r rs IH]; intros vals; simpl; auto.
Qed.

Lemma set_column_keys_add :
  forall c cols rs vals,
    Forall (fun r => map fst r = cols) rs ->
    Forall (fun r => map fst r = add_column cols c) (set_column c vals rs).
Proof.
  intros c cols rs. induction rs as [|r rs IH]; intros vals H; simpl.
  - constructor.
  - inversion H as [|r' rs' Hr Hrs]; subst. constructor.
    + now rewrite keys_dict_set.
    + now apply IH.
Qed.

Lemma set_column_keys :
  forall c cols rs vals,
    In c cols ->
    Forall (fun r => map fst r = cols) rs ->
    Forall (fun r => map fst r = cols) (set_column c vals rs).
Proof.
  intros c cols rs vals Hc H.
  pose proof (set_column_keys_add c cols rs vals H) as H'.
  now rewrite (add_column_present cols c Hc) in H'.
Qed.

Lemma columns_infer_columns_with :
  forall f df, columns (infer_columns_with f df) = columns df.
Proof. reflexivity. Qed.

Lemma length_rows_infer_columns_with :
  forall f df, List.length (rows (infer_columns_with f df)) = List.length (rows df).
Proof.
  intros f df. simpl. generalize (rows df) as rs.
  induction (columns df) as [|c cs IH]; intros rs; simpl; auto.
  now rewrite IH, set_column_length.
Qed.

Lemma well_formed_infer_columns_with :
  forall f df, well_formed df -> well_formed (infer_columns_with f df).
Proof.
  intros f df. unfold well_formed. simpl.
  assert (H : forall cs rs,
             incl cs (columns df) ->
             Forall (fun r => map fst r = columns df) rs ->
             Forall (fun r => map fst r = columns df)
               (fold_left
                  (fun rs c => set_column c (f (map (fun r => cell r c) rs)) rs) cs rs)).
  { induction cs as [|c cs IH]; intros rs Hincl Hrs; simpl; auto.
    apply IH.
    - intros x Hx. apply Hincl. now right.
    - apply set_column_keys; [apply Hincl; now left | exact Hrs]. }
  apply H. apply incl_refl.
Qed.

Lemma well_formed_records_frame :
  forall cols (f : pyval -> row) (l : list pyval),
    well_formed {| columns := cols; rows := map (fun v => reindex cols (f v)) l |}.
Proof.
  intros cols f l. unfold well_formed. simpl.
  apply Forall_forall. intros r Hr. apply in_map_iff in Hr.
  destruct Hr as [v [<- _]]. apply keys_reindex.
Qed.

(** ** The example runtime *)

Lemma simple_other_frame_shape :
  forall data df,
    simple_other_frame data = Ok df -> well_formed df /\ NoDup (columns df).
Proof.
  intros data df H. unfold simple_other_frame in H.
  destruct data as [| | | | | | |d]; try discriminate.
  destruct d as [|[k0 v0] d].
  - injection H as <-. split; constructor.
  - destruct (list_items v0) as [l0|]; [|discriminate].
    match type of H with (if ?b then _ else _) = _ => destruct b end; [|discriminate].
    injection H as <-. split.
    + apply well_formed_infer_columns_with. unfold well_formed. simpl columns. simpl rows.
      apply Forall_forall. intros r Hr. apply in_map_iff in Hr.
      destruct Hr as [i [<- _]]. rewrite map_map. simpl. apply map_id.
    + rewrite columns_infer_columns_with.
      exact (NoDup_nodup string_dec (map fst ((k0, v0) :: d))).
Qed.

Lemma simple_setitem_container_shape :
  forall df c v df',
    simple_setitem_container df c v = Ok df' ->
    columns df' = add_column (columns df) c
    /\ List.length (rows df') = List.length (rows df)
    /\ (well_formed df -> well_formed df').
Proof.
  intros df c v df' H. unfold simple_setitem_container in H.
  destruct v; injection H as <-;
    try (split; [reflexivity | split; [simpl; apply length_map | apply well_formed_assign]]).
  split; [reflexivity | split; [simpl; apply set_column_length |]].
  intros Hwf. unfold well_formed in *. simpl. now apply set_column_keys_add.
Qed.

(** Python and pandas on integers, integral floats, strings without
    non-ASCII letters, lists of records and objects of lists.  The other
    floats and the containers are printed by a placeholder: the examples
    have none in a place that is formatted. *)
Definition simple_runtime : Runtime :=
  {| py_str := simple_str;
     str_lower := map_string ascii_lower;
     str_upper := map_string ascii_upper;
     to_numeric := simple_to_numeric;
     is_object_dtype := simple_object_dtype;
     infer_column := simple_infer;
     other_frame := simple_other_frame;
     str_accessor := simple_str_accessor;
     setitem_container := simple_setitem_container;
     py_str_str := fun s => eq_refl;
     str_lower_empty := eq_refl;
     object_dtype_str := simple_object_dtype_str;
     other_frame_shape := simple_other_frame_shape;
     setitem_container_shape := simple_setitem_container_shape |}.

(** ** The year filter *)

Section YearFilter.

Context {RT : Runtime} {W : Type} {WD : World W}.

Lemma is_substring_empty_hay :
  forall needle, needle <> "" -> is_substring needle "" = false.
Proof.
  intros needle H. destruct needle; [congruence | reflexivity].
Qed.

Lemma looks_like_year_nonempty : forall col, looks_like_year col = true -> col <> "".
Proof.
  intros col H ->. unfold looks_like_year in H.
  rewrite str_lower_empty in H.
  rewrite !is_substring_empty_hay in H by discriminate. discriminate.
Qed.

Lemma find_year_column_nonempty :
  forall cols c, find_year_column cols = Some c -> c <> "".
Proof.
  intros cols c. unfold find_year_column.
  destruct (mem "Años__ESTANDAR" cols); [intros [= <-]; discriminate|].
  destruct (mem "Years__ESTANDAR" cols); [intros [= <-]; discriminate|].
  destruct (find (fun col => mem col cols) potential_year_columns) eqn:E.
  - intros [= <-]. apply find_some in E. destruct E as [E _].
    unfold potential_year_columns in E. simpl in E.
    intuition (subst; discriminate).
  - intros H. apply find_some in H. now apply looks_like_year_nonempty.
Qed.


Lemma filter_by_year_run :
  forall (start_year end_year : option Z) (combined_df : DataFrame) (st : state W),
    year_bound_given start_year end_year = true ->
    match find_year_column (columns combined_df) with
    | Some year_column =>
        filter_by_year start_year end_year combined_df st
        = (Ok (apply_year_bounds year_column start_year end_year combined_df),
           add_logs st [(INFO, FilteredYears start_year end_year year_column)])
    | None =>
        filter_by_year start_year end_year combined_df st
        = (Ok combined_df, add_logs st [(WARNING, NoYearColumn)])
    end.
Proof.
  intros start_year end_year df st Hb.
  unfold filter_by_year. rewrite Hb.
  destruct (find_year_column (columns df)) as [yc|] eqn:E.
  - apply find_year_column_nonempty in E.
    apply String.eqb_neq in E. rewrite E. reflexivity.
  - reflexivity.
Qed.


Lemma rows_apply_year_bounds :
  forall yc start_year end_year df,
    rows (apply_year_bounds yc start_year end_year df)
    = map (fun r => dict_set yc (numeric_cell (cell r yc)) r)
        (filter (fun r =>
                   match start_year with
                   | Some y => ge_year (numeric_cell (cell r yc)) y
                   | None => true
                   end
                   && match end_year with
                      | Some y => le_year (numeric_cell (cell r yc)) y
                      | None => true
                      end)
                (rows df)).
Proof.
  intros yc start_year end_year df. unfold apply_year_bounds.
  destruct start_year as [s|], end_year as [e|]; simpl;
    rewrite ?filter_map_swap, ?filter_filter; f_equal;
    try (apply filter_ext; intros r; rewrite ?cell_set_same, ?andb_true_r; reflexivity).
  symmetry. clear. induction (rows df) as [|r l IH]; simpl; congruence.
Qed.

Lemma bounds_of_cells :
  forall start_year end_year v,
    (match start_year with Some y => ge_year (numeric_cell v) y | None => true end
     && match end_year with Some y => le_year (numeric_cell v) y | None => true end)%bool
    = (within_bounds start_year end_year (to_numeric v)
       || match start_year, end_year, to_numeric v with
          | None, None, None => true
          | _, _, _ => false
          end)%bool.
Proof.
  intros start_year end_year v. unfold numeric_cell, within_bounds.
  destruct (to_numeric v) as [q|]; simpl.
  - destruct start_year, end_year; simpl; rewrite ?orb_false_r; reflexivity.
  - destruct start_year, end_year; reflexivity.
Qed.

(** C5.  With a bound given and the year column found, the rows kept are
    those whose year parses to a number within the inclusive bounds, with
    the year cell turned into that number: every row kept has a numeric
    year between the bounds that are given, and a row whose year does not
    parse is dropped. *)
Theorem year_filter_keeps_rows_within_bounds :
  forall (start_year end_year : option Z) (combined_df : DataFrame) (st : state W)
         (year_column : string),
    year_bound_given start_year end_year = true ->
    find_year_column (columns combined_df) = Some year_column ->
    exists filtered st',
      filter_by_year start_year end_year combined_df st = (Ok filtered, st')
      /\ rows filtered
         = map (fun r => dict_set year_column (numeric_cell (cell r year_column)) r)
             (filter (fun r => within_bounds start_year end_year
                                 (to_numeric (cell r year_column)))
                (rows combined_df))
      /\ (forall r, In r (rows filtered) ->
            exists v : Q,
              cell r year_column = PyFloat v
              /\ (forall y, start_year = Some y -> (inject_Z y <= v)%Q)
              /\ (forall y, end_year = Some y -> (v <= inject_Z y)%Q))
      /\ (forall r, In r (rows combined_df) ->
            to_numeric (cell r year_column) = None ->
            ~ In (dict_set year_column (numeric_cell (cell r year_column)) r)
                 (rows filtered)).
Proof.
  intros start_year end_year df st yc Hb Hfind.
  pose proof (filter_by_year_run start_year end_year df st Hb) as Hrun.
  rewrite Hfind in Hrun.
  eexists _, _. split; [exact Hrun|].
  assert (Hrows :
    rows (apply_year_bounds yc start_year end_year df)
    = map (fun r => dict_set yc (numeric_cell (cell r yc)) r)
        (filter (fun r => within_bounds start_year end_year (to_numeric (cell r yc)))
           (rows df))).
  { rewrite rows_apply_year_bounds. f_equal. apply filter_ext. intros r.
    rewrite bounds_of_cells.
    destruct start_year, end_year; try discriminate;
      destruct (to_numeric (cell r yc)); simpl; rewrite ?orb_false_r; reflexivity. }
  assert (Hkept : forall r, In r (rows (apply_year_bounds yc start_year end_year df)) ->
            exists v : Q,
              cell r yc = PyFloat v
              /\ (forall y, start_year = Some y -> (inject_Z y <= v)%Q)
              /\ (forall y, end_year = Some y -> (v <= inject_Z y)%Q)).
  { intros r Hr. rewrite Hrows in Hr. apply in_map_iff in Hr.
    destruct Hr as [r0 [<- Hr0]]. apply filter_In in Hr0. destruct Hr0 as [_ Hw].
    rewrite cell_set_same. unfold numeric_cell, within_bounds in *.
    destruct (to_numeric (cell r0 yc)) as [q|]; [|discriminate].
    exists q. apply andb_prop in Hw. destruct Hw as [Hs He].
    split; [reflexivity|]. split; intros y ->.
    + now apply Qle_bool_iff.
    + now apply Qle_bool_iff. }
  split; [exact Hrows|]. split; [exact Hkept|].
  intros r _ Hnone Hin. apply Hkept in Hin. destruct Hin as [v [Hv _]].
  rewrite cell_set_same in Hv. unfold numeric_cell in Hv.
  rewrite Hnone in Hv. discriminate.
Qed.

End YearFilter.

(** ** The country filter *)

Section CountryFilter.

Context {RT : Runtime} {W : Type} {WD : World W}.






(** The country filter when the column is there: it goes through when the
    column can be upper-cased, and raises before any line is logged when
    it cannot. *)
Lemma filter_by_country_run :
  forall c0 cs df (st : state W),
    mem "iso3" (columns df) = true ->
    iso3_accepted df = true ->
    filter_by_country (Some (c0 :: cs)) df st
    = (let filtered :=
         filter_rows (fun r => isin (map str_upper (c0 :: cs)) (cell r "iso3"))
           (iso3_assigned df) in
       (Ok filtered,
        add_logs st
          ([(INFO, FilteredCountries (List.length (c0 :: cs)) (c0 :: cs));
            (INFO, RowsBeforeAfter (List.length (rows df)) (List.length (rows filtered)))]
           ++ match filter (fun c => negb (mem c (unique (column_values "iso3" filtered))))
                      (map str_upper (c0 :: cs)) with
              | [] => []
              | missing => [(WARNING, NoDataForCountries missing)]
              end))).
Proof.
  intros c0 cs df st Hiso Hacc. unfold filter_by_country. rewrite Hiso.
  unfold iso3_accepted in Hacc. unfold iso3_assigned.
  destruct (is_object_dtype (column_values "iso3" df)); simpl in Hacc;
    rewrite ?Hacc;
    cbv beta iota zeta delta [bind lift logger ret add_logs world calls logs];
    match goal with
    | |- context [filter ?p (map str_upper (c0 :: cs))] =>
        destruct (filter p (map str_upper (c0 :: cs)))
    end;
    cbv beta iota; cbn [rows assign]; rewrite ?length_map, <- ?app_assoc, ?app_nil_r;
    reflexivity.
Qed.

Lemma filter_by_country_refused :
  forall c0 cs df (st : state W),
    mem "iso3" (columns df) = true ->
    iso3_accepted df = false ->
    filter_by_country (Some (c0 :: cs)) df st = (Raise AttributeError, st).
Proof.
  intros c0 cs df st Hiso Hacc. unfold filter_by_country. rewrite Hiso.
  unfold iso3_accepted in Hacc.
  destruct (is_object_dtype (column_values "iso3" df)); simpl in Hacc; [|discriminate].
  rewrite Hacc. unfold bind, lift. destruct st; reflexivity.
Qed.



End CountryFilter.

(** ** Frames built by the loop *)

Section Frames.

Context {RT : Runtime}.

Lemma well_formed_DataFrame_of :
  forall d df, DataFrame_of d = Ok df -> well_formed df.
Proof.
  intros d df H. unfold DataFrame_of in H.
  destruct d; try (now apply other_frame_shape in H).
  destruct (forallb is_record l); [|now apply other_frame_shape in H].
  injection H as <-. apply well_formed_infer_columns_with.
  apply well_formed_records_frame.
Qed.

Lemma well_formed_setitem_value :
  forall c v df df',
    setitem_value c v df = Ok df' -> well_formed df -> well_formed df'.
Proof.
  intros c v df df' H Hwf. unfold setitem_value in H.
  destruct v; try (injection H as <-; now apply well_formed_assign).
  - destruct (Nat.eqb _ _); [|discriminate].
    apply setitem_container_shape in H. destruct H as (_ & _ & H). auto.
  - apply setitem_container_shape in H. destruct H as (_ & _ & H). auto.
Qed.

Lemma columns_setitem_value :
  forall c v df df',
    setitem_value c v df = Ok df' -> columns df' = add_column (columns df) c.
Proof.
  intros c v df df' H. unfold setitem_value in H.
  destruct v; try (injection H as <-; reflexivity).
  - destruct (Nat.eqb _ _); [|discriminate].
    apply setitem_container_shape in H. now destruct H as (H & _ & _).
  - apply setitem_container_shape in H. now destruct H as (H & _ & _).
Qed.

Lemma length_rows_setitem_value :
  forall c v df df',
    setitem_value c v df = Ok df' -> List.length (rows df') = List.length (rows df).
Proof.
  intros c v df df' H. unfold setitem_value in H.
  destruct v; try (injection H as <-; simpl; apply length_map).
  - destruct (Nat.eqb _ _); [|discriminate].
    apply setitem_container_shape in H. now destruct H as (_ & H & _).
  - apply setitem_container_shape in H. now destruct H as (_ & H & _).
Qed.

Lemma setitem_value_plain :
  forall c v df,
    plain_name v = true -> setitem_value c v df = Ok (assign c (fun _ => v) df).
Proof. intros c v df H. destruct v; try discriminate; reflexivity. Qed.

Lemma well_formed_enrich :
  forall nm mms df, well_formed df -> well_formed (enrich nm mms df).
Proof.
  intros nm mms. unfold enrich.
  induction mms as [|[dim_col mm] mms IH]; intros df H; simpl; auto.
  apply IH. destruct (mem dim_col (columns df)); auto.
  now apply well_formed_assign.
Qed.

Lemma length_rows_enrich :
  forall nm mms df, List.length (rows (enrich nm mms df)) = List.length (rows df).
Proof.
  intros nm mms. unfold enrich.
  induction mms as [|[dim_col mm] mms IH]; intros df; simpl; auto.
  rewrite IH. destruct (mem dim_col (columns df)); auto.
  simpl. apply length_map.
Qed.

Lemma In_concat_columns_acc :
  forall dfs acc c,
    In c (fold_left (fun acc df => union_columns acc (columns df)) dfs acc)
    <-> In c acc \/ exists df, In df dfs /\ In c (columns df).
Proof.
  induction dfs as [|df dfs IH]; intros acc c; simpl.
  - split; [auto | intros [H|[df [[] _]]]; exact H].
  - rewrite IH, In_union_columns. split.
    + intros [[H|H]|[df' [H1 H2]]]; eauto.
    + intros [H|[df' [[<-|H1] H2]]]; eauto.
Qed.

Lemma In_concat_columns :
  forall dfs c,
    In c (columns (concat dfs)) <-> exists df, In df dfs /\ In c (columns df).
Proof.
  intros dfs c. simpl. unfold concat_columns. rewrite In_concat_columns_acc.
  simpl. tauto.
Qed.

Lemma length_rows_concat :
  forall dfs,
    List.length (rows (concat dfs))
    = list_sum (map (fun df => List.length (rows df)) dfs).
Proof.
  intros dfs. simpl. generalize (concat_columns dfs) as cols. intros cols.
  induction dfs as [|df dfs IH]; simpl; auto.
  now rewrite length_app, length_map, IH.
Qed.

Lemma cell_absent_column :
  forall df r c, well_formed df -> In r (rows df) -> ~ In c (columns df) -> cell r c = PyNaN.
Proof.
  intros df r c Hwf Hr Hc. unfold well_formed in Hwf. rewrite Forall_forall in Hwf.
  specialize (Hwf r Hr). unfold cell.
  destruct (dict_get c r) eqn:E; auto.
  exfalso. apply Hc. rewrite <- Hwf. apply dict_get_In_keys. congruence.
Qed.

End Frames.

(** ** One turn of the loop *)

Ltac run :=
  unfold process_indicator, fetch_indicator_name, bind, get, on_world, logger, ret,
    lift, add_logs; simpl.

Section Loop.

Context {RT : Runtime} {W : Type} {WD : World W}.

Lemma process_indicator_bad_status :
  forall lang id (st : state W) s body w1,
    requests_get DataEndpoint id lang (world st) = (Response s body, w1) ->
    s <> 200 ->
    process_indicator lang id st
    = (Ok None,
       {| world := w1;
          calls := calls st ++ [data_call id lang];
          logs := logs st ++ [(INFO, FetchingData id); (ERROR, ErrorFetchingData id s)] |}).
Proof.
  intros lang id st s body w1 Hget Hs. run. rewrite Hget. simpl.
  apply Z.eqb_neq in Hs. rewrite Hs. simpl.
  now rewrite <- app_assoc.
Qed.

Lemma process_indicator_no_data :
  forall lang id (st : state W) data b d w1,
    requests_get DataEndpoint id lang (world st) = (Response 200 (Some data), w1) ->
    getitem data "body" = Ok b ->
    getitem b "data" = Ok d ->
    truthy d = false ->
    process_indicator lang id st
    = (Ok None,
       {| world := w1;
          calls := calls st ++ [data_call id lang];
          logs := logs st ++ [(INFO, FetchingData id); (INFO, NoDataAvailable id)] |}).
Proof.
  intros lang id st data b d w1 Hget Hb Hd Ht. run. rewrite Hget. simpl.
  rewrite Hb, Hd, Ht. simpl. now rewrite <- app_assoc.
Qed.

Lemma process_indicator_dimensions_failed :
  forall lang id (st : state W) data b d df0 w1 s body w2,
    requests_get DataEndpoint id lang (world st) = (Response 200 (Some data), w1) ->
    getitem data "body" = Ok b ->
    getitem b "data" = Ok d ->
    truthy d = true ->
    DataFrame_of d = Ok df0 ->
    requests_get DimensionsEndpoint id lang w1 = (Response s body, w2) ->
    s <> 200 ->
    process_indicator lang id st
    = (Ok (Some (assign "indicator_id" (fun _ => PyInt id) df0)),
       {| world := w2;
          calls := calls st ++ [data_call id lang; dimensions_call id lang];
          logs := logs st ++ [(INFO, FetchingData id);
                              (ERROR, ErrorFetchingDimensions id s)] |}).
Proof.
  intros lang id st data b d df0 w1 s body w2 Hget Hb Hd Ht Hdf Hdim Hs. run.
  rewrite Hget. simpl. rewrite Hb, Hd, Ht, Hdf. simpl. rewrite Hdim. simpl.
  apply Z.eqb_neq in Hs. rewrite Hs. simpl.
  now rewrite <- !app_assoc.
Qed.

(** What a frame appended by the loop is made of. *)
Lemma process_indicator_frame :
  forall lang id (st st' : state W) df,
    process_indicator lang id st = (Ok (Some df), st') ->
    exists d df0,
      DataFrame_of d = Ok df0
      /\ (df = assign "indicator_id" (fun _ => PyInt id) df0
          \/ exists nm mms name df1,
               setitem_value "indicator_name" name
                 (assign "indicator_id" (fun _ => PyInt id) df0) = Ok df1
               /\ df = enrich nm mms df1).
Proof.
  intros lang id st st' df H. revert H. run.
  destruct (requests_get DataEndpoint id lang (world st)) as [[|s body] w1]; simpl;
    [discriminate|].
  destruct (s =? 200); simpl; [|discriminate].
  destruct (json body) as [data|]; simpl; [|discriminate].
  destruct (getitem data "body") as [b|]; simpl; [|discriminate].
  destruct (getitem b "data") as [d|]; simpl; [|discriminate].
  destruct (truthy d); simpl; [|discriminate].
  destruct (DataFrame_of d) as [df0|] eqn:Hdf; simpl; [|discriminate].
  destruct (requests_get DimensionsEndpoint id lang w1) as [[|s2 body2] w2]; simpl;
    [discriminate|].
  destruct (s2 =? 200); simpl.
  - destruct (json body2) as [dd|]; simpl; [|discriminate].
    destruct (dimension_table dd) as [[nm mms]|]; simpl; [|discriminate].
    destruct (requests_get MetadataEndpoint id lang w2) as [[|s3 body3] w3]; simpl;
      [discriminate|].
    destruct (s3 =? 200); simpl.
    + destruct (json body3) as [m|]; simpl; [|discriminate].
      destruct (resolve_indicator_name id m) as [name|]; simpl; [|discriminate].
      destruct (setitem_value "indicator_name" name _) as [df1|] eqn:Hset; simpl;
        [|discriminate].
      intros [= <- _]. exists d, df0. split; [exact Hdf|]. right.
      exists nm, mms, name, df1. auto.
    + intros [= <- _]. exists d, df0. split; [exact Hdf|]. right.
      exists nm, mms, (default_name id). eexists. split; reflexivity.
  - intros [= <- _]. exists d, df0. split; [exact Hdf|]. now left.
Qed.

Lemma process_indicator_well_formed :
  forall lang id (st st' : state W) df,
    process_indicator lang id st = (Ok (Some df), st') -> well_formed df.
Proof.
  intros lang id st st' df H. apply process_indicator_frame in H.
  destruct H as [d [df0 [Hdf [->|[nm [mms [name [df1 [Hset ->]]]]]]]]];
    apply well_formed_DataFrame_of in Hdf.
  - now apply well_formed_assign.
  - apply well_formed_enrich. eapply well_formed_setitem_value; eauto.
    now apply well_formed_assign.
Qed.

Lemma fetch_all_well_formed :
  forall lang ids dfs0 (st st' : state W) dfs,
    Forall well_formed dfs0 ->
    fetch_all lang ids dfs0 st = (Ok dfs, st') ->
    Forall well_formed dfs.
Proof.
  intros lang ids. induction ids as [|id ids IH]; intros dfs0 st st' dfs Hwf H; simpl in H.
  - unfold ret in H. now injection H as <- _.
  - unfold bind in H.
    destruct (process_indicator lang id st) as [[o|e] st1] eqn:E; [|discriminate].
    apply IH in H; [exact H|].
    destruct o as [df|]; [|exact Hwf].
    apply Forall_app. split; [exact Hwf|].
    constructor; [|constructor]. eapply process_indicator_well_formed; eauto.
Qed.

Lemma fetch_all_app :
  forall lang pre post dfs0 (st : state W),
    fetch_all lang (pre ++ post) dfs0 st
    = bind (fetch_all lang pre dfs0) (fun dfs => fetch_all lang post dfs) st.
Proof.
  intros lang pre post. induction pre as [|id pre IH]; intros dfs0 st; simpl.
  - reflexivity.
  - unfold bind.
    destruct (process_indicator lang id st) as [[o|e] st1]; [|reflexivity].
    rewrite IH. reflexivity.
Qed.

(** An exception in one turn is the result of the whole call. *)
Lemma cepal_data_turn_raises :
  forall pre id post lang start_year end_year countries save_csv csv_filename
         (st st1 st2 : state W) dfs e,
    fetch_all lang pre [] st = (Ok dfs, st1) ->
    process_indicator lang id st1 = (Raise e, st2) ->
    cepal_data (pre ++ id :: post) lang start_year end_year countries save_csv
      csv_filename st
    = (Raise e, st2).
Proof.
  intros pre id post lang sy ey cs save csv st st1 st2 dfs e Hpre Hp.
  unfold cepal_data, bind at 1. rewrite fetch_all_app.
  unfold bind at 1. rewrite Hpre. simpl. unfold bind at 1. rewrite Hp. reflexivity.
Qed.

(** A data answer that cannot be read makes the turn raise. *)
Lemma process_indicator_unreadable_data :
  forall lang id (st : state W) body w1 e,
    requests_get DataEndpoint id lang (world st) = (Response 200 body, w1) ->
    unreadable body "data" = Some e ->
    fst (process_indicator lang id st) = Raise e.
Proof.
  intros lang id st body w1 e Hget Hu. run. rewrite Hget. simpl.
  destruct body as [data|]; simpl in *; [|now injection Hu as <-].
  destruct (getitem data "body") as [b|e1]; simpl in *; [|now injection Hu as <-].
  destruct (getitem b "data") as [d|e2]; simpl in *; [discriminate|].
  now injection Hu as <-.
Qed.

(** A dimensions answer that cannot be read makes the turn raise. *)
Lemma process_indicator_unreadable_dimensions :
  forall lang id (st : state W) data b d df0 w1 body w2 e,
    requests_get DataEndpoint id lang (world st) = (Response 200 (Some data), w1) ->
    getitem data "body" = Ok b ->
    getitem b "data" = Ok d ->
    truthy d = true ->
    DataFrame_of d = Ok df0 ->
    requests_get DimensionsEndpoint id lang w1 = (Response 200 body, w2) ->
    unreadable body "dimensions" = Some e ->
    fst (process_indicator lang id st) = Raise e.
Proof.
  intros lang id st data b d df0 w1 body w2 e Hget Hb Hd Ht Hdf Hdim Hu. run.
  rewrite Hget. simpl. rewrite Hb, Hd, Ht, Hdf. simpl. rewrite Hdim. simpl.
  destruct body as [dd|]; simpl in *; [|now injection Hu as <-].
  unfold dimension_table.
  destruct (getitem dd "body") as [bd|e1]; simpl in *; [|now injection Hu as <-].
  destruct (getitem bd "dimensions") as [ds|e2]; simpl in *; [discriminate|].
  now injection Hu as <-.
Qed.

Lemma cepal_data_unfiltered :
  forall lang ids (st st1 : state W) dfs csv_filename,
    fetch_all lang ids [] st = (Ok dfs, st1) ->
    dfs <> [] ->
    cepal_data ids lang None None None false csv_filename st
    = (Ok (Some (concat dfs)),
       add_logs st1 [(INFO, FinalRows (List.length (rows (concat dfs))))]).
Proof.
  intros lang ids st st1 dfs csv Hf Hne. unfold cepal_data, bind at 1. rewrite Hf.
  destruct dfs as [|df dfs]; [congruence|]. reflexivity.
Qed.

(** C3.  When the loop has appended the frames [dfs], at least one, the
    unfiltered result of [cepal_data] is their concatenation: it has as
    many rows as the frames have together, its columns are the columns
    of all the frames, and each row keeps its cells and is null in the
    columns its own frame does not have. *)
Theorem concat_sums_rows_and_unites_columns :
  forall lang ids (st st1 : state W) dfs csv_filename,
    fetch_all lang ids [] st = (Ok dfs, st1) ->
    dfs <> [] ->
    fst (cepal_data ids lang None None None false csv_filename st) = Ok (Some (concat dfs))
    /\ List.length (rows (concat dfs)) = list_sum (map (fun df => List.length (rows df)) dfs)
    /\ (forall c, In c (columns (concat dfs)) <-> exists df, In df dfs /\ In c (columns df))
    /\ rows (concat dfs)
       = flat_map (fun df => map (reindex (columns (concat dfs))) (rows df)) dfs
    /\ (forall df r c,
          In df dfs -> In r (rows df) ->
          (In c (columns df) -> cell (reindex (columns (concat dfs)) r) c = cell r c)
          /\ (In c (columns (concat dfs)) -> ~ In c (columns df) ->
              cell (reindex (columns (concat dfs)) r) c = PyNaN)).
Proof.
  intros lang ids st st1 dfs csv Hf Hne.
  split; [now rewrite (cepal_data_unfiltered _ _ _ _ _ _ Hf Hne)|].
  split; [apply length_rows_concat|].
  split; [apply In_concat_columns|].
  split; [reflexivity|].
  intros df r c Hdf Hr. split.
  - intros Hc. apply cell_reindex_in. apply In_concat_columns. eauto.
  - intros Hc Hnc. rewrite cell_reindex_in by exact Hc.
    apply (cell_absent_column df); auto.
    apply fetch_all_well_formed in Hf; [|constructor].
    rewrite Forall_forall in Hf. now apply Hf.
Qed.

Lemma process_indicator_skipped :
  forall lang id (st : state W) r w1,
    requests_get DataEndpoint id lang (world st) = (r, w1) ->
    skipped r = true ->
    exists l,
      process_indicator lang id st
      = (Ok None,
         {| world := w1; calls := calls st ++ [data_call id lang]; logs := logs st ++ l |}).
Proof.
  intros lang id st r w1 Hget Hskip. destruct r as [|s body]; [discriminate|].
  destruct (Z.eq_dec s 200) as [->|Hs].
  - simpl in Hskip. destruct body as [data|]; [|discriminate].
    destruct (getitem data "body") as [b|] eqn:Hb; [|discriminate].
    destruct (getitem b "data") as [d|] eqn:Hd; [|discriminate].
    apply negb_true_iff in Hskip. eexists.
    eapply process_indicator_no_data; eauto.
  - eexists. eapply process_indicator_bad_status; eauto.
Qed.

Lemma fetch_all_skipped :
  forall lang ids dfs0 (st : state W),
    all_skipped lang ids (world st) = true ->
    exists st' l,
      fetch_all lang ids dfs0 st = (Ok dfs0, st') /\ logs st' = logs st ++ l.
Proof.
  intros lang ids dfs0. induction ids as [|id ids IH]; intros st H; simpl in *.
  - exists st, []. split; [reflexivity | now rewrite app_nil_r].
  - destruct (requests_get DataEndpoint id lang (world st)) as [r w1] eqn:Hget.
    apply andb_prop in H. destruct H as [Hskip Hrest].
    destruct (process_indicator_skipped lang id st r w1 Hget Hskip) as [l Hp].
    unfold bind. rewrite Hp.
    destruct (IH {| world := w1; calls := calls st ++ [data_call id lang];
                    logs := logs st ++ l |} Hrest) as [st' [l' [Hf Hl]]].
    exists st', (l ++ l'). split; [exact Hf|].
    rewrite Hl. simpl. now rewrite app_assoc.
Qed.

(** C8.  When every indicator of the list is skipped, [cepal_data]
    returns [None], not an empty frame, and the last line it logs is
    that no data was retrieved. *)
Theorem all_skipped_returns_none :
  forall lang ids start_year end_year countries save_csv csv_filename (st : state W),
    all_skipped lang ids (world st) = true ->
    exists st' l,
      cepal_data ids lang start_year end_year countries save_csv csv_filename st
      = (Ok None, st')
      /\ logs st' = logs st ++ l ++ [(INFO, NoDataRetrieved)].
Proof.
  intros lang ids sy ey cs save csv st H.
  destruct (fetch_all_skipped lang ids [] st H) as [st1 [l [Hf Hl]]].
  exists (add_logs st1 [(INFO, NoDataRetrieved)]), l. split.
  - unfold cepal_data, bind at 1. rewrite Hf. reflexivity.
  - simpl. rewrite Hl. now rewrite app_assoc.
Qed.

(** C10, as amended.  When the data request succeeds and the dimensions
    request answers with a status other than 200, the turn appends the
    fetched rows with only [indicator_id] added; the metadata request is
    never sent; the frame has an [indicator_name] column only if the
    fetched records have a field of that name, and otherwise its rows are
    null in that column after concatenation. *)
Theorem dimensions_failure_skips_metadata :
  forall lang id (st : state W) data b d df0 w1 s body w2,
    requests_get DataEndpoint id lang (world st) = (Response 200 (Some data), w1) ->
    getitem data "body" = Ok b ->
    getitem b "data" = Ok d ->
    truthy d = true ->
    DataFrame_of d = Ok df0 ->
    requests_get DimensionsEndpoint id lang w1 = (Response s body, w2) ->
    s <> 200 ->
    exists df st',
      process_indicator lang id st = (Ok (Some df), st')
      /\ df = assign "indicator_id" (fun _ => PyInt id) df0
      /\ world st' = w2
      /\ calls st' = calls st ++ [data_call id lang; dimensions_call id lang]
      /\ logs st' = logs st ++ [(INFO, FetchingData id);
                                 (ERROR, ErrorFetchingDimensions id s)]
      /\ In "indicator_id" (columns df)
      /\ (forall r, In r (rows df) -> cell r "indicator_id" = PyInt id)
      /\ (In "indicator_name" (columns df) <-> In "indicator_name" (columns df0))
      /\ (~ In "indicator_name" (columns df0) ->
          forall dfs r, In df dfs -> In r (rows df) ->
            cell (reindex (columns (concat dfs)) r) "indicator_name" = PyNaN).
Proof.
  intros lang id st data b d df0 w1 s body w2 Hget Hb Hd Ht Hdf Hdim Hs.
  eexists _, _. split.
  { eapply process_indicator_dimensions_failed; eauto. }
  assert (Hcols : In "indicator_name"
                    (columns (assign "indicator_id" (fun _ => PyInt id) df0))
                  <-> In "indicator_name" (columns df0)).
  { simpl. rewrite In_add_column. split; [intros [H|H]; [exact H | discriminate] | auto]. }
  repeat split; try reflexivity.
  - simpl. apply In_add_column. now right.
  - intros r Hr. simpl in Hr. apply in_map_iff in Hr.
    destruct Hr as [r0 [<- _]]. apply cell_set_same.
  - apply Hcols.
  - apply Hcols.
  - intros Hno dfs r Hin Hr.
    assert (Hwf : well_formed (assign "indicator_id" (fun _ => PyInt id) df0)).
    { apply well_formed_assign. eapply well_formed_DataFrame_of; eauto. }
    assert (Hnan : cell r "indicator_name" = PyNaN).
    { eapply cell_absent_column; eauto. now rewrite Hcols. }
    unfold cell at 1. rewrite dict_get_reindex.
    destruct (mem "indicator_name" (columns (concat dfs))); [now rewrite Hnan | reflexivity].
Qed.

End Loop.

(** ** The dimension resolver *)

Section DimensionResolver.

Context {RT : Runtime} {W : Type} {WD : World W}.

Ltac run_load :=
  unfold load_dimension_data, try_except, bind, on_world, logger, ret, add_logs; simpl.


End DimensionResolver.

(** ** The metadata resolver *)

Section MetadataResolver.

Context {RT : Runtime} {W : Type} {WD : World W}.

Lemma resolve_indicator_name_chain :
  forall id m,
    metadata_shaped m = true ->
    resolve_indicator_name id m = Ok (name_chain id m).
Proof.
  intros id m Hm. destruct m as [| | | | | | |d]; try discriminate.
  unfold resolve_indicator_name, nested_name_present, indicators_nonempty, name_chain,
    name_or_title.
  simpl in *. unfold dict_mem.
  destruct (dict_get "body" d) as [b|]; simpl; [|reflexivity].
  destruct b as [| | | | | | |bd]; try discriminate.
  apply andb_prop in Hm. destruct Hm as [Hmeta Hind].
  simpl. unfold dict_mem.
  assert (Hrest :
    (c2 <-r Ok match dict_get "indicator_name" bd with Some _ => true | None => false end ;;
     if c2 : bool then getitem (PyDict bd) "indicator_name"
     else
       c3 <-r (c <-r Ok match dict_get "indicators" bd with Some _ => true | None => false end ;;
               if c : bool then i <-r getitem (PyDict bd) "indicators" ;; Ok (truthy i)
               else Ok false) ;;
       if c3 : bool then
         i <-r getitem (PyDict bd) "indicators" ;;
         e <-r getitem0 i ;;
         get_default e "name" (default_name id)
       else
         c4 <-r Ok match dict_get "name" bd with Some _ => true | None => false end ;;
         if c4 : bool then getitem (PyDict bd) "name"
         else
           c5 <-r Ok match dict_get "title" bd with Some _ => true | None => false end ;;
           if c5 : bool then getitem (PyDict bd) "title"
           else Ok (default_name id))
    = Ok match dict_get "indicator_name" bd with
         | Some n => n
         | None =>
             match dict_get "indicators" bd with
             | Some i =>
                 if truthy i then
                   match and_then (first_entry i) (field "name") with
                   | Some n => n
                   | None => default_name id
                   end
                 else
                   match dict_get "name" bd with
                   | Some n => n
                   | None =>
                       match dict_get "title" bd with
                       | Some n => n
                       | None => default_name id
                       end
                   end
             | None =>
                 match dict_get "name" bd with
                 | Some n => n
                 | None =>
                     match dict_get "title" bd with
                     | Some n => n
                     | None => default_name id
                     end
                 end
             end
         end).
  { simpl. destruct (dict_get "indicator_name" bd); simpl; [reflexivity|].
    destruct (dict_get "indicators" bd) as [i|]; simpl.
    - destruct (truthy i) eqn:Ht; simpl.
      + simpl in Hind. destruct i as [| | | | | |[|e l]|]; try discriminate.
        destruct e; try discriminate. simpl.
        destruct (dict_get "name" d0); reflexivity.
      + destruct (dict_get "name" bd); simpl; [reflexivity|].
        destruct (dict_get "title" bd); reflexivity.
    - destruct (dict_get "name" bd); simpl; [reflexivity|].
      destruct (dict_get "title" bd); reflexivity. }
  destruct (dict_get "metadata" bd) as [mm|]; simpl.
  - destruct mm as [| | | | | | |md]; try discriminate. simpl. unfold dict_mem.
    destruct (dict_get "indicator_name" md); simpl; [reflexivity|].
    exact Hrest.
  - exact Hrest.
Qed.

(** C7, as amended.  When the metadata request answers with a status
    other than 200 the name is "Indicator <id>".  When it answers 200 with
    objects where the lookups expect them, the name is determined in this
    order: [body.metadata.indicator_name]; [body.indicator_name]; for a
    non-empty [body.indicators], the name of its first entry, or
    "Indicator <id>" when that entry has no name, without looking at
    [body.name] or [body.title]; [body.name]; [body.title]; and
    "Indicator <id>" when nothing matches.  No missing field raises. *)
Theorem indicator_name_fallback_chain :
  forall lang id (st : state W) s body w',
    requests_get MetadataEndpoint id lang (world st) = (Response s body, w') ->
    (s <> 200 ->
     fetch_indicator_name lang id st
     = (Ok (default_name id),
        {| world := w'; calls := calls st ++ [metadata_call id lang]; logs := logs st |}))
    /\ (forall m,
          s = 200 -> body = Some m -> metadata_shaped m = true ->
          fetch_indicator_name lang id st
          = (Ok (name_chain id m),
             {| world := w'; calls := calls st ++ [metadata_call id lang];
                logs := logs st |})).
Proof.
  intros lang id st s body w' Hget. split.
  - intros Hs. run. rewrite Hget. simpl. apply Z.eqb_neq in Hs. now rewrite Hs.
  - intros m -> -> Hm. run. rewrite Hget. simpl.
    now rewrite (resolve_indicator_name_chain id m Hm).
Qed.

End MetadataResolver.

(** ** The label enricher *)

Section Enrichment.

Context {RT : Runtime} {W : Type} {WD : World W}.

Lemma enrich_rows_columns :
  forall nm items df,
    rows (enrich nm items df) = map (enrich_row nm items (columns df)) (rows df)
    /\ columns (enrich nm items df) = enrich_columns nm items (columns df).
Proof.
  intros nm items. unfold enrich.
  induction items as [|[dim_col mm] items IH]; intros df; simpl.
  - split; [now rewrite map_id | reflexivity].
  - destruct (mem dim_col (columns df)) eqn:E.
    + destruct (IH (assign (label_of nm dim_col)
                      (fun r => series_map (str_keys mm) (py_str (cell r dim_col))) df))
        as [Hr Hc].
      rewrite Hr, Hc. simpl. rewrite map_map. split; reflexivity.
    + apply IH.
Qed.

Lemma enrich_columns_grow :
  forall nm items cols c, In c cols -> In c (enrich_columns nm items cols).
Proof.
  intros nm items. induction items as [|[dim_col mm] items IH]; intros cols c H; simpl; auto.
  destruct (mem dim_col cols); apply IH; auto.
  apply In_add_column. now left.
Qed.

Lemma enrich_columns_label :
  forall nm items cols dim_col,
    In dim_col (map fst items) -> In dim_col cols ->
    In (label_of nm dim_col) (enrich_columns nm items cols).
Proof.
  intros nm items. induction items as [|[dc mm] items IH]; intros cols dim_col Hin Hc;
    simpl in *; [contradiction|].
  destruct Hin as [->|Hin].
  - apply mem_In in Hc. rewrite Hc. apply enrich_columns_grow.
    apply In_add_column. now right.
  - destruct (mem dc cols); apply IH; auto.
    apply In_add_column. now left.
Qed.

(** A column that is the label of no item goes through untouched. *)
Lemma enrich_row_other :
  forall nm items cols r c,
    (forall dc, In dc (map fst items) -> label_of nm dc <> c) ->
    cell (enrich_row nm items cols r) c = cell r c.
Proof.
  intros nm items. induction items as [|[dc mm] items IH]; intros cols r c H; simpl; auto.
  assert (Hrest : forall dc', In dc' (map fst items) -> label_of nm dc' <> c).
  { intros dc' Hdc'. apply H. now right. }
  destruct (mem dc cols).
  - rewrite IH by exact Hrest. apply cell_set_other. apply H. now left.
  - now apply IH.
Qed.

Lemma enrich_row_label :
  forall nm items cols r dim_col mm,
    NoDup (map fst items) ->
    In (dim_col, mm) items ->
    In dim_col cols ->
    (forall dc, In dc (map fst items) -> label_of nm dc <> dim_col) ->
    (forall dc, In dc (map fst items) -> dc <> dim_col ->
                label_of nm dc <> label_of nm dim_col) ->
    cell (enrich_row nm items cols r) (label_of nm dim_col)
    = series_map (str_keys mm) (py_str (cell r dim_col)).
Proof.
  intros nm items. induction items as [|[dc mm'] items IH];
    intros cols r dim_col mm Hnd Hin Hc HA HB; simpl in *; [contradiction|].
  inversion Hnd as [|? ? Hnotin Hnd']; subst.
  destruct Hin as [[= -> ->]|Hin].
  - apply mem_In in Hc. rewrite Hc.
    rewrite enrich_row_other.
    + apply cell_set_same.
    + intros dc' Hdc'. apply HB; [now right|]. intros ->. contradiction.
  - assert (Hne : dc <> dim_col).
    { intros ->. apply Hnotin. apply in_map_iff. exists (dim_col, mm). auto. }
    destruct (mem dc cols).
    + rewrite (IH _ _ dim_col mm); auto.
      * rewrite cell_set_other; [reflexivity|]. apply HA. now left.
      * apply In_add_column. now left.
    + apply (IH _ _ dim_col mm); auto.
Qed.

Lemma Forall2_map_right :
  forall (A B : Type) (R : A -> B -> Prop) (f : A -> B) (l : list A),
    (forall x, In x l -> R x (f x)) -> Forall2 R l (map f l).
Proof.
  intros A B R f l H. induction l as [|x l IH]; simpl; constructor.
  - apply H. now left.
  - apply IH. intros y Hy. apply H. now right.
Qed.

Lemma dict_get_In :
  forall (V : Type) k (v : V) d, dict_get k d = Some v -> In (k, v) d.
Proof.
  intros V k v d. induction d as [|[k' v'] d IH]; simpl; [discriminate|].
  destruct (String.eqb k k') eqn:E.
  - apply String.eqb_eq in E. intros [= ->]. left. now subst.
  - intros H. right. now apply IH.
Qed.

(** The loop of step 5 on a frame [df] whose dimension columns are those
    of [df0]: a dimension whose label is not taken by a coded column of
    the table nor by another dimension of the table gets its label column. *)
Lemma enrich_labelled :
  forall nm mms df0 df dim_col mm,
    NoDup (map fst mms) ->
    List.length (rows df0) = List.length (rows df) ->
    Forall2 (fun r0 r => cell r dim_col = cell r0 dim_col) (rows df0) (rows df) ->
    In dim_col (columns df) ->
    dict_get dim_col mms = Some mm ->
    (forall dc, In dc (map fst mms) -> label_of nm dc <> dim_col) ->
    (forall dc, In dc (map fst mms) -> dc <> dim_col ->
                label_of nm dc <> label_of nm dim_col) ->
    In dim_col (columns (enrich nm mms df))
    /\ In (label_of nm dim_col) (columns (enrich nm mms df))
    /\ labelled nm dim_col mm df0 (enrich nm mms df).
Proof.
  intros nm mms df0 df dim_col mm Hnd Hlen Hsame Hc Hget HA HB.
  destruct (enrich_rows_columns nm mms df) as [Hr Hcols].
  apply dict_get_In in Hget.
  assert (Hkey : In dim_col (map fst mms)).
  { apply in_map_iff. exists (dim_col, mm). auto. }
  split; [rewrite Hcols; now apply enrich_columns_grow|].
  split; [rewrite Hcols; now apply enrich_columns_label|].
  unfold labelled. rewrite Hr. clear Hlen Hr.
  generalize (columns df), Hc. intros cols Hcols'.
  induction Hsame as [|r0 r l0 l Hrr Hsame IH]; simpl; constructor.
  - split.
    + rewrite enrich_row_other by exact HA. exact Hrr.
    + rewrite (enrich_row_label nm mms cols r dim_col mm); auto.
      unfold series_map. now rewrite Hrr.
  - exact IH.
Qed.

Lemma is_dimension_column_dim :
  forall x, is_dimension_column ("dim_" ++ x)%string.
Proof. intros x. unfold is_dimension_column. simpl. destruct x; reflexivity. Qed.

Lemma dimension_loop_keys :
  forall dims nm mms nm' mms',
    dimension_loop dims nm mms = Ok (nm', mms') ->
    map fst nm = map fst mms ->
    NoDup (map fst mms) ->
    Forall is_dimension_column (map fst mms) ->
    map fst nm' = map fst mms'
    /\ NoDup (map fst mms')
    /\ Forall is_dimension_column (map fst mms').
Proof.
  induction dims as [|dim dims IH]; intros nm mms nm' mms' H Hk Hnd Hdim; simpl in H.
  - injection H as <- <-. auto.
  - destruct (getitem dim "id") as [dim_id|]; simpl in H; [|discriminate].
    destruct (getitem dim "name") as [dim_name|]; simpl in H; [|discriminate].
    destruct (getitem dim "members") as [members|]; simpl in H; [|discriminate].
    destruct (iter members) as [ms|]; simpl in H; [|discriminate].
    destruct (member_loop ms []) as [mm|]; simpl in H; [|discriminate].
    apply IH in H; auto.
    + rewrite !keys_dict_set. now rewrite Hk.
    + rewrite keys_dict_set. now apply NoDup_add_column.
    + rewrite keys_dict_set. apply Forall_forall. intros k Hin.
      apply In_add_column in Hin. destruct Hin as [Hin| ->].
      * rewrite Forall_forall in Hdim. now apply Hdim.
      * apply is_dimension_column_dim.
Qed.

Lemma dimension_table_keys :
  forall dd nm mms,
    dimension_table dd = Ok (nm, mms) ->
    map fst nm = map fst mms
    /\ NoDup (map fst mms)
    /\ Forall is_dimension_column (map fst mms).
Proof.
  intros dd nm mms H. unfold dimension_table in H.
  destruct (getitem dd "body") as [b|]; simpl in H; [|discriminate].
  destruct (getitem b "dimensions") as [ds|]; simpl in H; [|discriminate].
  destruct (iter ds) as [l|]; simpl in H; [|discriminate].
  apply dimension_loop_keys in H; auto; constructor.
Qed.

Lemma process_indicator_enriched :
  forall lang id (st : state W) data b d df0 w1 dd w2 nm mms name st3,
    requests_get DataEndpoint id lang (world st) = (Response 200 (Some data), w1) ->
    getitem data "body" = Ok b ->
    getitem b "data" = Ok d ->
    truthy d = true ->
    DataFrame_of d = Ok df0 ->
    requests_get DimensionsEndpoint id lang w1 = (Response 200 (Some dd), w2) ->
    dimension_table dd = Ok (nm, mms) ->
    fetch_indicator_name lang id
      {| world := w2;
         calls := calls st ++ [data_call id lang; dimensions_call id lang];
         logs := logs st ++ [(INFO, FetchingData id)] |}
    = (Ok name, st3) ->
    forall df1,
      setitem_value "indicator_name" name
        (assign "indicator_id" (fun _ => PyInt id) df0) = Ok df1 ->
      let df := enrich nm mms df1 in
      process_indicator lang id st
      = (Ok (Some df), add_logs st3 [(INFO, ProcessedIndicator id (List.length (rows df)))]).
Proof.
  intros lang id st data b d df0 w1 dd w2 nm mms name st3
    Hget Hb Hd Ht Hdf Hdim Htab Hname df1 Hset df.
  unfold process_indicator, bind, get, on_world, logger, ret, lift, add_logs.
  cbn [world calls logs fst snd]. rewrite Hget.
  cbn [fst snd Z.eqb Pos.eqb negb json]. rewrite Hb, Hd, Ht. cbn [negb]. rewrite Hdf.
  cbn [world calls logs fst snd]. rewrite Hdim.
  cbn [fst snd Z.eqb Pos.eqb negb json]. rewrite Htab.
  rewrite <- !app_assoc. cbn [app].
  unfold data_call, dimensions_call in Hname. rewrite Hname.
  cbn [fst snd]. rewrite Hset. reflexivity.
Qed.

(** X18.  When the data and dimensions requests succeed and the
    indicator name is resolved to a value that is neither a list nor an
    object, the turn appends a frame with one row per row of the frame
    built from the fetched records in which, for every dimension column
    of that frame that the dimension table has, provided no dimension of
    the table is displayed under the name of that coded column and no
    other dimension shares its display name: the coded column is still
    there with the codes as the frame holds them, there is a column named
    after the display name, and in each row it holds the member name that
    the string-keyed member map has for the code coerced to a string, or
    null when the map has none. *)
Theorem enrichment_adds_label_columns :
  forall lang id (st : state W) data b d df0 w1 dd w2 nm mms name st3,
    requests_get DataEndpoint id lang (world st) = (Response 200 (Some data), w1) ->
    getitem data "body" = Ok b ->
    getitem b "data" = Ok d ->
    truthy d = true ->
    DataFrame_of d = Ok df0 ->
    requests_get DimensionsEndpoint id lang w1 = (Response 200 (Some dd), w2) ->
    dimension_table dd = Ok (nm, mms) ->
    fetch_indicator_name lang id
      {| world := w2;
         calls := calls st ++ [data_call id lang; dimensions_call id lang];
         logs := logs st ++ [(INFO, FetchingData id)] |}
    = (Ok name, st3) ->
    plain_name name = true ->
    exists df,
      process_indicator lang id st
      = (Ok (Some df), add_logs st3 [(INFO, ProcessedIndicator id (List.length (rows df)))])
      /\ List.length (rows df) = List.length (rows df0)
      /\ forall dim_col mm,
           In dim_col (columns df0) ->
           dict_get dim_col mms = Some mm ->
           (forall dc, In dc (map fst mms) -> label_of nm dc <> dim_col) ->
           (forall dc, In dc (map fst mms) -> dc <> dim_col ->
                       label_of nm dc <> label_of nm dim_col) ->
           (exists dim_name,
               dict_get dim_col nm = Some dim_name
               /\ label_of nm dim_col = py_str dim_name
               /\ (forall s, dim_name = PyStr s -> label_of nm dim_col = s))
           /\ In dim_col (columns df)
           /\ In (label_of nm dim_col) (columns df)
           /\ labelled nm dim_col mm df0 df.
Proof.
  intros lang id st data b d df0 w1 dd w2 nm mms name st3
    Hget Hb Hd Ht Hdf Hdim Htab Hname Hplain.
  eexists. split.
  { eapply process_indicator_enriched; eauto. now apply setitem_value_plain. }
  split.
  { rewrite length_rows_enrich. simpl. now rewrite !length_map. }
  intros dim_col mm Hcol Hmm HA HB.
  destruct (dimension_table_keys dd nm mms Htab) as [Hkeys [Hnd Hdimk]].
  assert (Hkey : In dim_col (map fst mms)).
  { apply dict_get_In in Hmm. apply in_map_iff. exists (dim_col, mm). auto. }
  assert (Hpre : is_dimension_column dim_col).
  { rewrite Forall_forall in Hdimk. now apply Hdimk. }
  split.
  { unfold label_of. destruct (dict_get dim_col nm) as [dim_name|] eqn:E.
    - exists dim_name. split; [reflexivity|]. split; [reflexivity|].
      intros s ->. apply py_str_str.
    - exfalso. rewrite <- Hkeys in Hkey. apply dict_get_In_keys in Hkey. congruence. }
  apply enrich_labelled; auto.
  - simpl. now rewrite !length_map.
  - simpl. rewrite map_map. apply Forall2_map_right. intros r _.
    rewrite !cell_set_other; [reflexivity | |];
      intros <-; unfold is_dimension_column in Hpre; discriminate.
  - simpl. apply In_add_column. left. apply In_add_column. now left.
Qed.

End Enrichment.

(** ** Failures that do not reach the caller *)

Section Propagation.

Context {RT : Runtime} {W : Type} {WD : World W}.

Lemma field_getitem : forall k v x, field k v = Some x -> getitem v k = Ok x.
Proof.
  intros k v x H. destruct v; try discriminate. simpl in *. now rewrite H.
Qed.

Lemma member_loop_total :
  forall ms mm,
    forallb good_member ms = true -> exists mm', member_loop ms mm = Ok mm'.
Proof.
  induction ms as [|m ms IH]; intros mm H; simpl in *.
  - eauto.
  - apply andb_prop in H. destruct H as [Hm Hms]. unfold good_member in Hm.
    destruct (field "name" m) as [name|] eqn:En; [|discriminate].
    destruct (field "id" m) as [i|] eqn:Ei; [|discriminate].
    rewrite (field_getitem _ _ _ En), (field_getitem _ _ _ Ei). simpl. rewrite Hm.
    now apply IH.
Qed.

Lemma dimension_loop_total :
  forall dims nm mms,
    forallb good_dimension dims = true -> exists t, dimension_loop dims nm mms = Ok t.
Proof.
  induction dims as [|dim dims IH]; intros nm mms H; simpl in *.
  - eauto.
  - apply andb_prop in H. destruct H as [Hd Hds]. unfold good_dimension in Hd.
    destruct (field "id" dim) as [i|] eqn:Ei; [|discriminate].
    destruct (field "name" dim) as [name|] eqn:En; [|discriminate].
    destruct (field "members" dim) as [members|] eqn:Em; [|discriminate].
    destruct members as [| | | | | |ms|]; try discriminate.
    rewrite (field_getitem _ _ _ Ei), (field_getitem _ _ _ En), (field_getitem _ _ _ Em).
    simpl. destruct (member_loop_total ms [] Hd) as [mm Hmm]. rewrite Hmm. simpl.
    now apply IH.
Qed.

Lemma dimension_table_total :
  forall dd, good_dimensions dd = true -> exists t, dimension_table dd = Ok t.
Proof.
  intros dd H. unfold good_dimensions in H. unfold dimension_table.
  destruct (field "body" dd) as [b|] eqn:Eb; [|discriminate]. simpl in H.
  destruct (field "dimensions" b) as [ds|] eqn:Ed; [|discriminate].
  destruct ds as [| | | | | |l|]; try discriminate.
  rewrite (field_getitem _ _ _ Eb). simpl. rewrite (field_getitem _ _ _ Ed). simpl.
  now apply dimension_loop_total.
Qed.

Section GoodRemote.

Variable lang : string.

Hypothesis remote_good :
  forall e id w, good_response e (fst (requests_get e id lang w)) = true.

Hypothesis names_plain :
  forall id w m w',
    requests_get MetadataEndpoint id lang w = (Response 200 (Some m), w') ->
    plain_name (name_chain id m) = true.

Lemma fetch_indicator_name_total :
  forall id (st : state W),
    exists name st',
      fetch_indicator_name lang id st = (Ok name, st') /\ plain_name name = true.
Proof.
  intros id st. run.
  pose proof (remote_good MetadataEndpoint id (world st)) as Hg.
  pose proof (names_plain id (world st)) as Hp.
  destruct (requests_get MetadataEndpoint id lang (world st)) as [[|s body] w1]; simpl in *;
    [discriminate|].
  destruct (s =? 200) eqn:Es; simpl in *; [|eauto].
  apply Z.eqb_eq in Es. subst s.
  destruct body as [m|]; [|discriminate]. simpl.
  rewrite (resolve_indicator_name_chain id m Hg). simpl.
  eexists _, _. split; [reflexivity|]. eapply Hp. reflexivity.
Qed.

Lemma process_indicator_total :
  forall id (st : state W), exists o st', process_indicator lang id st = (Ok o, st').
Proof.
  intros id st.
  unfold process_indicator, bind, get, on_world, logger, ret, lift, add_logs.
  cbn [world calls logs fst snd].
  pose proof (remote_good DataEndpoint id (world st)) as Hg.
  destruct (requests_get DataEndpoint id lang (world st)) as [[|s body] w1];
    cbn [fst snd] in *; [discriminate|].
  simpl in Hg. destruct (s =? 200); cbn [negb orb] in *; [|eauto].
  destruct body as [data|]; [|discriminate]. cbn [json].
  unfold good_data in Hg.
  destruct (field "body" data) as [b|] eqn:Eb; [|discriminate]. cbn [and_then] in Hg.
  destruct (field "data" b) as [d|] eqn:Ed; [|discriminate].
  rewrite (field_getitem _ _ _ Eb), (field_getitem _ _ _ Ed).
  destruct (truthy d) eqn:Ht; cbn [negb orb] in *; [|eauto].
  destruct d as [| | | | | |l|]; try discriminate.
  unfold DataFrame_of. rewrite Hg.
  cbn [world calls logs fst snd].
  match goal with
  | |- context [requests_get DimensionsEndpoint id lang ?w] =>
      pose proof (remote_good DimensionsEndpoint id w) as Hg2;
      destruct (requests_get DimensionsEndpoint id lang w) as [[|s2 body2] w2]
  end; cbn [fst snd] in *; [discriminate|].
  simpl in Hg2. destruct (s2 =? 200); cbn [negb orb] in *; [|eauto].
  destruct body2 as [dd|]; [|discriminate]. cbn [json].
  destruct (dimension_table_total dd Hg2) as [t Ht2]. rewrite Ht2.
  match goal with
  | |- context [fetch_indicator_name lang id ?s] =>
      destruct (fetch_indicator_name_total id s) as [name [st3 [Hn Hplain]]]; rewrite Hn
  end.
  rewrite (setitem_value_plain _ _ _ Hplain).
  eauto.
Qed.

Lemma fetch_all_total :
  forall ids dfs0 (st : state W), exists dfs st', fetch_all lang ids dfs0 st = (Ok dfs, st').
Proof.
  induction ids as [|id ids IH]; intros dfs0 st; simpl.
  - unfold ret. eauto.
  - unfold bind. destruct (process_indicator_total id st) as [o [st1 Hp]]. rewrite Hp.
    apply IH.
Qed.

End GoodRemote.

Lemma filter_by_year_total :
  forall start_year end_year df (st : state W),
    exists df' st', filter_by_year start_year end_year df st = (Ok df', st').
Proof.
  intros sy ey df st. unfold filter_by_year.
  destruct (year_bound_given sy ey); [|unfold ret; eauto].
  destruct (find_year_column (columns df)) as [yc|]; [|unfold bind, logger, ret; eauto].
  destruct (negb (String.eqb yc "")); unfold bind, logger, ret; eauto.
Qed.

Lemma filter_by_country_total :
  forall countries df (st : state W),
    (country_filter_applies countries df = true -> iso3_accepted df = true) ->
    exists df' st', filter_by_country countries df st = (Ok df', st').
Proof.
  intros cs df st Hacc.
  destruct cs as [[|c0 cs]|]; try (unfold filter_by_country, ret; eauto; fail).
  simpl in Hacc.
  destruct (mem "iso3" (columns df)) eqn:Hiso.
  - rewrite (filter_by_country_run c0 cs df st Hiso (Hacc eq_refl)). cbv zeta. eauto.
  - unfold filter_by_country. rewrite Hiso. unfold bind, logger, ret. eauto.
Qed.

(** C2, as amended.  When every request is answered and every answer
    with status 200 has a body that parses to JSON of the expected shape,
    the indicator name found in a metadata answer is neither a list nor
    an object, the "iso3" column that reaches the country filter can be
    upper-cased, and the CSV file, when one is asked for, can be written,
    [cepal_data] returns without raising.  A data request that answers
    with another status is logged as an error, and an empty [body.data]
    is logged; in both cases the indicator contributes no frame.  A data
    or dimensions answer with status 200 that cannot be read (its body is
    not JSON, or a subscript ['body'], ['data'] or ['dimensions'] fails)
    ends the whole call with the exception of the failed step; a missing
    field is a [KeyError]. *)
Theorem cepal_data_does_not_raise :
  forall ids lang start_year end_year countries save_csv csv_filename (st : state W),
    ((forall e id w, good_response e (fst (requests_get e id lang w)) = true) ->
     (forall id w m w',
         requests_get MetadataEndpoint id lang w = (Response 200 (Some m), w') ->
         plain_name (name_chain id m) = true) ->
     (forall dfs st1 df1 st2,
         fetch_all lang ids [] st = (Ok dfs, st1) ->
         filter_by_year start_year end_year (concat dfs) st1 = (Ok df1, st2) ->
         country_filter_applies countries df1 = true ->
         iso3_accepted df1 = true) ->
     (save_csv = true -> forall df w, fst (to_csv csv_filename df w) = Ok tt) ->
     exists o st',
       cepal_data ids lang start_year end_year countries save_csv csv_filename st
       = (Ok o, st'))
    /\ (forall id (st0 : state W) s body w1,
          requests_get DataEndpoint id lang (world st0) = (Response s body, w1) ->
          s <> 200 ->
          process_indicator lang id st0
          = (Ok None,
             {| world := w1; calls := calls st0 ++ [data_call id lang];
                logs := logs st0 ++ [(INFO, FetchingData id);
                                     (ERROR, ErrorFetchingData id s)] |}))
    /\ (forall id (st0 : state W) data b d w1,
          requests_get DataEndpoint id lang (world st0) = (Response 200 (Some data), w1) ->
          getitem data "body" = Ok b ->
          getitem b "data" = Ok d ->
          truthy d = false ->
          process_indicator lang id st0
          = (Ok None,
             {| world := w1; calls := calls st0 ++ [data_call id lang];
                logs := logs st0 ++ [(INFO, FetchingData id);
                                     (INFO, NoDataAvailable id)] |}))
    /\ (forall pre id post dfs (st1 : state W) body w1 e,
          ids = pre ++ id :: post ->
          fetch_all lang pre [] st = (Ok dfs, st1) ->
          requests_get DataEndpoint id lang (world st1) = (Response 200 body, w1) ->
          unreadable body "data" = Some e ->
          fst (cepal_data ids lang start_year end_year countries save_csv csv_filename st)
          = Raise e)
    /\ (forall pre id post dfs (st1 : state W) data b d df0 w1 body w2 e,
          ids = pre ++ id :: post ->
          fetch_all lang pre [] st = (Ok dfs, st1) ->
          requests_get DataEndpoint id lang (world st1) = (Response 200 (Some data), w1) ->
          getitem data "body" = Ok b ->
          getitem b "data" = Ok d ->
          truthy d = true ->
          DataFrame_of d = Ok df0 ->
          requests_get DimensionsEndpoint id lang w1 = (Response 200 body, w2) ->
          unreadable body "dimensions" = Some e ->
          fst (cepal_data ids lang start_year end_year countries save_csv csv_filename st)
          = Raise e)
    /\ (forall k,
          unreadable None k = Some JSONDecodeError
          /\ (forall d,
                dict_get "body" d = None ->
                unreadable (Some (PyDict d)) k = Some KeyError)
          /\ (forall d bd,
                dict_get "body" d = Some (PyDict bd) ->
                dict_get k bd = None ->
                unreadable (Some (PyDict d)) k = Some KeyError)).
Proof.
  intros ids lang sy ey cs save csv st.
  split; [|split; [|split; [|split; [|split]]]].
  - intros Hgood Hplain Hacc Hcsv.
    unfold cepal_data, bind at 1.
    destruct (fetch_all_total lang Hgood Hplain ids [] st) as [dfs [st1 Hf]]. rewrite Hf.
    destruct dfs as [|df dfs]; [unfold bind, logger, ret; eauto|].
    unfold bind at 1.
    destruct (filter_by_year_total sy ey (concat (df :: dfs)) st1) as [df1 [st2 Hy]].
    rewrite Hy. unfold bind at 1.
    destruct (filter_by_country_total cs df1 st2 (Hacc _ _ _ _ Hf Hy)) as [df2 [st3 Hc]].
    rewrite Hc.
    destruct save.
    + unfold bind, logger, ret, on_world, add_logs. cbn [world calls logs].
      specialize (Hcsv eq_refl df2 (world st3)).
      destruct (to_csv csv df2 (world st3)) as [[[]|e] w4]; simpl in Hcsv;
        [eexists _, _; reflexivity | discriminate].
    + unfold bind, logger, ret. eauto.
  - intros. eapply process_indicator_bad_status; eauto.
  - intros. eapply process_indicator_no_data; eauto.
  - intros pre id post dfs st1 body w1 e -> Hpre Hget Hu.
    pose proof (process_indicator_unreadable_data lang id st1 body w1 e Hget Hu) as Hp.
    destruct (process_indicator lang id st1) as [r st2] eqn:E. simpl in Hp. subst r.
    now rewrite (cepal_data_turn_raises pre id post lang sy ey cs save csv
                   st st1 st2 dfs e Hpre E).
  - intros pre id post dfs st1 data b d df0 w1 body w2 e -> Hpre Hget Hb Hd Ht Hdf Hdim Hu.
    pose proof (process_indicator_unreadable_dimensions lang id st1 data b d df0 w1
                  body w2 e Hget Hb Hd Ht Hdf Hdim Hu) as Hp.
    destruct (process_indicator lang id st1) as [r st2] eqn:E. simpl in Hp. subst r.
    now rewrite (cepal_data_turn_raises pre id post lang sy ey cs save csv
                   st st1 st2 dfs e Hpre E).
  - intros k. split; [reflexivity|]. split.
    + intros d H. simpl. now rewrite H.
    + intros d bd H1 H2. simpl. rewrite H1. simpl. now rewrite H2.
Qed.

End Propagation.

(** ** The pipeline on the example answers *)

Section Examples.

Let maize : World disk := table_world maize_api no_excel.
Let rt : Runtime := simple_runtime.


Lemma year_filter_keeps_rows_within_bounds_witness :
  exists filtered st',
    filter_by_year (RT:=rt) (W:=disk) (Some 2015) (Some 2020) year_frame start_state
    = (Ok filtered, st')
    /\ rows filtered = [[("value", PyInt 5); ("Period", PyStr "a");
                         ("Year", PyFloat (inject_Z 2015))]].
Proof.
  destruct (year_filter_keeps_rows_within_bounds (RT:=rt) (W:=disk) (Some 2015) (Some 2020)
              year_frame start_state "Year" eq_refl eq_refl)
    as [filtered [st' [Hrun [Hrows _]]]].
  exists filtered, st'. split; [exact Hrun|]. rewrite Hrows. reflexivity.
Defined.



Lemma concat_sums_rows_and_unites_columns_witness :
  exists dfs st1,
    fetch_all (RT:=rt) (WD:=maize) "en" [1; 2] [] start_state = (Ok dfs, st1)
    /\ dfs <> []
    /\ List.length (rows (concat dfs)) = 4%nat
    /\ In "dim_2" (columns (concat dfs)).
Proof.
  eexists _, _.
  match goal with
  | |- ?A /\ ?B /\ _ => assert (Hf : A) by reflexivity; assert (Hne : B) by discriminate
  end.
  destruct (concat_sums_rows_and_unites_columns (RT:=rt) (WD:=maize) "en" [1; 2] start_state
              _ _ "out.csv" Hf Hne) as [_ [Hlen [Hcols _]]].
  split; [exact Hf|]. split; [exact Hne|].
  split; [rewrite Hlen; reflexivity|].
  apply Hcols. eexists. split; [right; left; reflexivity | simpl; auto].
Defined.

Lemma all_skipped_returns_none_witness :
  all_skipped (WD:=maize) "en" [3; 4] (world start_state) = true
  /\ fst (cepal_data (RT:=rt) (WD:=maize) [3; 4] "en" None None None false "out.csv" start_state)
     = Ok None.
Proof.
  split; [reflexivity|].
  destruct (all_skipped_returns_none (RT:=rt) (WD:=maize) "en" [3; 4] None None None false
              "out.csv" start_state eq_refl) as [st' [l [Hrun _]]].
  now rewrite Hrun.
Defined.

Lemma dimensions_failure_skips_metadata_witness :
  exists df st',
    process_indicator (RT:=rt) (WD:=maize) "en" 2 start_state = (Ok (Some df), st')
    /\ calls st' = [data_call 2 "en"; dimensions_call 2 "en"]
    /\ In "indicator_id" (columns df)
    /\ ~ In "indicator_name" (columns df).
Proof.
  destruct (dimensions_failure_skips_metadata (RT:=rt) (WD:=maize) "en" 2 start_state
              _ _ _ _ _ 500 None _
              eq_refl eq_refl eq_refl eq_refl eq_refl eq_refl
              ltac:(intro H; discriminate H))
    as [df [st' [Hrun [Hdf [_ [Hcalls [_ [Hid [_ [Hname _]]]]]]]]]].
  exists df, st'. split; [exact Hrun|]. split; [exact Hcalls|]. split; [exact Hid|].
  rewrite Hname. simpl. intros [H|[H|[]]]; discriminate H.
Defined.

(** C10 as stated fails when the fetched records have a field called
    [indicator_name]: the dimensions request fails, no metadata request
    goes out, and the frame has the column all the same. *)
Lemma raw_indicator_name_counterexample :
  exists df st',
    process_indicator (RT:=rt) (WD:=table_world named_records_api no_excel) "en" 7
      start_state
    = (Ok (Some df), st')
    /\ calls st' = [data_call 7 "en"; dimensions_call 7 "en"]
    /\ In "indicator_name" (columns df).
Proof.
  eexists _, _. split; [cbv; reflexivity|]. split; [reflexivity|]. simpl. auto.
Qed.


Lemma indicator_name_fallback_chain_witness :
  fetch_indicator_name (RT:=rt) (WD:=maize) "en" 1 start_state
  = (Ok (PyStr "Maize yield"),
     {| world := world start_state; calls := [metadata_call 1 "en"]; logs := [] |}).
Proof.
  destruct (indicator_name_fallback_chain (RT:=rt) (WD:=maize) "en" 1 start_state 200
              (Some maize_metadata) (world start_state) eq_refl) as [_ H].
  exact (H maize_metadata eq_refl eq_refl eq_refl).
Defined.

(** C7 as stated fails on a body whose first indicator entry has no name
    while [body.name] is there: the stated order gives "GDP", the code
    gives the synthetic name. *)
Lemma nameless_entry_counterexample :
  fst (fetch_indicator_name (RT:=rt) (WD:=table_world nameless_api no_excel) "en" 1
         start_state)
  = Ok (PyStr "Indicator 1")
  /\ name_as_stated (RT:=rt) 1 nameless_metadata = PyStr "GDP"
  /\ fst (fetch_indicator_name (RT:=rt) (WD:=table_world nameless_api no_excel) "en" 1
            start_state)
     <> Ok (name_as_stated (RT:=rt) 1 nameless_metadata).
Proof.
  split; [reflexivity|]. split; [reflexivity|]. intros H. discriminate H.
Qed.

Lemma maize_api_good :
  forall e id (w : disk),
    good_response e (fst (requests_get (World:=maize) e id "en" w)) = true.
Proof.
  intros e id w. simpl. unfold maize_api.
  destruct (id =? 1); [destruct e; reflexivity|].
  destruct (id =? 2); [destruct e; reflexivity|].
  destruct (id =? 4); destruct e; reflexivity.
Qed.

Lemma maize_names_plain :
  forall id (w : disk) m w',
    requests_get (World:=maize) MetadataEndpoint id "en" w = (Response 200 (Some m), w') ->
    plain_name (name_chain (RT:=rt) id m) = true.
Proof.
  intros id w m w' H. simpl in H. unfold maize_api in H.
  destruct (id =? 1); [injection H as <- _; reflexivity|].
  destruct (id =? 2); [discriminate|].
  destruct (id =? 4); discriminate.
Qed.

Lemma cepal_data_does_not_raise_witness :
  exists o st',
    cepal_data (RT:=rt) (WD:=maize) [1; 2; 3; 4] "en" (Some 2015) (Some 2020)
      (Some ["BRA"; "mex"; "ARG"]) true "out.csv" start_state
    = (Ok o, st').
Proof.
  apply (proj1 (cepal_data_does_not_raise (RT:=rt) (WD:=maize) [1; 2; 3; 4] "en"
                  (Some 2015) (Some 2020) (Some ["BRA"; "mex"; "ARG"]) true "out.csv"
                  start_state)).
  - exact maize_api_good.
  - exact maize_names_plain.
  - intros dfs st1 df1 st2 Hf Hy _.
    vm_compute in Hf. injection Hf as <- <-.
    vm_compute in Hy. injection Hy as <- _.
    reflexivity.
  - intros _ df w. reflexivity.
Defined.

(** C2 as stated fails on a data answer with status 200 whose body is
    not JSON: the decoding error reaches the caller. *)
Lemma garbled_body_counterexample :
  fst (cepal_data (RT:=rt) (WD:=table_world garbled_api no_excel) [1] "en" None None None
         false "out.csv" start_state)
  = Raise JSONDecodeError.
Proof. reflexivity. Qed.

Lemma enrichment_adds_label_columns_witness :
  exists df st',
    process_indicator (RT:=rt) (WD:=maize) "en" 1 start_state = (Ok (Some df), st')
    /\ List.length (rows df) = 3%nat
    /\ In "dim_1" (columns df)
    /\ In "Area" (columns df).
Proof.
  destruct (enrichment_adds_label_columns (RT:=rt) (WD:=maize) "en" 1 start_state
              _ _ _ _ _ _ _ _ _ _ _
              eq_refl eq_refl eq_refl eq_refl eq_refl eq_refl eq_refl eq_refl eq_refl)
    as [df [Hrun [Hlen Hlab]]].
  destruct (Hlab "dim_1" _ (or_introl eq_refl) eq_refl
              ltac:(intros dc [<-|[]]; discriminate)
              ltac:(intros dc [<-|[]] Hne; now elim Hne))
    as [_ [Hcode [Hlabel _]]].
  exists df. eexists. split; [exact Hrun|].
  split; [rewrite Hlen; reflexivity|]. split; [exact Hcode | exact Hlabel].
Defined.

(** C1.  The docstring of [cepal_data] promises that the original
    [dim_*] columns are preserved next to the new label columns, and the
    code does not keep the promise when display names collide.  On one
    record with the codes 10, 20 and 30, with [dim_1] and [dim_2] both
    displayed as "Area" and [dim_3] displayed as "dim_2": the frame built
    from the record has the code 20 in [dim_2]; in the frame that the
    turn appends the coded column [dim_2] holds "Monthly", the label of
    [dim_3], and the label column "Area" holds "Maize", the member of
    [dim_2], not "North", the member of [dim_1]. *)
Theorem display_name_overwrites_coded_column :
  exists df0 nm mms df st',
    DataFrame_of (RT:=rt) collision_records = Ok df0
    /\ dimension_table (RT:=rt) collision_dimensions = Ok (nm, mms)
    /\ process_indicator (RT:=rt) (WD:=table_world collision_api no_excel) "en" 4470
         start_state
       = (Ok (Some df), st')
    /\ map (fun r => cell r "dim_2") (rows df0) = [PyInt 20]
    /\ map (fun r => cell r "dim_2") (rows df) = [PyStr "Monthly"]
    /\ map (fun r => cell r "Area") (rows df) = [PyStr "Maize"]
    /\ ~ labels_as_stated (RT:=rt) nm mms df0 df.
Proof.
  eexists _, _, _, _, _.
  split; [cbv; reflexivity|]. split; [cbv; reflexivity|]. split; [cbv; reflexivity|].
  split; [reflexivity|]. split; [reflexivity|]. split; [reflexivity|].
  intros H. destruct (H "dim_1" _ (or_introl eq_refl) eq_refl) as [_ [_ Hl]].
  unfold labelled in Hl. inversion Hl as [|r0 r l0 l [_ Hcell] _]; subst.
  vm_compute in Hcell. discriminate Hcell.
Qed.

(** ** Corners of pandas on the example runtime *)

(** A null code makes pandas read the whole column as floats: the code
    10 is formatted "10.0", which the member map does not have, and the
    label is null in both rows. *)
Example null_code_upcasts_the_column :
  exists df st',
    process_indicator (RT:=rt) (WD:=table_world null_code_api no_excel) "en" 1 start_state
    = (Ok (Some df), st')
    /\ column_values "dim_1" df = [PyFloat (inject_Z 10); PyNaN]
    /\ column_values "Area" df = [PyNaN; PyNaN].
Proof.
  eexists _, _. split; [cbv; reflexivity|]. split; reflexivity.
Qed.

(** An indicator name that is a list of one string cannot be assigned
    to a frame of two rows. *)
Example listed_name_raises :
  fst (cepal_data (RT:=rt) (WD:=table_world listed_name_api no_excel) [1] "en" None None
         None false "out.csv" start_state)
  = Raise ValueError.
Proof. reflexivity. Qed.

(** A [body.data] that is an object with an empty list is truthy and
    gives a frame without rows: the call returns an empty table. *)
Example empty_column_gives_empty_table :
  exists df st',
    cepal_data (RT:=rt) (WD:=table_world empty_column_api no_excel) [1] "en" None None
      None false "out.csv" start_state
    = (Ok (Some df), st')
    /\ rows df = []
    /\ columns df = ["a"; "indicator_id"].
Proof.
  eexists _, _. split; [cbv; reflexivity|]. split; reflexivity.
Qed.

End Examples.

(** * Further properties of the pipeline *)

(** ** Requests and failures of the loop *)

Section LoopDiscipline.

Context {RT : Runtime} {W : Type} {WD : World W}.

Lemma process_indicator_calls :
  forall lang id (st st' : state W) r,
    process_indicator lang id st = (r, st') ->
    exists l,
      calls st' = calls st ++ l
      /\ turn_calls id lang l
      /\ exists lg, logs st' = logs st ++ lg.
Proof.
  intros lang id st st' r. unfold turn_calls, data_call, dimensions_call, metadata_call.
  run.
  destruct (requests_get DataEndpoint id lang (world st)) as [[|s body] w1]; simpl.
  { intros [= <- <-]. simpl. eauto 10. }
  destruct (s =? 200); simpl.
  2:{ intros [= <- <-]. simpl. rewrite <- app_assoc. eauto 10. }
  destruct (json body) as [data|]; simpl; [|intros [= <- <-]; simpl; eauto 10].
  destruct (getitem data "body") as [b|]; simpl; [|intros [= <- <-]; simpl; eauto 10].
  destruct (getitem b "data") as [d|]; simpl; [|intros [= <- <-]; simpl; eauto 10].
  destruct (truthy d); simpl.
  2:{ intros [= <- <-]. simpl. rewrite <- app_assoc. eauto 10. }
  destruct (DataFrame_of d) as [df0|]; simpl; [|intros [= <- <-]; simpl; eauto 10].
  destruct (requests_get DimensionsEndpoint id lang w1) as [[|s2 body2] w2]; simpl.
  { intros [= <- <-]. simpl. rewrite <- app_assoc. simpl. eauto 10. }
  destruct (s2 =? 200); simpl.
  2:{ intros [= <- <-]. simpl. rewrite <- !app_assoc. simpl. eauto 10. }
  destruct (json body2) as [dd|]; simpl;
    [|intros [= <- <-]; simpl; rewrite <- app_assoc; simpl; eauto 10].
  destruct (dimension_table dd) as [[nm mms]|]; simpl;
    [|intros [= <- <-]; simpl; rewrite <- app_assoc; simpl; eauto 10].
  destruct (requests_get MetadataEndpoint id lang w2) as [[|s3 body3] w3]; simpl.
  { intros [= <- <-]. simpl. rewrite <- !app_assoc. simpl. eauto 10. }
  destruct (s3 =? 200); simpl.
  - destruct (json body3) as [m|]; simpl;
      [|intros [= <- <-]; simpl; rewrite <- !app_assoc; simpl; eauto 10].
    destruct (resolve_indicator_name id m) as [name|]; simpl;
      [|intros [= <- <-]; simpl; rewrite <- !app_assoc; simpl; eauto 10].
    destruct (setitem_value "indicator_name" name _) as [df1|]; simpl;
      intros [= <- <-]; simpl; rewrite <- !app_assoc; simpl; eauto 10.
  - intros [= <- <-]. simpl. rewrite <- !app_assoc. simpl. eauto 10.
Qed.

Lemma turn_calls_loop_call :
  forall ids lang id l,
    In id ids -> turn_calls id lang l ->
    Forall (loop_call ids lang) l /\ (List.length l <= 3)%nat.
Proof.
  intros ids lang id l Hin [-> | [-> | ->]]; split; simpl; try lia;
    repeat constructor; simpl; auto; discriminate.
Qed.

Lemma fetch_all_calls :
  forall lang ids dfs0 (st st' : state W) r,
    fetch_all lang ids dfs0 st = (r, st') ->
    exists l,
      calls st' = calls st ++ l
      /\ Forall (loop_call ids lang) l
      /\ (List.length l <= 3 * List.length ids)%nat.
Proof.
  intros lang ids. induction ids as [|id ids IH]; intros dfs0 st st' r H; simpl in H.
  - unfold ret in H. injection H as _ <-. exists []. rewrite app_nil_r. auto.
  - unfold bind in H.
    destruct (process_indicator lang id st) as [[o|e] st1] eqn:Hp.
    + apply process_indicator_calls in Hp. destruct Hp as [l1 [Hc1 [Ht1 _]]].
      apply IH in H. destruct H as [l2 [Hc2 [Hf2 Hlen2]]].
      destruct (turn_calls_loop_call (id :: ids) lang id l1 (or_introl eq_refl) Ht1)
        as [Hf1 Hlen1].
      exists (l1 ++ l2). split; [rewrite Hc2, Hc1; now rewrite app_assoc|].
      split.
      * apply Forall_app. split; [exact Hf1|].
        eapply Forall_impl; [|exact Hf2].
        intros c [Hi [Hl He]]. split; [now right | auto].
      * rewrite length_app. simpl. lia.
    + injection H as _ <-.
      apply process_indicator_calls in Hp. destruct Hp as [l1 [Hc1 [Ht1 _]]].
      destruct (turn_calls_loop_call (id :: ids) lang id l1 (or_introl eq_refl) Ht1)
        as [Hf1 Hlen1].
      exists l1. split; [exact Hc1|]. split; [exact Hf1|]. simpl. lia.
Qed.

Lemma filter_by_year_only_logs :
  forall start_year end_year df (st : state W),
    exists df' st',
      filter_by_year start_year end_year df st = (Ok df', st') /\ only_logs st st'.
Proof.
  intros sy ey df st. unfold filter_by_year, only_logs.
  destruct (year_bound_given sy ey).
  - destruct (find_year_column (columns df)) as [yc|].
    + destruct (negb (String.eqb yc "")); unfold bind, logger, ret, add_logs;
        eexists _, _; (split; [reflexivity|]); simpl; eauto.
    + unfold bind, logger, ret, add_logs.
      eexists _, _; (split; [reflexivity|]); simpl; eauto.
  - unfold ret. exists df, st. repeat split. exists []. now rewrite app_nil_r.
Qed.

Lemma filter_by_country_only_logs :
  forall countries df (st st' : state W) r,
    filter_by_country countries df st = (r, st') -> only_logs st st'.
Proof.
  intros cs df st st' r H.
  assert (Hid : only_logs st st).
  { repeat split. exists []. now rewrite app_nil_r. }
  destruct cs as [[|c0 cs]|]; try (injection H as _ <-; exact Hid).
  destruct (mem "iso3" (columns df)) eqn:Hiso.
  - destruct (iso3_accepted df) eqn:Hacc.
    + rewrite (filter_by_country_run c0 cs df st Hiso Hacc) in H. cbv zeta in H.
      injection H as _ <-. unfold only_logs, add_logs. simpl. eauto.
    + rewrite (filter_by_country_refused c0 cs df st Hiso Hacc) in H.
      injection H as _ <-. exact Hid.
  - unfold filter_by_country in H. rewrite Hiso in H.
    unfold bind, logger, ret, add_logs in H. injection H as _ <-.
    unfold only_logs. simpl. eauto.
Qed.

(** X2.  Whatever the answers and however the call ends, [cepal_data]
    sends at most three requests per requested indicator, each to the
    data, dimensions or metadata endpoint of one of the requested
    indicators in the requested language, and never to the spreadsheet
    endpoint of [load_dimension_data]. *)
Theorem cepal_data_requests :
  forall ids lang start_year end_year countries save_csv csv_filename
         (st st' : state W) r,
    cepal_data ids lang start_year end_year countries save_csv csv_filename st = (r, st') ->
    exists l,
      calls st' = calls st ++ l
      /\ Forall (loop_call ids lang) l
      /\ (List.length l <= 3 * List.length ids)%nat.
Proof.
  intros ids lang sy ey cs save csv st st' r H.
  unfold cepal_data, bind at 1 in H.
  destruct (fetch_all lang ids [] st) as [[dfs|e] st1] eqn:Hf.
  - apply fetch_all_calls in Hf. destruct Hf as [l [Hc [Hall Hlen]]].
    exists l. split; [|auto].
    rewrite <- Hc. destruct dfs as [|df dfs].
    + unfold bind, logger, ret in H. injection H as _ <-. reflexivity.
    + unfold bind at 1 in H.
      destruct (filter_by_year_only_logs sy ey (concat (df :: dfs)) st1)
        as [df1 [st2 [Hy [_ [Hc2 _]]]]].
      rewrite Hy in H. unfold bind at 1 in H.
      destruct (filter_by_country cs df1 st2) as [[df2|e] st3] eqn:Hk;
        destruct (filter_by_country_only_logs _ _ _ _ _ Hk) as [_ [Hc3 _]];
        rewrite <- Hc2, <- Hc3.
      * destruct save; unfold bind, logger, ret, on_world, add_logs in H; simpl in H.
        -- destruct (to_csv csv df2 (world st3)) as [[[]|e] w4]; simpl in H;
             injection H as _ <-; reflexivity.
        -- injection H as _ <-. reflexivity.
      * injection H as _ <-. reflexivity.
  - injection H as _ <-. now apply fetch_all_calls in Hf.
Qed.

(** X1.  An exception in the turn of one indicator ends the whole call
    with that exception: the frames of the indicators before it are not
    returned, the indicators after it are never requested, nothing more is
    logged and no file is written, the state being the one the turn
    left. *)
Theorem cepal_data_aborts_on_first_exception :
  forall pre id post lang start_year end_year countries save_csv csv_filename
         (st st1 st2 : state W) dfs e,
    fetch_all lang pre [] st = (Ok dfs, st1) ->
    process_indicator lang id st1 = (Raise e, st2) ->
    cepal_data (pre ++ id :: post) lang start_year end_year countries save_csv
      csv_filename st
    = (Raise e, st2).
Proof.
  intros pre id post lang sy ey cs save csv st st1 st2 dfs e Hpre Hp.
  unfold cepal_data, bind at 1. rewrite fetch_all_app.
  unfold bind at 1. rewrite Hpre. simpl. unfold bind at 1. rewrite Hp. reflexivity.
Qed.

End LoopDiscipline.

(** ** The shape of the result *)

Section ResultShape.

Context {RT : Runtime} {W : Type} {WD : World W}.

Lemma NoDup_concat_columns : forall dfs, NoDup (columns (concat dfs)).
Proof.
  intros dfs. simpl. unfold concat_columns.
  assert (H : forall acc, NoDup acc ->
                NoDup (fold_left (fun acc df => union_columns acc (columns df)) dfs acc)).
  { induction dfs as [|df dfs IH]; intros acc Hacc; simpl; auto.
    apply IH. now apply NoDup_union_columns. }
  apply H. constructor.
Qed.

Lemma well_formed_concat : forall dfs, well_formed (concat dfs).
Proof.
  intros dfs. unfold well_formed. apply Forall_forall. intros r Hr.
  simpl in Hr. apply in_flat_map in Hr. destruct Hr as [df [_ Hr]].
  apply in_map_iff in Hr. destruct Hr as [r0 [<- _]]. apply keys_reindex.
Qed.

Lemma well_formed_filter_rows :
  forall p df, well_formed df -> well_formed (filter_rows p df).
Proof.
  intros p df H. unfold well_formed in *. simpl. rewrite Forall_forall in *.
  intros r Hr. apply filter_In in Hr. now apply H.
Qed.

Lemma length_filter_le :
  forall (A : Type) (p : A -> bool) (l : list A),
    (List.length (filter p l) <= List.length l)%nat.
Proof.
  intros A p l. induction l as [|x l IH]; simpl; [lia|].
  destruct (p x); simpl; lia.
Qed.

Lemma find_year_column_In :
  forall cols c, find_year_column cols = Some c -> In c cols.
Proof.
  intros cols c. unfold find_year_column.
  destruct (mem "Años__ESTANDAR" cols) eqn:E1; [intros [= <-]; now apply mem_In|].
  destruct (mem "Years__ESTANDAR" cols) eqn:E2; [intros [= <-]; now apply mem_In|].
  destruct (find (fun col => mem col cols) potential_year_columns) eqn:E.
  - intros [= <-]. apply find_some in E. destruct E as [_ E]. now apply mem_In.
  - intros H. apply find_some in H. tauto.
Qed.

(** X5.  The year column that the search selects is never empty and is
    always one of the columns it was given, so the filter never creates a
    column. *)
Theorem year_column_is_a_column :
  forall cols c, find_year_column cols = Some c -> In c cols /\ c <> "".
Proof.
  intros cols c H. split.
  - now apply find_year_column_In.
  - now apply (find_year_column_nonempty cols).
Qed.

Lemma apply_year_bounds_shape :
  forall yc start_year end_year df,
    In yc (columns df) ->
    columns (apply_year_bounds yc start_year end_year df) = columns df
    /\ (well_formed df -> well_formed (apply_year_bounds yc start_year end_year df))
    /\ (List.length (rows (apply_year_bounds yc start_year end_year df))
        <= List.length (rows df))%nat.
Proof.
  intros yc sy ey df Hin. unfold apply_year_bounds.
  set (df1 := assign yc (fun r => numeric_cell (cell r yc)) df).
  assert (Hc1 : columns df1 = columns df) by (simpl; now apply add_column_present).
  assert (Hl1 : List.length (rows df1) = List.length (rows df)) by (simpl; apply length_map).
  assert (Hw1 : well_formed df -> well_formed df1) by apply well_formed_assign.
  destruct sy as [s|], ey as [e|]; simpl; rewrite ?Hc1; repeat split; auto;
    try (intros Hw; repeat apply well_formed_filter_rows; auto);
    try (rewrite <- Hl1; simpl;
         repeat (eapply Nat.le_trans; [apply length_filter_le|]); fold (rows df1); lia).
Qed.

Lemma filter_by_year_shape :
  forall start_year end_year df (st st' : state W) df',
    filter_by_year start_year end_year df st = (Ok df', st') ->
    columns df' = columns df
    /\ (well_formed df -> well_formed df')
    /\ (List.length (rows df') <= List.length (rows df))%nat.
Proof.
  intros sy ey df st st' df'. unfold filter_by_year.
  destruct (year_bound_given sy ey); [|unfold ret; intros [= <- _]; auto].
  destruct (find_year_column (columns df)) as [yc|] eqn:E;
    [|unfold bind, logger, ret; intros [= <- _]; auto].
  destruct (negb (String.eqb yc "")); unfold bind, logger, ret; intros [= <- _]; auto.
  apply apply_year_bounds_shape. now apply find_year_column_In.
Qed.

Lemma filter_by_country_shape :
  forall countries df (st st' : state W) df',
    filter_by_country countries df st = (Ok df', st') ->
    columns df' = columns df
    /\ (well_formed df -> well_formed df')
    /\ (List.length (rows df') <= List.length (rows df))%nat.
Proof.
  intros cs df st st' df' H.
  destruct cs as [[|c0 cs]|]; try (injection H as <- _; auto; fail).
  destruct (mem "iso3" (columns df)) eqn:E.
  - destruct (iso3_accepted df) eqn:Hacc.
    + rewrite (filter_by_country_run c0 cs df st E Hacc) in H. cbv zeta in H.
      injection H as <- _. apply mem_In in E. unfold iso3_assigned.
      destruct (is_object_dtype (column_values "iso3" df)); simpl;
        (split; [now apply add_column_present|]);
        (split; [intros Hw; apply well_formed_filter_rows; now apply well_formed_assign|]);
        (eapply Nat.le_trans; [apply length_filter_le | rewrite length_map; lia]).
    + rewrite (filter_by_country_refused c0 cs df st E Hacc) in H. discriminate.
  - unfold filter_by_country in H. rewrite E in H.
    unfold bind, logger, ret in H. injection H as <- _. auto.
Qed.

(** The frames of a turn: at least one row, no duplicate column, and
    the [indicator_id] column. *)
Lemma NoDup_columns_DataFrame_of :
  forall d df, DataFrame_of d = Ok df -> NoDup (columns df).
Proof.
  intros d df H. unfold DataFrame_of in H.
  destruct d; try (now apply other_frame_shape in H).
  destruct (forallb is_record l); [|now apply other_frame_shape in H].
  injection H as <-. simpl.
  assert (Hacc : forall acc, NoDup acc ->
            NoDup (fold_left (fun acc v => union_columns acc (map fst (record_fields v)))
                     l acc)).
  { induction l as [|v l IH]; intros acc Hacc; simpl; auto.
    apply IH. now apply NoDup_union_columns. }
  apply Hacc. constructor.
Qed.

Lemma NoDup_columns_enrich :
  forall nm mms df, NoDup (columns df) -> NoDup (columns (enrich nm mms df)).
Proof.
  intros nm mms. unfold enrich.
  induction mms as [|[dc mm] mms IH]; intros df H; simpl; auto.
  apply IH. destruct (mem dc (columns df)); auto. simpl. now apply NoDup_add_column.
Qed.

Lemma columns_enrich_grow :
  forall nm mms df c, In c (columns df) -> In c (columns (enrich nm mms df)).
Proof.
  intros nm mms df c H.
  destruct (enrich_rows_columns nm mms df) as [_ Hc]. rewrite Hc.
  now apply enrich_columns_grow.
Qed.

Lemma process_indicator_frame_columns :
  forall lang id (st st' : state W) df,
    process_indicator lang id st = (Ok (Some df), st') ->
    NoDup (columns df) /\ In "indicator_id" (columns df).
Proof.
  intros lang id st st' df H. apply process_indicator_frame in H.
  destruct H as [d [df0 [Hdf [->|[nm [mms [name [df1 [Hset ->]]]]]]]]];
    apply NoDup_columns_DataFrame_of in Hdf.
  - split; [simpl; now apply NoDup_add_column | simpl; apply In_add_column; now right].
  - apply columns_setitem_value in Hset. split.
    + apply NoDup_columns_enrich. rewrite Hset. simpl. now do 2 apply NoDup_add_column.
    + apply columns_enrich_grow. rewrite Hset. simpl. apply In_add_column. left.
      apply In_add_column. now right.
Qed.

Lemma fetch_all_frames :
  forall (P : DataFrame -> Prop) lang,
    (forall id (st st' : state W) df,
        process_indicator lang id st = (Ok (Some df), st') -> P df) ->
    forall ids dfs0 (st st' : state W) dfs,
      Forall P dfs0 ->
      fetch_all lang ids dfs0 st = (Ok dfs, st') ->
      Forall P dfs.
Proof.
  intros P lang HP ids. induction ids as [|id ids IH]; intros dfs0 st st' dfs H0 H;
    simpl in H.
  - unfold ret in H. now injection H as <- _.
  - unfold bind in H.
    destruct (process_indicator lang id st) as [[o|e] st1] eqn:E; [|discriminate].
    apply IH in H; [exact H|].
    destruct o as [df|]; [|exact H0].
    apply Forall_app. split; [exact H0|]. constructor; [|constructor]. eauto.
Qed.

Lemma cepal_data_stages :
  forall ids lang start_year end_year countries save_csv csv_filename
         (st st' : state W) o,
    cepal_data ids lang start_year end_year countries save_csv csv_filename st
    = (Ok o, st') ->
    exists dfs st1,
      fetch_all lang ids [] st = (Ok dfs, st1)
      /\ (dfs = [] -> o = None)
      /\ (dfs <> [] ->
          exists df1 st2 df2 st3,
            filter_by_year start_year end_year (concat dfs) st1 = (Ok df1, st2)
            /\ filter_by_country countries df1 st2 = (Ok df2, st3)
            /\ o = Some df2).
Proof.
  intros ids lang sy ey cs save csv st st' o H.
  unfold cepal_data, bind at 1 in H.
  destruct (fetch_all lang ids [] st) as [[dfs|e] st1] eqn:Hf; [|discriminate].
  exists dfs, st1. split; [reflexivity|].
  destruct dfs as [|df dfs].
  - split; [|congruence]. intros _. unfold bind, logger, ret in H. now injection H as <- _.
  - split; [discriminate|]. intros _. unfold bind at 1 in H.
    destruct (filter_by_year sy ey (concat (df :: dfs)) st1) as [[df1|e] st2] eqn:Hy;
      [|discriminate].
    unfold bind at 1 in H.
    destruct (filter_by_country cs df1 st2) as [[df2|e] st3] eqn:Hk; [|discriminate].
    exists df1, st2, df2, st3.
    split; [first [exact Hy | reflexivity]|]. split; [first [exact Hk | reflexivity]|].
    destruct save; unfold bind, logger, ret, on_world, add_logs in H; simpl in H.
    + destruct (to_csv csv df2 (world st3)) as [[[]|e] w4]; simpl in H; [|discriminate].
      now injection H as <- _.
    + now injection H as <- _.
Qed.

(** X3.  A frame returned by [cepal_data] is rectangular and has the
    identifier column: every row has one cell for each column of the
    frame, in column order, no column name occurs twice, and
    [indicator_id] is among the columns. *)
Theorem cepal_data_result_is_rectangular :
  forall ids lang start_year end_year countries save_csv csv_filename
         (st st' : state W) df,
    cepal_data ids lang start_year end_year countries save_csv csv_filename st
    = (Ok (Some df), st') ->
    well_formed df /\ NoDup (columns df) /\ In "indicator_id" (columns df).
Proof.
  intros ids lang sy ey cs save csv st st' df H.
  apply cepal_data_stages in H. destruct H as [dfs [st1 [Hf [Hnil Hcons]]]].
  destruct dfs as [|df0 dfs]; [specialize (Hnil eq_refl); discriminate|].
  destruct Hcons as [df1 [st2 [df2 [st3 [Hy [Hk [= <-]]]]]]]; [discriminate|].
  apply filter_by_year_shape in Hy. destruct Hy as [Hc1 [Hw1 _]].
  apply filter_by_country_shape in Hk. destruct Hk as [Hc2 [Hw2 _]].
  split; [apply Hw2, Hw1, well_formed_concat|].
  rewrite Hc2, Hc1. split; [apply NoDup_concat_columns|].
  apply In_concat_columns. exists df0. split; [now left|].
  apply (fetch_all_frames (fun df => In "indicator_id" (columns df)) lang) in Hf;
    [now inversion Hf | | constructor].
  intros id s s' d Hp. now apply process_indicator_frame_columns in Hp.
Qed.

(** X4.  The result is [None] exactly when the loop appended no frame.
    Otherwise it is a frame with the columns of the concatenation, whatever
    the filters removed: the filters never add, drop or rename a column and
    never add a row, and a frame with no row left is still returned as a
    frame. *)
Theorem filters_keep_columns_and_add_no_row :
  forall ids lang start_year end_year countries save_csv csv_filename
         (st st1 st' : state W) dfs o,
    fetch_all lang ids [] st = (Ok dfs, st1) ->
    cepal_data ids lang start_year end_year countries save_csv csv_filename st
    = (Ok o, st') ->
    (o = None <-> dfs = [])
    /\ (forall df, o = Some df ->
          columns df = columns (concat dfs)
          /\ (List.length (rows df)
              <= list_sum (map (fun df => List.length (rows df)) dfs))%nat).
Proof.
  intros ids lang sy ey cs save csv st st1 st' dfs o Hf H.
  apply cepal_data_stages in H. destruct H as [dfs' [st1' [Hf' [Hnil Hcons]]]].
  rewrite Hf in Hf'. injection Hf' as <- <-.
  destruct dfs as [|df0 dfs].
  - rewrite (Hnil eq_refl). split; [tauto | discriminate].
  - destruct Hcons as [df1 [st2 [df2 [st3 [Hy [Hk ->]]]]]]; [discriminate|].
    split; [split; discriminate|].
    intros df [= <-].
    apply filter_by_year_shape in Hy. destruct Hy as [Hc1 [_ Hl1]].
    apply filter_by_country_shape in Hk. destruct Hk as [Hc2 [_ Hl2]].
    split; [now rewrite Hc2, Hc1|].
    rewrite <- length_rows_concat. lia.
Qed.

End ResultShape.

(** ** Rows of the result and the CSV file *)

Section RowsAndExport.

Context {RT : Runtime} {W : Type} {WD : World W}.

Lemma good_data_records :
  forall data b d,
    good_data data = true ->
    getitem data "body" = Ok b ->
    getitem b "data" = Ok d ->
    truthy d = true ->
    exists l, d = PyList l /\ l <> [] /\ forallb is_record l = true.
Proof.
  intros data b d Hg Hb Hd Ht. unfold good_data in Hg.
  destruct data as [| | | | | | |dd]; try discriminate. simpl in Hb, Hg.
  destruct (dict_get "body" dd) as [b'|]; [|discriminate]. injection Hb as ->.
  destruct b as [| | | | | | |bd]; try discriminate. simpl in Hd, Hg.
  destruct (dict_get "data" bd) as [d'|]; [|discriminate]. injection Hd as ->.
  rewrite Ht in Hg. simpl in Hg.
  destruct d as [| | | | | |l|]; try discriminate.
  exists l. split; [reflexivity|]. split; [|exact Hg].
  intros ->. discriminate.
Qed.

Lemma DataFrame_of_records :
  forall l df,
    forallb is_record l = true ->
    DataFrame_of (PyList l) = Ok df ->
    List.length (rows df) = List.length l.
Proof.
  intros l df Hl H. unfold DataFrame_of in H. rewrite Hl in H. injection H as <-.
  unfold infer_columns. rewrite length_rows_infer_columns_with. simpl. apply length_map.
Qed.

Lemma process_indicator_records :
  forall lang id (st st' : state W) df,
    good_response DataEndpoint (fst (requests_get DataEndpoint id lang (world st))) = true ->
    process_indicator lang id st = (Ok (Some df), st') ->
    rows df <> [].
Proof.
  intros lang id st st' df Hg H.
  assert (Hl : exists l : list pyval, l <> [] /\ List.length (rows df) = List.length l).
  { revert H. run.
    destruct (requests_get DataEndpoint id lang (world st)) as [[|s body] w1]; simpl in *;
      [discriminate|].
    destruct (s =? 200); simpl in *; [|discriminate].
    destruct body as [data|]; simpl; [|discriminate].
    destruct (getitem data "body") as [b|] eqn:Hb; simpl; [|discriminate].
    destruct (getitem b "data") as [d|] eqn:Hd; simpl; [|discriminate].
    destruct (truthy d) eqn:Ht; simpl; [|discriminate].
    destruct (good_data_records data b d Hg Hb Hd Ht) as [l [-> [Hne Hrec]]].
    destruct (DataFrame_of (PyList l)) as [df0|] eqn:Hdf; simpl; [|discriminate].
    pose proof (DataFrame_of_records l df0 Hrec Hdf) as Hlen.
    destruct (requests_get DimensionsEndpoint id lang w1) as [[|s2 body2] w2]; simpl;
      [discriminate|].
    destruct (s2 =? 200); simpl.
    - destruct (json body2) as [dd|]; simpl; [|discriminate].
      destruct (dimension_table dd) as [[nm mms]|]; simpl; [|discriminate].
      destruct (requests_get MetadataEndpoint id lang w2) as [[|s3 body3] w3]; simpl;
        [discriminate|].
      destruct (s3 =? 200); simpl.
      + destruct (json body3) as [m|]; simpl; [|discriminate].
        destruct (resolve_indicator_name id m) as [name|]; simpl; [|discriminate].
        destruct (setitem_value "indicator_name" name _) as [df1|] eqn:Hset; simpl;
          [|discriminate].
        intros [= <- _]. exists l. split; [exact Hne|].
        rewrite length_rows_enrich, (length_rows_setitem_value _ _ _ _ Hset).
        simpl. now rewrite length_map.
      + intros [= <- _]. exists l. split; [exact Hne|].
        rewrite length_rows_enrich. simpl. now rewrite !length_map.
    - intros [= <- _]. exists l. split; [exact Hne|]. simpl. now rewrite length_map. }
  destruct Hl as [l [Hne Hlen]]. intros Hr. rewrite Hr in Hlen.
  destruct l; [congruence | discriminate].
Qed.

Lemma filter_by_country_off :
  forall countries df (st : state W),
    countries = None \/ countries = Some [] ->
    filter_by_country countries df st = (Ok df, st).
Proof. intros cs df st [->| ->]; reflexivity. Qed.

(** X6.  When every data answer with status 200 has a [body.data] that
    is empty or a list of records, without year bounds and with no
    country asked for ([None] or the empty list), a frame that
    [cepal_data] returns, with or without the CSV file, is the
    concatenation of the frames of the loop as it is, and it is never an
    empty table: every frame of the loop has one row for each record of
    its non-empty [body.data]. *)
Theorem unfiltered_result_is_not_empty :
  forall ids lang countries save_csv csv_filename (st st' : state W) df,
    (forall id w,
        good_response DataEndpoint (fst (requests_get DataEndpoint id lang w)) = true) ->
    countries = None \/ countries = Some [] ->
    cepal_data ids lang None None countries save_csv csv_filename st
    = (Ok (Some df), st') ->
    rows df <> []
    /\ exists dfs st1,
         fetch_all lang ids [] st = (Ok dfs, st1)
         /\ df = concat dfs
         /\ Forall (fun df0 => rows df0 <> []) dfs.
Proof.
  intros ids lang cs save csv st st' df Hgood Hcs H.
  apply cepal_data_stages in H. destruct H as [dfs [st1 [Hf [Hnil Hcons]]]].
  destruct dfs as [|df0 dfs]; [specialize (Hnil eq_refl); discriminate|].
  destruct Hcons as [df1 [st2 [df2 [st3 [Hy [Hk [= <-]]]]]]]; [discriminate|].
  unfold filter_by_year in Hy. simpl in Hy. unfold ret in Hy. injection Hy as <- <-.
  rewrite (filter_by_country_off cs _ _ Hcs) in Hk. injection Hk as <- <-.
  assert (Hrows : Forall (fun d => rows d <> []) (df0 :: dfs)).
  { apply (fetch_all_frames (fun d => rows d <> []) lang) in Hf; [exact Hf | | constructor].
    intros id s s' d Hp. eapply process_indicator_records; eauto. }
  split.
  - intros Hr. apply (f_equal (@List.length row)) in Hr.
    rewrite length_rows_concat in Hr. inversion Hrows as [|? ? H0 _]; subst.
    simpl in Hr. destruct (rows df0); [congruence | simpl in Hr; lia].
  - exists (df0 :: dfs), st1. auto.
Qed.


End RowsAndExport.

(** ** The dimension resolver and its cache *)

Section CacheBehaviour.

Context {RT : Runtime} {W : Type} {WD : World W}.

Ltac run_load :=
  unfold load_dimension_data, try_except, bind, on_world, logger, ret, add_logs; simpl.

(** X10.  With caching on and no cache file, a download that succeeded
    is thrown away when the cache cannot be written: whether creating the
    directory or writing the file fails, the error is logged and the
    result is [None]. *)
Theorem cache_write_failure_discards_download :
  forall indicator_id lang (st : state W) dim w1,
    cache_exists indicator_id (world st) = false ->
    read_excel indicator_id lang (world st) = (Ok dim, w1) ->
    (forall e w2,
        mkdir w1 = (Raise e, w2) ->
        load_dimension_data indicator_id lang true st
        = (Ok None,
           {| world := w2; calls := calls st ++ [excel_call indicator_id lang];
              logs := logs st ++ [(ERROR, FailedDimensions indicator_id e)] |}))
    /\ (forall w2 e w3,
          mkdir w1 = (Ok tt, w2) ->
          to_pickle indicator_id dim w2 = (Raise e, w3) ->
          load_dimension_data indicator_id lang true st
          = (Ok None,
             {| world := w3; calls := calls st ++ [excel_call indicator_id lang];
                logs := logs st ++ [(ERROR, FailedDimensions indicator_id e)] |})).
Proof.
  intros id lang st dim w1 Hno Hread. split.
  - intros e w2 Hmk. run_load. rewrite Hno, Hread. simpl. rewrite Hmk. reflexivity.
  - intros w2 e w3 Hmk Hpk. run_load. rewrite Hno, Hread. simpl. rewrite Hmk. simpl.
    rewrite Hpk. reflexivity.
Qed.

(** X11.  With caching on, a cache file that is there but cannot be read
    raises to the caller: the read is outside the [try], nothing is
    logged, and the endpoint is not tried instead. *)
Theorem unreadable_cache_raises :
  forall indicator_id lang (st : state W) e w1,
    cache_exists indicator_id (world st) = true ->
    read_pickle indicator_id (world st) = (Raise e, w1) ->
    load_dimension_data indicator_id lang true st
    = (Raise e, {| world := w1; calls := calls st; logs := logs st |}).
Proof.
  intros id lang st e w1 Hex Hread. run_load. rewrite Hex, Hread. reflexivity.
Qed.

(** X12.  On a disk that keeps what is written to it, a first call with
    caching on downloads the table and a second call returns the same
    table from the cache: the two calls together send one request. *)
Theorem second_call_is_served_from_cache :
  forall indicator_id lang (st : state W) dim w1 w2 w3 w4,
    cache_exists indicator_id (world st) = false ->
    read_excel indicator_id lang (world st) = (Ok dim, w1) ->
    mkdir w1 = (Ok tt, w2) ->
    to_pickle indicator_id dim w2 = (Ok tt, w3) ->
    cache_exists indicator_id w3 = true ->
    read_pickle indicator_id w3 = (Ok dim, w4) ->
    (first <- load_dimension_data indicator_id lang true ;;
     second <- load_dimension_data indicator_id lang true ;;
     ret (first, second)) st
    = (Ok (Some dim, Some dim),
       {| world := w4; calls := calls st ++ [excel_call indicator_id lang];
          logs := logs st ++ [(INFO, LoadedDimensions indicator_id);
                              (INFO, LoadedCachedDimensions indicator_id)] |}).
Proof.
  intros id lang st dim w1 w2 w3 w4 Hno Hread Hmk Hpk Hex Hrp.
  run_load. rewrite Hno, Hread. simpl. rewrite Hmk. simpl. rewrite Hpk. simpl.
  rewrite Hex, Hrp. simpl. now rewrite <- app_assoc.
Qed.

(** X9.  A metadata answer with status 200 whose [body] is null, a
    number or a boolean raises [TypeError]: the membership test on the
    body is not guarded, so this drift of the schema is not absorbed by
    the fallbacks. *)
Theorem scalar_metadata_body_raises :
  forall lang id (st : state W) d b w1,
    requests_get MetadataEndpoint id lang (world st)
    = (Response 200 (Some (PyDict d)), w1) ->
    dict_get "body" d = Some b ->
    is_scalar b = true ->
    resolve_indicator_name id (PyDict d) = Raise TypeError
    /\ fetch_indicator_name lang id st
       = (Raise TypeError,
          {| world := w1; calls := calls st ++ [metadata_call id lang]; logs := logs st |}).
Proof.
  intros lang id st d b w1 Hget Hb Hs.
  assert (Hr : resolve_indicator_name id (PyDict d) = Raise TypeError).
  { unfold resolve_indicator_name, nested_name_present. simpl. unfold dict_mem.
    rewrite Hb. simpl. destruct b; try discriminate; reflexivity. }
  split; [exact Hr|].
  unfold fetch_indicator_name, bind, get, on_world, lift, ret. simpl.
  rewrite Hget. simpl. now rewrite Hr.
Qed.

End CacheBehaviour.

(** ** The dimension table *)

Section DimensionTable.

Context {RT : Runtime}.

Lemma pydict_set_fresh :
  forall k v d,
    (forall kv, In kv d -> py_eq k (fst kv) = false) ->
    pydict_set k v d = d ++ [(k, v)].
Proof.
  intros k v d. induction d as [|[k' v'] d IH]; intros H; simpl; [reflexivity|].
  pose proof (H (k', v') (or_introl eq_refl)) as E. simpl in E. rewrite E.
  rewrite IH; [reflexivity|]. intros kv Hkv. apply H. now right.
Qed.

Lemma member_loop_entries :
  forall ms kvs acc,
    Forall2 (fun m kv => getitem m "id" = Ok (fst kv) /\ getitem m "name" = Ok (snd kv))
      ms kvs ->
    forallb (fun kv => hashable (fst kv)) kvs = true ->
    distinct_keys kvs = true ->
    (forall a b, In a acc -> In b kvs -> py_eq (fst b) (fst a) = false) ->
    member_loop ms acc = Ok (acc ++ kvs).
Proof.
  intros ms kvs acc H. revert acc.
  induction H as [|m [k v] ms kvs [Hid Hname] Hrest IH]; intros acc Hh Hd Hacc; simpl.
  - now rewrite app_nil_r.
  - simpl in Hid, Hname, Hh, Hd. rewrite Hname, Hid. simpl.
    apply andb_prop in Hh. destruct Hh as [Hk Hh]. rewrite Hk.
    apply andb_prop in Hd. destruct Hd as [Hfresh Hd].
    rewrite pydict_set_fresh.
    + rewrite IH; auto.
      * now rewrite <- app_assoc.
      * intros a b Ha Hb. apply in_app_iff in Ha. destruct Ha as [Ha|[<-|[]]].
        -- apply Hacc; [exact Ha | now right].
        -- rewrite forallb_forall in Hfresh. apply negb_true_iff. now apply Hfresh.
    + intros kv Hkv. apply (Hacc kv (k, v)); [exact Hkv | now left].
Qed.

Lemma fold_dict_set_other :
  forall (l : member_map) acc s,
    ~ In s (map (fun kv => py_str (fst kv)) l) ->
    dict_get s (fold_left (fun acc kv => dict_set (py_str (fst kv)) (snd kv) acc) l acc)
    = dict_get s acc.
Proof.
  induction l as [|[k v] l IH]; intros acc s H; simpl; [reflexivity|].
  rewrite IH.
  - apply dict_get_set_other. intros E. apply H. left. exact E.
  - intros Hin. apply H. now right.
Qed.

Lemma str_keys_get :
  forall (l : member_map) acc k v,
    NoDup (map (fun kv => py_str (fst kv)) l) ->
    In (k, v) l ->
    dict_get (py_str k)
      (fold_left (fun acc kv => dict_set (py_str (fst kv)) (snd kv) acc) l acc)
    = Some v.
Proof.
  induction l as [|[k0 v0] l IH]; intros acc k v Hnd Hin; simpl in *; [contradiction|].
  inversion Hnd as [|? ? Hnotin Hnd']; subst.
  destruct Hin as [[= -> ->]|Hin].
  - rewrite fold_dict_set_other by exact Hnotin. apply dict_get_set_same.
  - now apply IH.
Qed.

(** X7.  When the members of a dimension have identifiers that are
    pairwise different, both as keys and once coerced to strings, the
    member map has one entry per member, in order, and the label lookup
    is a round trip: the identifier of every member, coerced to a string,
    is mapped to the name of that member. *)
Theorem member_map_round_trip :
  forall (ms : list pyval) (kvs : member_map),
    Forall2 (fun m kv => getitem m "id" = Ok (fst kv) /\ getitem m "name" = Ok (snd kv))
      ms kvs ->
    forallb (fun kv => hashable (fst kv)) kvs = true ->
    distinct_keys kvs = true ->
    NoDup (map (fun kv => py_str (fst kv)) kvs) ->
    member_loop ms [] = Ok kvs
    /\ forall k v, In (k, v) kvs -> series_map (str_keys kvs) (py_str k) = v.
Proof.
  intros ms kvs Hms Hh Hd Hnd. split.
  - apply (member_loop_entries ms kvs []); auto. intros a b [].
  - intros k v Hin. unfold series_map, str_keys.
    now rewrite (str_keys_get kvs [] k v Hnd Hin).
Qed.

Lemma find_app_first :
  forall (A : Type) (p : A -> bool) (l1 l2 : list A),
    find p (l1 ++ l2) = match find p l1 with Some x => Some x | None => find p l2 end.
Proof.
  intros A p l1 l2. induction l1 as [|x l1 IH]; simpl; [reflexivity|].
  destruct (p x); [reflexivity | exact IH].
Qed.

Lemma getitem_field : forall v k x, getitem v k = Ok x -> field k v = Some x.
Proof.
  intros v k x H. destruct v; try discriminate. simpl in *.
  destruct (dict_get k d); [now injection H as -> | discriminate].
Qed.

Lemma dimension_loop_last :
  forall dims nm0 mms0 nm mms,
    dimension_loop dims nm0 mms0 = Ok (nm, mms) ->
    forall col,
      dict_get col nm
      = match find (names_column col) (rev dims) with
        | Some d => field "name" d
        | None => dict_get col nm0
        end
      /\ dict_get col mms
         = match find (names_column col) (rev dims) with
           | Some d => member_map_of d
           | None => dict_get col mms0
           end.
Proof.
  induction dims as [|d dims IH]; intros nm0 mms0 nm mms H col; simpl in H.
  - injection H as <- <-. simpl. auto.
  - destruct (getitem d "id") as [i|] eqn:Ei; simpl in H; [|discriminate].
    destruct (getitem d "name") as [name|] eqn:En; simpl in H; [|discriminate].
    destruct (getitem d "members") as [members|] eqn:Em; simpl in H; [|discriminate].
    destruct (iter members) as [ms|] eqn:Eit; simpl in H; [|discriminate].
    destruct (member_loop ms []) as [mm|] eqn:Eml; simpl in H; [|discriminate].
    remember (String "d" (String "i" (String "m" (String "_" (py_str i))))) as c eqn:Ec.
    assert (Hc : dim_column_of d = Some c).
    { unfold dim_column_of. rewrite (getitem_field _ _ _ Ei). simpl. now rewrite Ec. }
    destruct (IH _ _ _ _ H col) as [Hn Hm]. rewrite Hn, Hm. clear IH Hn Hm H.
    simpl rev. rewrite find_app_first.
    destruct (find (names_column col) (rev dims)); [auto|].
    simpl find. unfold names_column at 1 2. rewrite Hc.
    destruct (String.eqb c col) eqn:E.
    + apply String.eqb_eq in E. subst col.
      unfold member_map_of. rewrite (getitem_field _ _ _ Em), Eit, Eml.
      rewrite (getitem_field _ _ _ En).
      now rewrite !dict_get_set_same.
    + apply String.eqb_neq in E. now rewrite !dict_get_set_other.
Qed.

(** X8.  In the dimension table the last dimension of the response that
    stands for a coded column decides: its display name and its member
    map are the ones recorded for the column, replacing those of an
    earlier dimension with the same identifier; a column that no
    dimension stands for is not in the table.  The two maps have the
    same keys, without duplicates, all of the form [dim_<id>]. *)
Theorem later_dimension_replaces_earlier :
  forall dd nm mms,
    dimension_table dd = Ok (nm, mms) ->
    exists b ds l,
      getitem dd "body" = Ok b
      /\ getitem b "dimensions" = Ok ds
      /\ iter ds = Ok l
      /\ (forall col,
            dict_get col nm = and_then (find (names_column col) (rev l)) (field "name")
            /\ dict_get col mms = and_then (find (names_column col) (rev l)) member_map_of)
      /\ map fst nm = map fst mms
      /\ NoDup (map fst mms)
      /\ Forall is_dimension_column (map fst mms).
Proof.
  intros dd nm mms H. pose proof (dimension_table_keys dd nm mms H) as Hkeys.
  unfold dimension_table in H.
  destruct (getitem dd "body") as [b|] eqn:Eb; simpl in H; [|discriminate].
  destruct (getitem b "dimensions") as [ds|] eqn:Ed; simpl in H; [|discriminate].
  destruct (iter ds) as [l|] eqn:El; simpl in H; [|discriminate].
  exists b, ds, l. repeat split; try reflexivity; try tauto.
  - destruct (dimension_loop_last l [] [] nm mms H col) as [Hn _]. rewrite Hn.
    destruct (find (names_column col) (rev l)); reflexivity.
  - destruct (dimension_loop_last l [] [] nm mms H col) as [_ Hm]. rewrite Hm.
    destruct (find (names_column col) (rev l)); reflexivity.
Qed.

End DimensionTable.

(** ** The scripts *)

Section ScriptProperties.

Context {RT : Runtime} {W : Type} {WD : World W}.

Variable describe : DataFrame -> string -> result unit.

Lemma cepal_data_all_skipped :
  forall lang ids (st : state W),
    all_skipped lang ids (world st) = true ->
    exists st',
      cepal_data ids lang None None None false "cepalstat_indicators.csv" st
      = (Ok None, st').
Proof.
  intros lang ids st H.
  destruct (fetch_all_skipped lang ids [] st H) as [st1 [l [Hf _]]].
  eexists. unfold cepal_data, bind at 1. rewrite Hf. reflexivity.
Qed.

(** X14.  Neither script checks for [None]: when indicator 4470 is
    skipped, [cepal_data] returns [None] and both scripts end with
    [AttributeError] at their first use of the frame. *)
Theorem scripts_fail_without_data :
  forall (st : state W),
    all_skipped "en" [4470] (world st) = true ->
    fst (analyze_data_script describe st) = Raise AttributeError
    /\ fst (test_data_script describe st) = Raise AttributeError.
Proof.
  intros st H. destruct (cepal_data_all_skipped "en" [4470] st H) as [st' Hc].
  unfold analyze_data_script, test_data_script, bind. rewrite Hc. split; reflexivity.
Qed.

Lemma column_loop_accumulates :
  forall df cols r0 m0,
    (forall col, In col cols -> describe df col = Ok tt) ->
    column_loop describe df cols r0 m0
    = Ok (match r0 with Some x => Some x | None => find is_region_name cols end,
          match find is_month_name (rev cols) with Some x => Some x | None => m0 end).
Proof.
  intros df cols. induction cols as [|col cols IH]; intros r0 m0 Hd; simpl.
  - destruct r0; reflexivity.
  - rewrite (Hd col (or_introl eq_refl)). simpl.
    rewrite IH by (intros c Hc; apply Hd; now right).
    rewrite find_app_first. simpl.
    destruct (find is_month_name (rev cols)); destruct (is_region_name col);
      destruct (is_month_name col); destruct r0; reflexivity.
Qed.

(** X15.  When every column can be described, the loop of
    [analyze_data.py] ends with, as region column, the first column whose
    lower-cased name contains "division", "country" or "area", and as
    month column the last column whose lower-cased name contains "month":
    the first match is kept for the region, each later match replaces
    the month. *)
Theorem region_is_first_match_month_is_last :
  forall df cols,
    (forall col, In col cols -> describe df col = Ok tt) ->
    column_loop describe df cols None None
    = Ok (find is_region_name cols, find is_month_name (rev cols)).
Proof.
  intros df cols Hd. rewrite column_loop_accumulates by exact Hd.
  destruct (find is_month_name (rev cols)); reflexivity.
Qed.

Lemma find_nonempty_name :
  forall (p : string -> bool) cols c,
    p "" = false -> find p cols = Some c -> c <> "".
Proof.
  intros p cols c Hp H ->. apply find_some in H. destruct H as [_ H]. congruence.
Qed.

(** X16.  When [analyze_data.py] finds a region column and a month
    column in a frame that has no [value] column, it ends with [KeyError]
    at the selection of the sample. *)
Theorem sample_needs_value_column :
  forall df,
    ~ In "dim_85162" (columns df) ->
    ~ In "value" (columns df) ->
    (forall col, In col (columns df) -> describe df col = Ok tt) ->
    find is_region_name (columns df) <> None ->
    find is_month_name (rev (columns df)) <> None ->
    analyze describe df = Raise KeyError.
Proof.
  intros df Hdim Hval Hd Hr Hm. unfold analyze.
  apply mem_false in Hdim. rewrite Hdim.
  rewrite column_loop_accumulates by exact Hd. simpl.
  destruct (find is_region_name (columns df)) as [region|] eqn:Er; [|congruence].
  destruct (find is_month_name (rev (columns df))) as [month|] eqn:Em; [|congruence].
  assert (Hne1 : region <> "").
  { apply (find_nonempty_name is_region_name (columns df)); auto.
    unfold is_region_name. now rewrite str_lower_empty. }
  assert (Hne2 : month <> "").
  { apply (find_nonempty_name is_month_name (rev (columns df))); auto.
    unfold is_month_name. now rewrite str_lower_empty. }
  simpl. apply String.eqb_neq in Hne1, Hne2. rewrite Hne1, Hne2. simpl.
  apply mem_false in Hval. now rewrite Hval.
Qed.

End ScriptProperties.

(** ** Dimensions without a column *)

Section Irrelevance.

Context {RT : Runtime} {W : Type} {WD : World W}.

(** X17.  Dimensions of the table whose coded column is not a column of
    the frame are ignored: when none of them is, step 5 returns the frame
    as it is. *)
Theorem absent_dimensions_add_nothing :
  forall nm mms df,
    (forall dim_col, In dim_col (map fst mms) -> ~ In dim_col (columns df)) ->
    enrich nm mms df = df.
Proof.
  intros nm mms df. unfold enrich.
  induction mms as [|[dc mm] mms IH]; intros H; simpl; [reflexivity|].
  assert (Hdc : mem dc (columns df) = false).
  { apply mem_false. apply H. now left. }
  rewrite Hdc. apply IH. intros dim_col Hin. apply H. now right.
Qed.

End Irrelevance.

(** ** The further properties on the example answers *)

Section FurtherExamples.

Let maize : World disk := table_world maize_api no_excel.
Let mixed : World disk := table_world mixed_api no_excel.
Let rt : Runtime := simple_runtime.

Lemma cepal_data_aborts_on_first_exception_witness :
  exists st2,
    cepal_data (RT:=rt) (WD:=mixed) [1; 9; 2] "en" None None None false "out.csv"
      start_state
    = (Raise JSONDecodeError, st2)
    /\ calls st2 = [data_call 1 "en"; dimensions_call 1 "en"; metadata_call 1 "en";
                    data_call 9 "en"].
Proof.
  eexists. split.
  - change [1; 9; 2] with ([1] ++ 9 :: [2]).
    eapply (cepal_data_aborts_on_first_exception (RT:=rt) (WD:=mixed)); cbv; reflexivity.
  - reflexivity.
Defined.

Lemma cepal_data_requests_witness :
  exists r st' l,
    cepal_data (RT:=rt) (WD:=maize) [1; 2; 3] "en" None None None false "out.csv"
      start_state
    = (r, st')
    /\ calls st' = calls start_state ++ l
    /\ (List.length l <= 9)%nat.
Proof.
  eexists _, _.
  match goal with
  | |- exists l, ?A /\ _ => assert (Hrun : A) by (cbv; reflexivity)
  end.
  destruct (cepal_data_requests (RT:=rt) (WD:=maize) [1; 2; 3] "en" None None None false
              "out.csv" start_state _ _ Hrun) as [l [Hc [_ Hlen]]].
  exists l. split; [exact Hrun|]. split; [exact Hc | exact Hlen].
Defined.

Lemma cepal_data_result_is_rectangular_witness :
  exists df st',
    cepal_data (RT:=rt) (WD:=maize) [1; 2] "en" (Some 2015) None (Some ["bra"]) false
      "out.csv" start_state
    = (Ok (Some df), st')
    /\ well_formed df
    /\ NoDup (columns df)
    /\ In "indicator_id" (columns df).
Proof.
  eexists _, _.
  match goal with
  | |- ?A /\ _ => assert (Hrun : A) by (cbv; reflexivity)
  end.
  split; [exact Hrun|].
  exact (cepal_data_result_is_rectangular (RT:=rt) (WD:=maize) _ _ _ _ _ _ _ _ _ _ Hrun).
Defined.

Lemma filters_keep_columns_and_add_no_row_witness :
  exists dfs st1 df st',
    fetch_all (RT:=rt) (WD:=maize) "en" [1; 2] [] start_state = (Ok dfs, st1)
    /\ cepal_data (RT:=rt) (WD:=maize) [1; 2] "en" (Some 1900) (Some 1901) None false
         "out.csv" start_state
       = (Ok (Some df), st')
    /\ rows df = []
    /\ columns df = columns (concat dfs).
Proof.
  eexists _, _, _, _.
  match goal with
  | |- ?A /\ ?B /\ _ =>
      assert (Hf : A) by reflexivity; assert (Hrun : B) by (cbv; reflexivity)
  end.
  destruct (filters_keep_columns_and_add_no_row (RT:=rt) (WD:=maize) _ _ _ _ _ _ _ _ _ _
              _ _ Hf Hrun) as [_ H].
  split; [exact Hf|]. split; [exact Hrun|]. split; [reflexivity|].
  exact (proj1 (H _ eq_refl)).
Defined.

Lemma year_column_is_a_column_witness :
  find_year_column (RT:=rt) (columns year_frame) = Some "Year"
  /\ In "Year" (columns year_frame).
Proof.
  split; [reflexivity|].
  exact (proj1 (year_column_is_a_column (RT:=rt) (columns year_frame) "Year" eq_refl)).
Defined.

Lemma unfiltered_result_is_not_empty_witness :
  exists df st',
    cepal_data (RT:=rt) (WD:=maize) [1; 2; 3; 4] "en" None None (Some []) true "out.csv"
      start_state
    = (Ok (Some df), st')
    /\ rows df <> [].
Proof.
  eexists _, _.
  match goal with
  | |- ?A /\ _ => assert (Hrun : A) by (cbv; reflexivity)
  end.
  split; [exact Hrun|].
  exact (proj1 (unfiltered_result_is_not_empty (RT:=rt) (WD:=maize) _ _ _ _ _ _ _ _
                  (fun id w => maize_api_good DataEndpoint id w)
                  (or_intror eq_refl) Hrun)).
Defined.


Lemma member_map_round_trip_witness :
  member_loop
    [PyDict [("id", PyInt 10); ("name", PyStr "North")];
     PyDict [("id", PyStr "11"); ("name", PyStr "South")]] []
  = Ok [(PyInt 10, PyStr "North"); (PyStr "11", PyStr "South")]
  /\ series_map
       (str_keys (RT:=rt) [(PyInt 10, PyStr "North"); (PyStr "11", PyStr "South")]) "11"
     = PyStr "South".
Proof.
  destruct (member_map_round_trip (RT:=rt)
              [PyDict [("id", PyInt 10); ("name", PyStr "North")];
               PyDict [("id", PyStr "11"); ("name", PyStr "South")]]
              [(PyInt 10, PyStr "North"); (PyStr "11", PyStr "South")])
    as [Hloop Hget].
  - repeat constructor.
  - reflexivity.
  - reflexivity.
  - repeat constructor; simpl; intuition discriminate.
  - split; [exact Hloop|].
    exact (Hget (PyStr "11") (PyStr "South") (or_intror (or_introl eq_refl))).
Defined.

Lemma later_dimension_replaces_earlier_witness :
  exists nm mms,
    dimension_table (RT:=rt) repeated_dimensions = Ok (nm, mms)
    /\ dict_get "dim_1" nm = Some (PyStr "Region")
    /\ map fst mms = ["dim_1"; "dim_2"].
Proof.
  eexists _, _.
  match goal with
  | |- ?A /\ _ => assert (Htab : A) by (cbv; reflexivity)
  end.
  destruct (later_dimension_replaces_earlier (RT:=rt) repeated_dimensions _ _ Htab)
    as [b [ds [l [Hb [Hds [Hl [Hlast _]]]]]]].
  split; [exact Htab|]. split; [|reflexivity].
  rewrite (proj1 (Hlast "dim_1")).
  cbv in Hb. injection Hb as <-. cbv in Hds. injection Hds as <-.
  cbv in Hl. injection Hl as <-. reflexivity.
Defined.

Lemma scalar_metadata_body_raises_witness :
  fst (fetch_indicator_name (RT:=rt) (WD:=table_world null_body_api no_excel) "en" 1
         start_state)
  = Raise TypeError.
Proof.
  destruct (scalar_metadata_body_raises (RT:=rt) (WD:=table_world null_body_api no_excel)
              "en" 1 start_state [("body", PyNone)] PyNone (world start_state)
              eq_refl eq_refl eq_refl) as [_ H].
  now rewrite H.
Defined.

Lemma cache_write_failure_discards_download_witness :
  load_dimension_data (WD:=faulty_world false excel_table) 5 "en" true unit_state
  = (Ok None,
     {| world := tt; calls := [excel_call 5 "en"];
        logs := [(ERROR, FailedDimensions 5 OSError)] |}).
Proof.
  destruct (cache_write_failure_discards_download (WD:=faulty_world false excel_table)
              5 "en" unit_state year_frame tt eq_refl eq_refl) as [H _].
  exact (H OSError tt eq_refl).
Defined.

Lemma unreadable_cache_raises_witness :
  load_dimension_data (WD:=faulty_world true excel_table) 5 "en" true unit_state
  = (Raise OSError, unit_state).
Proof.
  exact (unreadable_cache_raises (WD:=faulty_world true excel_table) 5 "en" unit_state
           OSError tt eq_refl eq_refl).
Defined.

Lemma second_call_is_served_from_cache_witness :
  exists st',
    (first <- load_dimension_data (WD:=table_world maize_api excel_table) 5 "en" true ;;
     second <- load_dimension_data (WD:=table_world maize_api excel_table) 5 "en" true ;;
     ret (first, second)) start_state
    = (Ok (Some year_frame, Some year_frame), st')
    /\ calls st' = [excel_call 5 "en"].
Proof.
  eexists. split.
  - eapply (second_call_is_served_from_cache (WD:=table_world maize_api excel_table) 5 "en"
              start_state year_frame); reflexivity.
  - reflexivity.
Defined.

Lemma scripts_fail_without_data_witness :
  fst (analyze_data_script (RT:=rt) (WD:=maize) quiet start_state) = Raise AttributeError
  /\ fst (test_data_script (RT:=rt) (WD:=maize) quiet start_state) = Raise AttributeError.
Proof.
  exact (scripts_fail_without_data (RT:=rt) (WD:=maize) quiet start_state eq_refl).
Defined.

Lemma region_is_first_match_month_is_last_witness :
  column_loop (RT:=rt) quiet monthly_frame (columns monthly_frame) None None
  = Ok (Some "Country area", Some "month_id").
Proof.
  rewrite (region_is_first_match_month_is_last (RT:=rt) quiet monthly_frame
             (columns monthly_frame) (fun _ _ => eq_refl)).
  reflexivity.
Defined.

Lemma sample_needs_value_column_witness :
  analyze (RT:=rt) quiet monthly_frame = Raise KeyError.
Proof.
  apply (sample_needs_value_column (RT:=rt) quiet monthly_frame).
  - simpl. intuition discriminate.
  - simpl. intuition discriminate.
  - reflexivity.
  - discriminate.
  - discriminate.
Defined.

Lemma absent_dimensions_add_nothing_witness :
  enrich (RT:=rt) [("dim_9", PyStr "Sex")] [("dim_9", [(PyInt 1, PyStr "Women")])] year_frame
  = year_frame.
Proof.
  apply (absent_dimensions_add_nothing (RT:=rt)).
  intros dim_col [<-|[]]. simpl. intuition discriminate.
Defined.

End FurtherExamples.
